(** * The AI battle engine of [dynamic_prompt_test.py]

    A shallow embedding of the class [AIGameEngine]: the offline generator
    [_call_ai_mock], the live caller [_call_ai_real] with its retry loop, the
    response repairer [extract_json], [initialize_game], [play_round],
    [update_summary], [is_game_over] and [get_game_status]; then the
    constructor, the three menus, [test_api_connection] and the console loop
    of [main].

    Conventions of the embedding.
    - A value decoded by [json.loads] is a [json] term.  Numbers are the
      integers (Python [int], unbounded); non-integer number literals are
      outside the model.  A dict is an association list in insertion order.
    - A [str] is a [string] holding its UTF-8 bytes.  Searching and slicing
      are done on bytes, which agrees with Python on every valid UTF-8 text
      for the ASCII needles the code uses; [py_len] counts code points.
    - A raised exception is a [Raise] result; the engine state is threaded
      through every call, also through one that raises, because the code
      mutates [self.game_data] before some of its failure points.
    - [json.loads], [json.dumps], [repr] (as used by f-strings on lists and
      dicts), the remote endpoint and the wall clock are parameters.
    - [print] has no effect on the state and is left out. *)

From Stdlib Require Import ZArith List String Ascii Bool Lia QArith DecimalString.
From Stdlib Require DecimalPos.
Import ListNotations.
Open Scope string_scope.
Open Scope Z_scope.

Set Implicit Arguments.

(** ** Python values *)

#[warnings="-register-all"]
Inductive json : Type :=
| JNull
| JBool (b : bool)
| JInt (n : Z)
| JStr (s : string)
| JArr (l : list json)
| JObj (o : list (string * json)).

Inductive exn : Type :=
| KeyError | TypeError | AttributeError | JSONDecodeError.

Inductive result (A : Type) : Type :=
| Ok (a : A)
| Raise (e : exn).
Arguments Ok {A} a.
Arguments Raise {A} e.

Definition rbind {A B} (r : result A) (k : A -> result B) : result B :=
  match r with Ok a => k a | Raise e => Raise e end.

Declare Scope res_scope.
Delimit Scope res_scope with res.
Notation "x <- c ;; k" := (rbind c (fun x => k))
  (at level 61, c at next level, right associativity) : res_scope.

(** *** Dict access on association lists *)

Fixpoint lookup (k : string) (o : list (string * json)) : option json :=
  match o with
  | [] => None
  | (k', v) :: o' => if String.eqb k k' then Some v else lookup k o'
  end.

(** [d[k] = v]: an existing key keeps its position, a new one goes last. *)
Fixpoint assign (k : string) (v : json) (o : list (string * json))
  : list (string * json) :=
  match o with
  | [] => [(k, v)]
  | (k', v') :: o' =>
      if String.eqb k k' then (k, v) :: o' else (k', v') :: assign k v o'
  end.

(** *** Strings *)

Fixpoint contains (needle hay : string) : bool :=
  if String.prefix needle hay then true
  else match hay with
       | EmptyString => false
       | String _ hay' => contains needle hay'
       end.

(** [str.find] and [str.rfind] for a needle, as byte offsets, [-1] if absent. *)
Fixpoint find_from (needle hay : string) (i : Z) : Z :=
  if String.prefix needle hay then i
  else match hay with
       | EmptyString => -1
       | String _ hay' => find_from needle hay' (i + 1)
       end.

Definition find (needle hay : string) : Z := find_from needle hay 0.

Fixpoint rfind_from (needle hay : string) (i : Z) : Z :=
  match hay with
  | EmptyString => if String.prefix needle hay then i else -1
  | String _ hay' =>
      let r := rfind_from needle hay' (i + 1) in
      if r =? -1 then (if String.prefix needle hay then i else -1) else r
  end.

Definition rfind (needle hay : string) : Z := rfind_from needle hay 0.

(** [text[start:end_]] for [0 <= start] and [0 <= end_]. *)
Definition slice (text : string) (start end_ : Z) : string :=
  String.substring (Z.to_nat start) (Z.to_nat (end_ - start)) text.

Definition is_space (c : ascii) : bool :=
  let n := nat_of_ascii c in
  ((9 <=? n) && (n <=? 13) || (28 <=? n) && (n <=? 32))%nat.

Fixpoint lstrip (s : string) : string :=
  match s with
  | String c s' => if is_space c then lstrip s' else s
  | EmptyString => EmptyString
  end.

Fixpoint rstrip (s : string) : string :=
  match s with
  | EmptyString => EmptyString
  | String c s' =>
      match rstrip s' with
      | EmptyString => if is_space c then EmptyString else String c EmptyString
      | r => String c r
      end
  end.

(** [str.strip()] for the ASCII white space; the Unicode white space beyond
    it is not recognised by this byte-level model. *)
Definition strip (s : string) : string := rstrip (lstrip s).

(** [s.split('\n')] *)
Fixpoint split_lines (s : string) : list string :=
  match s with
  | EmptyString => [EmptyString]
  | String c s' =>
      match split_lines s' with
      | [] => [String c EmptyString]
      | l :: ls =>
          if Ascii.eqb c "010"%char then EmptyString :: l :: ls
          else String c l :: ls
      end
  end.

Definition nl : string := String "010"%char EmptyString.

Definition join_lines (ls : list string) : string := String.concat nl ls.

(** [len(s)]: the number of code points, that is of bytes that are not
    UTF-8 continuation bytes. *)
Fixpoint py_len (s : string) : Z :=
  match s with
  | EmptyString => 0
  | String c s' =>
      let n := nat_of_ascii c in
      (if ((128 <=? n) && (n <? 192))%nat then 0 else 1) + py_len s'
  end.

Definition dec (n : Z) : string := NilZero.string_of_int (Z.to_int n).

(** *** Dynamic operations *)

Definition as_int (v : json) : option Z :=
  match v with
  | JInt n => Some n
  | JBool b => Some (Z.b2z b)
  | _ => None
  end.

(** [a == b] *)
Fixpoint py_eqb (a b : json) : bool :=
  match a, b with
  | JNull, JNull => true
  | JBool x, JBool y => Bool.eqb x y
  | JBool x, JInt n => Z.b2z x =? n
  | JInt n, JBool y => n =? Z.b2z y
  | JInt n, JInt m => n =? m
  | JStr s, JStr t => String.eqb s t
  | JArr l, JArr m =>
      (fix all2 (l : list json) (m : list json) : bool :=
         match l, m with
         | [], [] => true
         | x :: l', y :: m' => py_eqb x y && all2 l' m'
         | _, _ => false
         end) l m
  | JObj o, JObj p =>
      (List.length o =? List.length p)%nat &&
      (fix every (o : list (string * json)) : bool :=
         match o with
         | [] => true
         | (k, v) :: o' =>
             match lookup k p with
             | Some w => py_eqb v w
             | None => false
             end && every o'
         end) o
  | _, _ => false
  end.

(** [bool(v)] *)
Definition truthy (v : json) : bool :=
  match v with
  | JNull => false
  | JBool b => b
  | JInt n => negb (n =? 0)
  | JStr s => negb (String.eqb s "")
  | JArr l => match l with [] => false | _ => true end
  | JObj o => match o with [] => false | _ => true end
  end.

(** [v in l] for a list [l] *)
Definition py_mem (v : json) (l : list json) : bool := existsb (py_eqb v) l.

(** [k in c] for a string literal [k] *)
Definition py_in (k : string) (c : json) : result bool :=
  match c with
  | JObj o => Ok (match lookup k o with Some _ => true | None => false end)
  | JArr l => Ok (py_mem (JStr k) l)
  | JStr s => Ok (contains k s)
  | _ => Raise TypeError
  end.

(** [c[k]] *)
Definition getitem (c : json) (k : string) : result json :=
  match c with
  | JObj o => match lookup k o with Some v => Ok v | None => Raise KeyError end
  | _ => Raise TypeError
  end.

(** [c.get(k, d)] *)
Definition get (c : json) (k : string) (d : json) : result json :=
  match c with
  | JObj o => Ok (match lookup k o with Some v => v | None => d end)
  | _ => Raise AttributeError
  end.

(** [c[k] = v] *)
Definition setitem (c : json) (k : string) (v : json) : result json :=
  match c with
  | JObj o => Ok (JObj (assign k v o))
  | _ => Raise TypeError
  end.

(** [min(a, b)] and [max(a, b)] return the first of two equal arguments. *)
Definition py_min (a b : json) : result json :=
  match as_int a, as_int b with
  | Some x, Some y => Ok (if y <? x then b else a)
  | _, _ => Raise TypeError
  end.

Definition py_max (a b : json) : result json :=
  match as_int a, as_int b with
  | Some x, Some y => Ok (if x <? y then b else a)
  | _, _ => Raise TypeError
  end.

(** [v <= n] *)
Definition py_le (v : json) (n : Z) : result bool :=
  match as_int v with
  | Some x => Ok (x <=? n)
  | None => Raise TypeError
  end.

(** [v - n] *)
Definition py_sub (v : json) (n : Z) : result Z :=
  match as_int v with
  | Some x => Ok (x - n)
  | None => Raise TypeError
  end.

(** ** Engine state *)

(** [self.game_data]: a dict with a fixed set of keys.  The fields the
    backend's record is copied into are dynamically typed. *)
Record game_state : Type := mkGame {
  player : json;
  enemy : json;
  battle_reason : json;
  history : list json;
  current_summary : string;
  round : Z;
  phase : json;
  mode : string;
  enemy_skills_used : list json
}.

(** The attributes of [self], followed by what the calls did to the world:
    the number of requests sent to the endpoint and the seconds slept (most
    recent last). *)
Record engine : Type := mkEngine {
  use_mock : bool;
  ai_enabled : bool;
  client : bool;
  game_data : game_state;
  api_calls : nat;
  slept : list Z
}.

Definition set_player (v : json) (g : game_state) : game_state :=
  mkGame v (enemy g) (battle_reason g) (history g) (current_summary g)
         (round g) (phase g) (mode g) (enemy_skills_used g).
Definition set_enemy (v : json) (g : game_state) : game_state :=
  mkGame (player g) v (battle_reason g) (history g) (current_summary g)
         (round g) (phase g) (mode g) (enemy_skills_used g).
Definition set_history (h : list json) (g : game_state) : game_state :=
  mkGame (player g) (enemy g) (battle_reason g) h (current_summary g)
         (round g) (phase g) (mode g) (enemy_skills_used g).
Definition set_summary (s : string) (g : game_state) : game_state :=
  mkGame (player g) (enemy g) (battle_reason g) (history g) s
         (round g) (phase g) (mode g) (enemy_skills_used g).
Definition set_round (r : Z) (g : game_state) : game_state :=
  mkGame (player g) (enemy g) (battle_reason g) (history g) (current_summary g)
         r (phase g) (mode g) (enemy_skills_used g).
Definition set_phase (p : json) (g : game_state) : game_state :=
  mkGame (player g) (enemy g) (battle_reason g) (history g) (current_summary g)
         (round g) p (mode g) (enemy_skills_used g).
Definition set_skills_used (l : list json) (g : game_state) : game_state :=
  mkGame (player g) (enemy g) (battle_reason g) (history g) (current_summary g)
         (round g) (phase g) (mode g) l.

Definition set_game (g : game_state) (e : engine) : engine :=
  mkEngine (use_mock e) (ai_enabled e) (client e) g (api_calls e) (slept e).

(** *** The monad of engine methods *)

Definition M (A : Type) : Type := engine -> result A * engine.

Definition ret {A} (a : A) : M A := fun e => (Ok a, e).

Definition bind {A B} (m : M A) (k : A -> M B) : M B :=
  fun e => match m e with
           | (Ok a, e') => k a e'
           | (Raise x, e') => (Raise x, e')
           end.

Definition lift {A} (r : result A) : M A := fun e => (r, e).

Definition read : M game_state := fun e => (Ok (game_data e), e).

Definition modify (f : game_state -> game_state) : M unit :=
  fun e => (Ok tt, set_game (f (game_data e)) e).

(** [try: m except Exception: pass] *)
Definition try_pass {A} (m : M A) : M (option A) :=
  fun e => match m e with
           | (Ok a, e') => (Ok (Some a), e')
           | (Raise _, e') => (Ok None, e')
           end.

Declare Scope eng_scope.
Delimit Scope eng_scope with eng.
Notation "x <- c ;; k" := (bind c (fun x => k))
  (at level 61, c at next level, right associativity) : eng_scope.
Notation "c ;;; k" := (bind c (fun _ => k))
  (at level 61, right associativity) : eng_scope.

(** ** Constants of the source *)

Definition dq : string := String "034"%char EmptyString.

(** A double-quoted word of a prompt. *)
Definition q (s : string) : string := dq ++ s ++ dq.

Definition skill (name_ : string) (cost : Z) (effect : string) : json :=
  JObj [("name", JStr name_); ("cost", JInt cost); ("effect", JStr effect)].

(** The record the offline generator answers an initialisation prompt with. *)
Definition seed_record : json :=
  JObj
    [("player",
      JObj [("name", JStr "流浪武士"); ("hp", JInt 1200); ("max_hp", JInt 1200);
            ("conc", JInt 100); ("atk", JInt 3); ("spd", JInt 7);
            ("skills",
             JArr [skill "拔刀斩" 20 "造成200-300伤害";
                   skill "心眼" 15 "下回合攻击必中";
                   skill "剑气护体" 25 "获得200点护盾";
                   skill "冥想" 0 "恢复50点CONC"])]);
     ("enemy",
      JObj [("name", JStr "机械章鱼"); ("hp", JInt 1500); ("max_hp", JInt 1500);
            ("conc", JInt 100); ("atk", JInt 4); ("spd", JInt 5);
            ("skills",
             JArr [skill "触手鞭笞" 20 "造成180-280伤害";
                   skill "油污喷射" 25 "降低目标SPD 3点";
                   skill "电磁脉冲" 30 "沉默目标1回合";
                   skill "能量回收" 0 "恢复40点CONC"])]);
     ("reason", JStr "争夺最后的反物质电池，为各自的族群续命");
     ("opening", JStr "硝烟弥漫的废土上，武士的刀锋与机械的触手遥相对峙...")].

(** [self.game_data] as [__init__] leaves it. *)
Definition initial_game (mock : bool) : game_state :=
  let blank := JObj [("name", JStr ""); ("hp", JInt 0); ("max_hp", JInt 0);
                     ("conc", JInt 0); ("skills", JArr [])] in
  {| player := blank;
     enemy := blank;
     battle_reason := JStr "";
     history := [];
     current_summary := "战斗开始...";
     round := 0;
     phase := JStr "init";
     mode := if mock then "模拟" else "真实AI";
     enemy_skills_used := [] |}.

(** The engine after [__init__].  [live] says that a key was given, the
    client library was found and the probe request was answered, which is
    the one path on which [__init__] sets [ai_enabled]; on every other
    path it falls back to the mock mode. *)
Definition new_engine (live : bool) : engine :=
  {| use_mock := negb live;
     ai_enabled := live;
     client := live;
     game_data := initial_game (negb live);
     api_calls := 0;
     slept := [] |}.

(** The text of the two prompts around their holes. *)
Definition init_prompt_tail : string :=
  "创建战斗初始设定，包括：
1. 双方属性（HP 800-2000, CONC 100, ATK 1-5星, SPD 1-10）
2. 各4个技能（必须包含1个恢复CONC技能）
3. 有创意的开战原因
4. 简短的开场剧情

请严格使用以下JSON格式，不要添加任何额外文本，不要使用markdown：
{
    " ++ q "player" ++ ": {
        " ++ q "name" ++ ": " ++ q "角色名称" ++ ",
        " ++ q "hp" ++ ": 数值,
        " ++ q "max_hp" ++ ": 数值,
        " ++ q "conc" ++ ": 数值,
        " ++ q "atk" ++ ": 数值,
        " ++ q "spd" ++ ": 数值,
        " ++ q "skills" ++ ": [
            {" ++ q "name" ++ ": " ++ q "技能1" ++ ", " ++ q "cost" ++ ": 消耗值, " ++ q "effect" ++ ": " ++ q "效果描述" ++ "},
            {" ++ q "name" ++ ": " ++ q "技能2" ++ ", " ++ q "cost" ++ ": 消耗值, " ++ q "effect" ++ ": " ++ q "效果描述" ++ "},
            {" ++ q "name" ++ ": " ++ q "技能3" ++ ", " ++ q "cost" ++ ": 消耗值, " ++ q "effect" ++ ": " ++ q "效果描述" ++ "},
            {" ++ q "name" ++ ": " ++ q "技能4" ++ ", " ++ q "cost" ++ ": 消耗值, " ++ q "effect" ++ ": " ++ q "效果描述" ++ "}
        ]
    },
    " ++ q "enemy" ++ ": {
        " ++ q "name" ++ ": " ++ q "角色名称" ++ ",
        " ++ q "hp" ++ ": 数值,
        " ++ q "max_hp" ++ ": 数值,
        " ++ q "conc" ++ ": 数值,
        " ++ q "atk" ++ ": 数值,
        " ++ q "spd" ++ ": 数值,
        " ++ q "skills" ++ ": [
            {" ++ q "name" ++ ": " ++ q "技能1" ++ ", " ++ q "cost" ++ ": 消耗值, " ++ q "effect" ++ ": " ++ q "效果描述" ++ "},
            {" ++ q "name" ++ ": " ++ q "技能2" ++ ", " ++ q "cost" ++ ": 消耗值, " ++ q "effect" ++ ": " ++ q "效果描述" ++ "},
            {" ++ q "name" ++ ": " ++ q "技能3" ++ ", " ++ q "cost" ++ ": 消耗值, " ++ q "effect" ++ ": " ++ q "效果描述" ++ "},
            {" ++ q "name" ++ ": " ++ q "技能4" ++ ", " ++ q "cost" ++ ": 消耗值, " ++ q "effect" ++ ": " ++ q "效果描述" ++ "}
        ]
    },
    " ++ q "reason" ++ ": " ++ q "开战原因描述" ++ ",
    " ++ q "opening" ++ ": " ++ q "开场剧情描述" ++ "
}
        ".

Definition round_prompt_tail : string :=
  "

重要要求：
1. 必须包含敌人的反击行动或技能使用，不能只有单方面攻击
2. 战斗叙述要体现双方互动，描述敌人的应对策略
3. 根据双方行动合理计算伤害和状态变化
4. 敌人会根据当前战况智能选择技能进行反击

请生成包含以下内容的JSON，不要添加任何额外文本，不要使用markdown：
{
    " ++ q "narrative" ++ ": " ++ q "生动的战斗叙述（必须包含玩家的行动和敌人的反击行动）" ++ ",
    " ++ q "status" ++ ": {
        " ++ q "player_hp" ++ ": 战斗后玩家HP（0-2000之间的整数）,
        " ++ q "enemy_hp" ++ ": 战斗后敌人HP（0-2000之间的整数）,
        " ++ q "player_conc" ++ ": 战斗后玩家CONC（0-100之间的整数）,
        " ++ q "enemy_conc" ++ ": 战斗后敌人CONC（0-100之间的整数）
    },
    " ++ q "phase" ++ ": " ++ q "battle/climax/ending" ++ ",
    " ++ q "dialogue" ++ ": " ++ q "本回合的关键对话" ++ ",
    " ++ q "damage_dealt" ++ ": " ++ q "双方造成的伤害描述" ++ ",
    " ++ q "player_skill_used" ++ ": " ++ q "玩家使用的技能名称" ++ ",
    " ++ q "enemy_skill_used" ++ ": " ++ q "敌人使用的技能名称" ++ "
}
        ".

(** One narrative stage of the offline generator. *)
Record stage : Type := mkStage {
  narrative : string;
  enemy_skill : string;
  dialogue : string;
  player_damage : Z;
  enemy_damage : Z
}.

(** [range(n)] *)
Definition range (n : Z) : list Z := map Z.of_nat (seq 0 (Z.to_nat n)).

(** [l[-n:]] *)
Definition last_n {A} (n : nat) (l : list A) : list A :=
  skipn (List.length l - n) l.

(** [len(l)] *)
Definition len {A} (l : list A) : Z := Z.of_nat (List.length l).

Definition t07 : Q := (7 # 10)%Q.
Definition t08 : Q := (8 # 10)%Q.
Definition t03 : Q := (3 # 10)%Q.

(** What [get_game_status] returns: a dict with these eight keys. *)
Record status : Type := mkStatus {
  s_round : Z;
  s_phase : json;
  s_player : json;
  s_enemy : json;
  s_game_over : bool;
  s_history_count : Z;
  s_mode : string;
  s_enemy_skills_used : list json
}.

(** ** The methods of [AIGameEngine] *)

Section Engine.

(** [json.loads] ([None] when it raises [JSONDecodeError]), [json.dumps]
    with the options the source passes, and [repr]. *)
Variable json_loads : string -> option json.
Variable json_dumps : json -> string.
Variable py_repr : json -> string.

(** The endpoint: what the request numbered [k] (counted from the
    construction of the engine), sent with a prompt and a temperature,
    comes back with: the text of the message, or [None] for any raised
    exception.  An answer without a text is outside the model. *)
Variable api : nat -> string -> Q -> option string.

(** [str(v)], as an f-string formats a value. *)
Definition fmt (v : json) : string :=
  match v with
  | JStr s => s
  | JInt n => dec n
  | JBool true => "True"
  | JBool false => "False"
  | JNull => "None"
  | _ => py_repr v
  end.

(** The [if]/[elif] ladder of [_call_ai_mock] on [current_round]. *)
Definition mock_stage (g : game_state) (current_round : Z) : result stage :=
  (if current_round <=? 3 then
     pn <- getitem (player g) "name" ;;
     en <- getitem (enemy g) "name" ;;
     Ok (mkStage ("第" ++ dec current_round ++ "回合：" ++ fmt pn ++ "发起攻击，"
                  ++ fmt en ++ "迅速反击！")
                 "触手鞭笞"
                 (fmt en ++ "：尝尝这个！" ++ "触手鞭笞" ++ "！")
                 120 100)
   else if current_round <=? 6 then
     en <- getitem (enemy g) "name" ;;
     Ok (mkStage ("第" ++ dec current_round ++ "回合：战斗进入白热化！双方都使出强力技能！")
                 "油污喷射"
                 (fmt en ++ "：检测到威胁升级，启动" ++ "油污喷射" ++ "！")
                 180 150)
   else if current_round <=? 9 then
     en <- getitem (enemy g) "name" ;;
     Ok (mkStage ("第" ++ dec current_round ++ "回合：决胜时刻！双方都拿出了压箱底的绝招！")
                 "电磁脉冲"
                 (fmt en ++ "：释放" ++ "电磁脉冲" ++ "，你无法行动了！")
                 250 200)
   else
     Ok (mkStage ("第" ++ dec current_round ++ "回合：战斗接近尾声，双方都已精疲力竭...")
                 "触手鞭笞"
                 "双方都喘息着，寻找最后一击的机会..."
                 100 80))%res.

(** The record of a round, from the stage and the four numbers. *)
Definition round_record (st : stage) (player_hp enemy_hp player_conc enemy_conc : Z)
  : json :=
  let phase_ :=
    if (player_hp <=? 300) || (enemy_hp <=? 300) then "climax"
    else if (player_hp <=? 0) || (enemy_hp <=? 0) then "ending"
    else "battle" in
  JObj [("narrative", JStr (narrative st));
        ("status", JObj [("player_hp", JInt player_hp);
                         ("enemy_hp", JInt enemy_hp);
                         ("player_conc", JInt player_conc);
                         ("enemy_conc", JInt enemy_conc)]);
        ("phase", JStr phase_);
        ("dialogue", JStr (dialogue st));
        ("damage_dealt", JStr ("玩家造成了" ++ dec (player_damage st)
                               ++ "点伤害，敌人造成了" ++ dec (enemy_damage st)
                               ++ "点伤害"));
        ("enemy_skill_used", JStr (enemy_skill st));
        ("player_skill_used", JStr "模拟技能")].

Definition _call_ai_mock (prompt : string) (temperature : Q) : M string :=
  (if contains "初始化" prompt || contains "初始设定" prompt then
     ret (json_dumps seed_record)
   else
     g <- read ;;
     let current_round := round g + 1 in
     st <- lift (mock_stage g current_round) ;;
     (if py_mem (JStr (enemy_skill st)) (enemy_skills_used g) then ret tt
      else modify (fun g' =>
             set_skills_used (enemy_skills_used g' ++ [JStr (enemy_skill st)])%list g')) ;;;
     php <- lift (v <- getitem (player g) "hp" ;; py_sub v (enemy_damage st))%res ;;
     ehp <- lift (v <- getitem (enemy g) "hp" ;; py_sub v (player_damage st))%res ;;
     pc <- lift (v <- getitem (player g) "conc" ;; py_sub v 20)%res ;;
     ec <- lift (v <- getitem (enemy g) "conc" ;; py_sub v 25)%res ;;
     ret (json_dumps (round_record st (Z.max 0 php) (Z.max 0 ehp)
                                   (Z.max 0 pc) (Z.max 0 ec))))%eng.

Definition count_call (e : engine) : engine :=
  mkEngine (use_mock e) (ai_enabled e) (client e) (game_data e)
           (S (api_calls e)) (slept e).

(** [time.sleep(t)] *)
Definition sleep (t : Z) (e : engine) : engine :=
  mkEngine (use_mock e) (ai_enabled e) (client e) (game_data e)
           (api_calls e) (slept e ++ [t])%list.

(** The [for attempt in range(max_retries)] loop of [_call_ai_real], on
    the attempts still to make; the empty list is the statement after the
    loop. *)
Fixpoint retry (prompt : string) (temperature : Q) (max_retries : Z)
         (attempts : list Z) : M string :=
  match attempts with
  | [] => _call_ai_mock prompt temperature
  | attempt :: rest =>
      fun e =>
        let e1 := count_call e in
        match api (api_calls e) prompt temperature with
        | Some content => (Ok content, e1)
        | None =>
            if attempt <? max_retries - 1 then
              retry prompt temperature max_retries rest (sleep (2 ^ attempt) e1)
            else _call_ai_mock prompt temperature e1
        end
  end.

Definition _call_ai_real (prompt : string) (temperature : Q) (max_retries : Z)
  : M string :=
  fun e =>
    if negb (client e) || negb (ai_enabled e) then
      _call_ai_mock prompt temperature e
    else retry prompt temperature max_retries (range max_retries) e.

Definition call_ai (prompt : string) (temperature : Q) : M string :=
  fun e =>
    if use_mock e || negb (ai_enabled e) then _call_ai_mock prompt temperature e
    else _call_ai_real prompt temperature 3 e.

(** The third repair of [extract_json]: every line stripped, the lines
    starting with [//] or [#] dropped, the rest joined again. *)
Definition strip_comments (text : string) : string :=
  join_lines
    (filter (fun line => negb (String.prefix "//" line)
                         && negb (String.prefix "#" line))
            (map strip (split_lines text))).

(** The second repair: from the first opening brace to the last closing
    one, when both are there. *)
Definition braces (text : string) : option string :=
  let start := find "{" text in
  let end_ := rfind "}" text + 1 in
  if negb (start =? -1) && negb (end_ =? 0) then Some (slice text start end_)
  else None.

Definition loads_or_raise (t : string) : M json :=
  match json_loads t with
  | Some v => ret v
  | None => lift (Raise JSONDecodeError)
  end.

Definition extract_json (text : string) : M json :=
  let text := strip text in
  match json_loads text with
  | Some v => ret v
  | None =>
      match match braces text with
            | Some json_str => json_loads json_str
            | None => None
            end with
      | Some v => ret v
      | None =>
          match json_loads (strip_comments text) with
          | Some v => ret v
          | None =>
              (t <- _call_ai_mock "模拟数据" t07 ;; loads_or_raise t)%eng
          end
      end
  end.

Definition init_prompt (player_name enemy_name : string) : string :=
  nl ++ "请为" ++ player_name ++ "和" ++ enemy_name ++ init_prompt_tail.

Definition init_entry (data narrative_ : json) (now : string) : json :=
  JObj [("type", JStr "init"); ("data", data); ("narrative", narrative_);
        ("timestamp", JStr now)].

(** The three assignments under [if "hp" not in ...]. *)
Definition fill_defaults (hp : Z) (c : json) : result json :=
  (c1 <- setitem c "hp" (JInt hp) ;;
   c2 <- setitem c1 "max_hp" (JInt hp) ;;
   setitem c2 "conc" (JInt 100))%res.

Definition seed_game (p en reason : json) (g : game_state) : game_state :=
  mkGame p en reason (history g) (current_summary g) 0 (JStr "battle")
         (mode g) [].

(** [self.game_data["history"].append(entry)].  An entry is kept by value.
    In the source the two combatants inside the entry of an initialisation
    are the dicts of [game_data] themselves and show their later hp and
    conc; the history is read again only to build the prompt of the
    summary, through [repr]. *)
Definition push_history (entry : json) (g : game_state) : game_state :=
  set_history (history g ++ [entry])%list g.

(** [initialize_game]; [now] is the clock reading put in the history
    entry.  [data["player"]] and [self.game_data["player"]] are one dict in
    the source, so the defaults written to the latter show in the record
    that is stored in the history and returned. *)
Definition initialize_game (player_name enemy_name now : string) : M json :=
  (response <- call_ai (init_prompt player_name enemy_name) t08 ;;
   data <- extract_json response ;;
   has_player <- lift (py_in "player" data) ;;
   has_both <- (if has_player then lift (py_in "enemy" data) else ret false) ;;
   if has_both then
     p <- lift (getitem data "player") ;;
     en <- lift (getitem data "enemy") ;;
     reason <- lift (get data "reason" (JStr "未知原因")) ;;
     modify (seed_game p en reason) ;;;
     p_has_hp <- lift (py_in "hp" p) ;;
     p' <- (if p_has_hp then ret p
            else p1 <- lift (fill_defaults 1000 p) ;;
                 modify (set_player p1) ;;; ret p1) ;;
     en_has_hp <- lift (py_in "hp" en) ;;
     en' <- (if en_has_hp then ret en
             else en1 <- lift (fill_defaults 1200 en) ;;
                  modify (set_enemy en1) ;;; ret en1) ;;
     data1 <- lift (setitem data "player" p') ;;
     data2 <- lift (setitem data1 "enemy" en') ;;
     opening <- lift (get data2 "opening" (JStr "战斗开始！")) ;;
     modify (push_history (init_entry data2 opening now)) ;;;
     ret data2
   else
     t <- _call_ai_mock "初始化" t07 ;;
     default_data <- loads_or_raise t ;;
     p <- lift (getitem default_data "player") ;;
     en <- lift (getitem default_data "enemy") ;;
     reason <- lift (get default_data "reason" (JStr "未知原因")) ;;
     modify (seed_game p en reason) ;;;
     opening <- lift (get default_data "opening" (JStr "战斗开始！")) ;;
     modify (push_history (init_entry default_data opening now)) ;;;
     ret default_data)%eng.

(** [summary and len(summary) > 10] *)
Definition worth_keeping (summary : string) : bool :=
  negb (String.eqb summary "") && (10 <? py_len summary).

Definition summary_prompt (g : game_state) : string :=
  "请用100字以内总结以下战斗历史：" ++ py_repr (JArr (last_n 3 (history g))).

Definition update_summary : M unit :=
  (g <- read ;;
   if len (history g) <? 2 then ret tt
   else if len (history g) mod 3 =? 0 then
     r <- try_pass (call_ai (summary_prompt g) t03) ;;
     match r with
     | Some summary =>
         if worth_keeping summary then modify (set_summary summary) else ret tt
     | None => ret tt
     end
   else ret tt)%eng.

(** One line of [enemy_skills_desc]. *)
Definition skill_line (sk : json) : result string :=
  (n <- get sk "name" (JStr "未知技能") ;;
   ef <- get sk "effect" (JStr "效果未知") ;;
   Ok ("  - " ++ fmt n ++ ": " ++ fmt ef))%res.

Fixpoint skill_lines (l : list json) : result (list string) :=
  match l with
  | [] => Ok []
  | sk :: l' =>
      (s <- skill_line sk ;; ss <- skill_lines l' ;; Ok (s :: ss))%res
  end.

(** The list comprehension over [enemy_skills], whatever it iterates: the
    elements of a list, the keys of a dict, the characters of a string. *)
Definition skills_desc (enemy_skills : json) : result string :=
  match enemy_skills with
  | JArr l => (ss <- skill_lines l ;; Ok (join_lines ss))%res
  | JObj [] => Ok ""
  | JObj (_ :: _) => Raise AttributeError
  | JStr s => if String.eqb s "" then Ok "" else Raise AttributeError
  | _ => Raise TypeError
  end.

Definition round_prompt (g : game_state) (player_action : string) : result string :=
  (enemy_skills <- get (enemy g) "skills" (JArr []) ;;
   enemy_skills_desc <- skills_desc enemy_skills ;;
   player_hp <- getitem (player g) "hp" ;;
   enemy_hp <- getitem (enemy g) "hp" ;;
   player_name <- getitem (player g) "name" ;;
   enemy_name <- getitem (enemy g) "name" ;;
   Ok (nl ++ "基于以下战斗上下文生成本回合内容：" ++ nl
       ++ "战斗摘要：" ++ current_summary g ++ nl
       ++ "当前回合：第" ++ dec (round g) ++ "回合" ++ nl
       ++ "当前阶段：" ++ fmt (phase g) ++ nl
       ++ "玩家角色：" ++ fmt player_name ++ " (HP: " ++ fmt player_hp ++ ")" ++ nl
       ++ "敌人角色：" ++ fmt enemy_name ++ " (HP: " ++ fmt enemy_hp ++ ")" ++ nl
       ++ "玩家行动：" ++ player_action ++ nl ++ nl
       ++ "敌人可用技能：" ++ nl
       ++ enemy_skills_desc ++ round_prompt_tail))%res.

(** [status[key] = max(0, min(status.get(key, 0), hi))] *)
Definition clamp (status_ : json) (key : string) (hi : Z) : result json :=
  (v <- get status_ key (JInt 0) ;;
   lo <- py_min v (JInt hi) ;;
   c <- py_max (JInt 0) lo ;;
   setitem status_ key c)%res.

(** [self.game_data[who][key] = v] *)
Definition write_player (key : string) (v : json) : M unit :=
  (g <- read ;;
   p <- lift (setitem (player g) key v) ;;
   modify (set_player p))%eng.

Definition write_enemy (key : string) (v : json) : M unit :=
  (g <- read ;;
   p <- lift (setitem (enemy g) key v) ;;
   modify (set_enemy p))%eng.

(** The block under [if "status" in round_data].  [status] is the dict
    inside [round_data], so the clamped values show in the record. *)
Definition validate_status (round_data : json) : M json :=
  (has_status <- lift (py_in "status" round_data) ;;
   if has_status then
     status0 <- lift (getitem round_data "status") ;;
     status_ <- lift (s1 <- clamp status0 "player_hp" 2000 ;;
                      s2 <- clamp s1 "enemy_hp" 2000 ;;
                      s3 <- clamp s2 "player_conc" 100 ;;
                      clamp s3 "enemy_conc" 100)%res ;;
     php <- lift (getitem status_ "player_hp") ;;
     write_player "hp" php ;;;
     ehp <- lift (getitem status_ "enemy_hp") ;;
     write_enemy "hp" ehp ;;;
     pc <- lift (getitem status_ "player_conc") ;;
     write_player "conc" pc ;;;
     ec <- lift (getitem status_ "enemy_conc") ;;
     write_enemy "conc" ec ;;;
     lift (setitem round_data "status" status_)
   else ret round_data)%eng.

Definition round_entry (round_ : Z) (action : string)
           (player_skill enemy_skill_ data : json) (now : string) : json :=
  JObj [("round", JInt round_); ("action", JStr action);
        ("player_skill", player_skill); ("enemy_skill", enemy_skill_);
        ("data", data); ("timestamp", JStr now)].

(** [play_round] up to and including [extract_json]: the repaired record
    of the backend. *)
Definition fetch_round (player_action : string) : M json :=
  (modify (fun g => set_round (round g + 1) g) ;;;
   g <- read ;;
   prompt <- lift (round_prompt g player_action) ;;
   response <- call_ai prompt t07 ;;
   extract_json response)%eng.

(** [play_round] after the validation and before the summary: the
    phase, the used skills and the history entry. *)
Definition log_round (round_data : json) (player_action now : string) : M unit :=
  (has_phase <- lift (py_in "phase" round_data) ;;
   (if has_phase then
      ph <- lift (getitem round_data "phase") ;; modify (set_phase ph)
    else ret tt) ;;;
   enemy_skill_used <- lift (get round_data "enemy_skill_used" (JStr "")) ;;
   g <- read ;;
   (if truthy enemy_skill_used
       && negb (py_mem enemy_skill_used (enemy_skills_used g))
    then modify (fun g' =>
           set_skills_used (enemy_skills_used g' ++ [enemy_skill_used])%list g')
    else ret tt) ;;;
   player_skill <- lift (get round_data "player_skill_used" (JStr "")) ;;
   modify (fun g' =>
     push_history (round_entry (round g') player_action player_skill
                               enemy_skill_used round_data now) g'))%eng.

(** [play_round] after the validation. *)
Definition record_round (round_data : json) (player_action now : string) : M json :=
  (log_round round_data player_action now ;;;
   update_summary ;;;
   ret round_data)%eng.

(** [play_round] from the validation of the record on. *)
Definition settle_round (round_data : json) (player_action now : string) : M json :=
  (round_data <- validate_status round_data ;;
   record_round round_data player_action now)%eng.

Definition play_round (player_action now : string) : M json :=
  (round_data <- fetch_round player_action ;;
   settle_round round_data player_action now)%eng.

Definition is_game_over (g : game_state) : result bool :=
  (php <- getitem (player g) "hp" ;;
   a <- py_le php 0 ;;
   if a then Ok true
   else
     ehp <- getitem (enemy g) "hp" ;;
     b <- py_le ehp 0 ;;
     if b then Ok true
     else if py_eqb (phase g) (JStr "ending") then Ok true
     else Ok (20 <=? round g))%res.

(** [c.copy()], by value: defined on a dict and on a list. *)
Definition py_copy (c : json) : result json :=
  match c with
  | JObj _ | JArr _ => Ok c
  | _ => Raise AttributeError
  end.

Definition get_game_status (g : game_state) : result status :=
  (p <- py_copy (player g) ;;
   en <- py_copy (enemy g) ;;
   over <- is_game_over g ;;
   Ok (mkStatus (round g) (phase g) p en over (len (history g)) (mode g)
                (enemy_skills_used g)))%res.

End Engine.

(** ** A reader and a writer for JSON texts

    [dumps] writes what [json.dumps(v, ensure_ascii=False, indent=2)]
    writes; [loads] reads the integer fragment of JSON ([None] for a text
    [json.loads] rejects, and also for what is outside the model: a number
    with a fraction or an exponent and a [\u] escape).  They stand for the
    library in the examples below. *)

Module Codec.

Definition bs : ascii := "092"%char.
Definition quote_char : ascii := "034"%char.

Definition hex_digit (n : nat) : ascii :=
  ascii_of_nat (if (n <? 10)%nat then 48 + n else 87 + n).

Definition escape_char (c : ascii) : string :=
  let n := nat_of_ascii c in
  if (n =? 34)%nat then String bs dq
  else if (n =? 92)%nat then String bs (String bs "")
  else if (n =? 10)%nat then String bs "n"
  else if (n =? 13)%nat then String bs "r"
  else if (n =? 9)%nat then String bs "t"
  else if (n =? 8)%nat then String bs "b"
  else if (n =? 12)%nat then String bs "f"
  else if (n <? 32)%nat then
    String bs ("u00" ++ String (hex_digit (n / 16)) (String (hex_digit (n mod 16)) ""))
  else String c "".

Fixpoint escape (s : string) : string :=
  match s with
  | EmptyString => EmptyString
  | String c s' => escape_char c ++ escape s'
  end.

Definition quoted (s : string) : string := dq ++ escape s ++ dq.

Fixpoint spaces (n : nat) : string :=
  match n with
  | O => ""
  | S k => " " ++ spaces k
  end.

Fixpoint dumps_at (lvl : nat) (v : json) : string :=
  match v with
  | JNull => "null"
  | JBool true => "true"
  | JBool false => "false"
  | JInt n => dec n
  | JStr s => quoted s
  | JArr [] => "[]"
  | JArr l =>
      "[" ++ nl
      ++ (fix items (l : list json) : string :=
            match l with
            | [] => ""
            | x :: l' =>
                spaces (2 * S lvl) ++ dumps_at (S lvl) x
                ++ match l' with [] => "" | _ => "," ++ nl end
                ++ items l'
            end) l
      ++ nl ++ spaces (2 * lvl) ++ "]"
  | JObj [] => "{}"
  | JObj o =>
      "{" ++ nl
      ++ (fix members (o : list (string * json)) : string :=
            match o with
            | [] => ""
            | (k, x) :: o' =>
                spaces (2 * S lvl) ++ quoted k ++ ": " ++ dumps_at (S lvl) x
                ++ match o' with [] => "" | _ => "," ++ nl end
                ++ members o'
            end) o
      ++ nl ++ spaces (2 * lvl) ++ "}"
  end.

Definition dumps (v : json) : string := dumps_at 0 v.

Definition is_json_space (c : ascii) : bool :=
  let n := nat_of_ascii c in
  ((n =? 32) || (n =? 9) || (n =? 10) || (n =? 13))%nat.

Fixpoint skip_ws (s : string) : string :=
  match s with
  | String c s' => if is_json_space c then skip_ws s' else s
  | EmptyString => EmptyString
  end.

Definition unescape (c : ascii) : option ascii :=
  let n := nat_of_ascii c in
  if (n =? 34)%nat then Some quote_char
  else if (n =? 92)%nat then Some bs
  else if (n =? 47)%nat then Some "/"%char
  else if (n =? 110)%nat then Some "010"%char
  else if (n =? 114)%nat then Some "013"%char
  else if (n =? 116)%nat then Some "009"%char
  else if (n =? 98)%nat then Some "008"%char
  else if (n =? 102)%nat then Some "012"%char
  else None.

(** The rest of a string literal, after its opening quote. *)
Fixpoint read_string (s : string) : option (string * string) :=
  match s with
  | EmptyString => None
  | String c r =>
      if Ascii.eqb c quote_char then Some (EmptyString, r)
      else if Ascii.eqb c bs then
        match r with
        | String e r' =>
            match unescape e, read_string r' with
            | Some ch, Some (t, rest) => Some (String ch t, rest)
            | _, _ => None
            end
        | EmptyString => None
        end
      else if (nat_of_ascii c <? 32)%nat then None
      else match read_string r with
           | Some (t, rest) => Some (String c t, rest)
           | None => None
           end
  end.

Definition digit (c : ascii) : option Z :=
  let n := nat_of_ascii c in
  if ((48 <=? n) && (n <=? 57))%nat then Some (Z.of_nat n - 48) else None.

Fixpoint read_digits (s : string) (acc : Z) : Z * string :=
  match s with
  | String c r =>
      match digit c with
      | Some d => read_digits r (10 * acc + d)
      | None => (acc, s)
      end
  | EmptyString => (acc, s)
  end.

Definition starts_fraction (s : string) : bool :=
  match s with
  | String c _ =>
      Ascii.eqb c "."%char || Ascii.eqb c "e"%char || Ascii.eqb c "E"%char
  | EmptyString => false
  end.

(** An unsigned integer literal: [0], or a digit from 1 to 9 and more
    digits. *)
Definition read_nat (s : string) : option (Z * string) :=
  match s with
  | String c r =>
      match digit c with
      | Some 0 => if starts_fraction r then None else Some (0, r)
      | Some d =>
          let (n, rest) := read_digits r d in
          if starts_fraction rest then None else Some (n, rest)
      | None => None
      end
  | EmptyString => None
  end.

Definition read_literal (word : string) (v : json) (s : string)
  : option (json * string) :=
  if String.prefix word s then
    Some (v, String.substring (String.length word)
                              (String.length s - String.length word) s)
  else None.

Fixpoint read_value (fuel : nat) (s : string) : option (json * string) :=
  match fuel with
  | O => None
  | S f =>
      match skip_ws s with
      | EmptyString => None
      | String c r =>
          if Ascii.eqb c "{"%char then
            match skip_ws r with
            | String c' r' =>
                if Ascii.eqb c' "}"%char then Some (JObj [], r')
                else read_members f r []
            | EmptyString => None
            end
          else if Ascii.eqb c "["%char then
            match skip_ws r with
            | String c' r' =>
                if Ascii.eqb c' "]"%char then Some (JArr [], r')
                else read_items f r []
            | EmptyString => None
            end
          else if Ascii.eqb c quote_char then
            match read_string r with
            | Some (t, rest) => Some (JStr t, rest)
            | None => None
            end
          else if Ascii.eqb c "-"%char then
            match read_nat r with
            | Some (n, rest) => Some (JInt (- n), rest)
            | None => None
            end
          else if Ascii.eqb c "t"%char then read_literal "true" (JBool true) (String c r)
          else if Ascii.eqb c "f"%char then read_literal "false" (JBool false) (String c r)
          else if Ascii.eqb c "n"%char then read_literal "null" JNull (String c r)
          else
            match read_nat (String c r) with
            | Some (n, rest) => Some (JInt n, rest)
            | None => None
            end
      end
  end

with read_members (fuel : nat) (s : string) (acc : list (string * json))
  : option (json * string) :=
  match fuel with
  | O => None
  | S f =>
      match skip_ws s with
      | String c r =>
          if Ascii.eqb c quote_char then
            match read_string r with
            | Some (k, rest) =>
                match skip_ws rest with
                | String c1 rest1 =>
                    if Ascii.eqb c1 ":"%char then
                      match read_value f rest1 with
                      | Some (v, rest2) =>
                          match skip_ws rest2 with
                          | String c2 rest3 =>
                              if Ascii.eqb c2 ","%char then
                                read_members f rest3 (assign k v acc)
                              else if Ascii.eqb c2 "}"%char then
                                Some (JObj (assign k v acc), rest3)
                              else None
                          | EmptyString => None
                          end
                      | None => None
                      end
                    else None
                | EmptyString => None
                end
            | None => None
            end
          else None
      | EmptyString => None
      end
  end

with read_items (fuel : nat) (s : string) (acc : list json)
  : option (json * string) :=
  match fuel with
  | O => None
  | S f =>
      match read_value f s with
      | Some (v, rest) =>
          match skip_ws rest with
          | String c rest1 =>
              if Ascii.eqb c ","%char then read_items f rest1 (acc ++ [v])%list
              else if Ascii.eqb c "]"%char then Some (JArr (acc ++ [v])%list, rest1)
              else None
          | EmptyString => None
          end
      | None => None
      end
  end.

Definition loads (s : string) : option json :=
  match read_value (2 * String.length s + 2) s with
  | Some (v, rest) =>
      match skip_ws rest with
      | EmptyString => Some v
      | _ => None
      end
  | None => None
  end.

(** [repr] of a value: single quotes around a string unless it holds one
    and no double quote, [True], [False] and [None], and a space after
    each comma and colon.  Bytes above 127 are kept, as Python keeps the
    printable characters they encode. *)
Definition repr_char (quote : ascii) (c : ascii) : string :=
  let n := nat_of_ascii c in
  if Ascii.eqb c quote then String bs (String c "")
  else if (n =? 92)%nat then String bs (String bs "")
  else if (n =? 10)%nat then String bs "n"
  else if (n =? 13)%nat then String bs "r"
  else if (n =? 9)%nat then String bs "t"
  else if ((n <? 32) || (n =? 127))%nat then
    String bs ("x" ++ String (hex_digit (n / 16)) (String (hex_digit (n mod 16)) ""))
  else String c "".

Definition repr_str (s : string) : string :=
  let sq := "039"%char in
  let quote :=
    if contains (String sq "") s && negb (contains dq s) then quote_char else sq in
  String quote "" ++ String.concat "" (map (repr_char quote) (list_ascii_of_string s))
  ++ String quote "".

Fixpoint repr (v : json) : string :=
  match v with
  | JNull => "None"
  | JBool true => "True"
  | JBool false => "False"
  | JInt n => dec n
  | JStr s => repr_str s
  | JArr l =>
      "[" ++ (fix items (l : list json) : string :=
                match l with
                | [] => ""
                | x :: l' =>
                    repr x ++ match l' with [] => "" | _ => ", " end ++ items l'
                end) l ++ "]"
  | JObj o =>
      "{" ++ (fix members (o : list (string * json)) : string :=
                match o with
                | [] => ""
                | (k, x) :: o' =>
                    repr_str k ++ ": " ++ repr x
                    ++ match o' with [] => "" | _ => ", " end ++ members o'
                end) o ++ "}"
  end.

End Codec.

(** ** Vocabulary of the statements *)

(** The integer under key [k] of a combatant, if there is one. *)
Definition int_of (c : json) (k : string) : option Z :=
  match getitem c k with
  | Ok v => as_int v
  | Raise _ => None
  end.

Definition has_key (c : json) (k : string) : Prop :=
  exists v, getitem c k = Ok v.

(** What the offline generator reads of a combatant is there: a name, and
    integers for hp and conc. *)
Definition readable (c : json) : Prop :=
  has_key c "name" /\ (exists n, int_of c "hp" = Some n)
  /\ (exists n, int_of c "conc" = Some n).

Definition mock_ready (g : game_state) : Prop :=
  readable (player g) /\ readable (enemy g).

(** [l'] is [l] with entries appended. *)
Definition grown {A} (l l' : list A) : Prop := exists more, l' = (l ++ more)%list.

(** What a call of the backend leaves alone: the attributes of the engine
    and every key of [game_data] but the used skills, which may grow, and
    the summary. *)
Record frame_s (e e' : engine) : Prop := mkFrame {
  fr_use_mock : use_mock e' = use_mock e;
  fr_ai_enabled : ai_enabled e' = ai_enabled e;
  fr_client : client e' = client e;
  fr_player : player (game_data e') = player (game_data e);
  fr_enemy : enemy (game_data e') = enemy (game_data e);
  fr_reason : battle_reason (game_data e') = battle_reason (game_data e);
  fr_history : history (game_data e') = history (game_data e);
  fr_round : round (game_data e') = round (game_data e);
  fr_phase : phase (game_data e') = phase (game_data e);
  fr_mode : mode (game_data e') = mode (game_data e);
  fr_skills : grown (enemy_skills_used (game_data e))
                    (enemy_skills_used (game_data e'))
}.

Definition frame (e e' : engine) : Prop :=
  frame_s e e'
  /\ current_summary (game_data e') = current_summary (game_data e).

(** The prompt carries one of the two markers of an initialisation. *)
Definition marked (prompt : string) : bool :=
  contains "初始化" prompt || contains "初始设定" prompt.

(** The number of requests, of the three starting at request [c], that
    fail before one answers. *)
Definition failures (api : nat -> string -> Q -> option string)
           (c : nat) (prompt : string) (temperature : Q) : nat :=
  match api c prompt temperature with
  | Some _ => 0
  | None =>
      match api (S c) prompt temperature with
      | Some _ => 1
      | None =>
          match api (S (S c)) prompt temperature with
          | Some _ => 2
          | None => 3
          end
      end
  end.

(** The seconds slept after [n] failures of three attempts. *)
Definition backoff (n : nat) : list Z :=
  match n with
  | O => []
  | 1%nat => [1]
  | _ => [1; 2]
  end.

(** The value under [k] of a status dict, [0] when there is none, and
    its clamp. *)
Definition field0 (st : list (string * json)) (k : string) : Z :=
  match lookup k st with
  | Some v => match as_int v with Some n => n | None => 0 end
  | None => 0
  end.

Definition clampz (n hi : Z) : Z := Z.max 0 (Z.min n hi).

(** The round counter moved on, as [play_round] starts. *)
Definition next_round (e : engine) : engine :=
  set_game (set_round (round (game_data e) + 1) (game_data e)) e.

(** The guard of [update_summary], on the length of the history. *)
Definition summary_due (n : Z) : bool := (2 <=? n) && (n mod 3 =? 0).

(** The game-over predicate in the words of the specification. *)
Definition spec_game_over (g : game_state) : Prop :=
  int_of (player g) "hp" = Some 0 \/ int_of (enemy g) "hp" = Some 0
  \/ phase g = JStr "ending" \/ 20 <= round g.

(** The range invariant in the words of the specification. *)
Definition in_range (c : json) : Prop :=
  exists hp max_hp conc,
    int_of c "hp" = Some hp /\ int_of c "max_hp" = Some max_hp
    /\ int_of c "conc" = Some conc
    /\ 0 <= hp <= max_hp /\ 0 <= conc <= 100.

Definition spec_invariant (g : game_state) : Prop :=
  in_range (player g) /\ in_range (enemy g).

(** The ranges the code clamps to. *)
Definition clamped (c : json) : Prop :=
  exists hp conc,
    int_of c "hp" = Some hp /\ int_of c "conc" = Some conc
    /\ 0 <= hp <= 2000 /\ 0 <= conc <= 100.

(** A status dict whose four fields, where present, are integers. *)
Definition numeric_status (st : list (string * json)) : Prop :=
  forall k, In k ["player_hp"; "enemy_hp"; "player_conc"; "enemy_conc"] ->
            forall v, lookup k st = Some v -> exists n, as_int v = Some n.

(** The repairs of the response repairer, in the order of the
    specification, as attempts on the stripped text. *)
Definition attempts (json_loads : string -> option json) (text : string)
  : list (option json) :=
  [ json_loads text;
    match braces text with Some s => json_loads s | None => None end;
    json_loads (strip_comments text) ].

Fixpoint first_success {A} (l : list (option A)) : option A :=
  match l with
  | [] => None
  | Some a :: _ => Some a
  | None :: l' => first_success l'
  end.

(** The text the offline generator answers a round prompt with, as a
    function of the state alone. *)
Definition offline_text (json_dumps py_repr : json -> string) (g : game_state)
  : result string :=
  (st <- mock_stage py_repr g (round g + 1) ;;
   php <- (v <- getitem (player g) "hp" ;; py_sub v (enemy_damage st)) ;;
   ehp <- (v <- getitem (enemy g) "hp" ;; py_sub v (player_damage st)) ;;
   pc <- (v <- getitem (player g) "conc" ;; py_sub v 20) ;;
   ec <- (v <- getitem (enemy g) "conc" ;; py_sub v 25) ;;
   Ok (json_dumps (round_record st (Z.max 0 php) (Z.max 0 ehp)
                                (Z.max 0 pc) (Z.max 0 ec))))%res.

(** The stages in the words of the specification: rounds 1 to 3, 4 to 6,
    7 to 9 and 10 on, each with its enemy skill and its pair of damages
    (dealt by the player, dealt by the enemy). *)
Definition spec_bucket (n : Z) : option (string * Z * Z) :=
  if (1 <=? n) && (n <=? 3) then Some ("触手鞭笞", 120, 100)
  else if (4 <=? n) && (n <=? 6) then Some ("油污喷射", 180, 150)
  else if (7 <=? n) && (n <=? 9) then Some ("电磁脉冲", 250, 200)
  else if 10 <=? n then Some ("触手鞭笞", 100, 80)
  else None.

(** The engine sends its prompts to the endpoint. *)
Definition live (e : engine) : bool :=
  negb (use_mock e) && ai_enabled e && client e.

(** The engine after [n] failed requests and the waits between them. *)
Definition after_failures (n : nat) (e : engine) : engine :=
  mkEngine (use_mock e) (ai_enabled e) (client e) (game_data e)
           (api_calls e + Nat.min (S n) 3) (slept e ++ backoff n)%list.

(** ** Scenarios *)

(** An endpoint that follows a script: the request numbered [k] gets the
    [k]-th outcome, and fails beyond the script. *)
Definition scripted (outcomes : list (option string))
  : nat -> string -> Q -> option string :=
  fun k _ _ => nth k outcomes None.

(** The offline engine after [initialize_game], with the reference reader
    and writer; the names of the call do not show in it. *)
Definition offline_seeded (t0 : string) : engine :=
  snd (initialize_game Codec.loads Codec.dumps Codec.repr (scripted [])
                       "" "" t0 (new_engine false)).

(** The engine linked with the reference reader and writer. *)
Definition run_initialize (api : nat -> string -> Q -> option string) :=
  initialize_game Codec.loads Codec.dumps Codec.repr api.
Definition run_round (api : nat -> string -> Q -> option string) :=
  play_round Codec.loads Codec.dumps Codec.repr api.
Definition run_fetch (api : nat -> string -> Q -> option string) :=
  fetch_round Codec.loads Codec.dumps Codec.repr api.
Definition run_ask (api : nat -> string -> Q -> option string) :=
  call_ai Codec.dumps Codec.repr api.
Definition run_mock := _call_ai_mock Codec.dumps Codec.repr.
Definition run_repair := extract_json Codec.loads Codec.dumps Codec.repr.

(** The live engine after [initialize_game "A" "B"], its endpoint
    following the script. *)
Definition live_after_init (script : list (option string)) : engine :=
  snd (run_initialize (scripted script) "A" "B" "12:00:00" (new_engine true)).

Definition status_of (player_hp enemy_hp player_conc enemy_conc : Z) : json :=
  JObj [("player_hp", JInt player_hp); ("enemy_hp", JInt enemy_hp);
        ("player_conc", JInt player_conc); ("enemy_conc", JInt enemy_conc)].

(** Replies of a backend: a round that kills the player and calls the
    phase ["battle"], a round without status, a round with more hp than
    the player can have, and three seeds: one out of every range, one with
    a negative hp, one with empty combatants. *)
Definition reply_dead : json :=
  JObj [("narrative", JStr "the player falls");
        ("status", status_of 0 500 50 50);
        ("phase", JStr "battle")].

Definition reply_quiet : json :=
  JObj [("narrative", JStr "nothing happens")].

Definition reply_high : json :=
  JObj [("narrative", JStr "the player recovers");
        ("status", status_of 1800 900 50 50);
        ("phase", JStr "battle")].

Definition combatant (name_ : string) (hp max_hp conc : Z) : json :=
  JObj [("name", JStr name_); ("hp", JInt hp); ("max_hp", JInt max_hp);
        ("conc", JInt conc); ("skills", JArr [])].

Definition seed_wild : json :=
  JObj [("player", combatant "A" 5000 1200 250);
        ("enemy", combatant "B" 800 800 100)].

Definition seed_negative : json :=
  JObj [("player", combatant "A" (-1) 1000 100);
        ("enemy", combatant "B" 800 800 100)].

Definition seed_bare : json :=
  JObj [("player", JObj []); ("enemy", JObj [])].

Definition script_dead : list (option string) :=
  [Some (Codec.dumps seed_record); Some (Codec.dumps reply_dead)].
Definition script_quiet : list (option string) :=
  [Some (Codec.dumps seed_record); Some (Codec.dumps reply_quiet)].
Definition script_high : list (option string) :=
  [Some (Codec.dumps seed_record); Some (Codec.dumps reply_high)].
Definition script_wild : list (option string) :=
  [Some (Codec.dumps seed_wild)].
Definition script_negative : list (option string) :=
  [Some (Codec.dumps seed_negative)].
Definition script_bare : list (option string) :=
  [Some (Codec.dumps seed_bare)].
Definition script_seed : list (option string) :=
  [Some (Codec.dumps seed_record)].

(** ** Objects and references

    [get_game_status] hands out dicts and lists, which the caller may
    mutate.  What such a mutation reaches is a matter of which objects are
    shared, so here the dicts and lists live in a store and a value refers
    to them by address.  [get_game_status] is the same method as above,
    read at this level. *)

Module Heap.

Definition loc : Type := nat.

Inductive val : Type :=
| VNull
| VBool (b : bool)
| VInt (n : Z)
| VStr (s : string)
| VRef (l : loc).

Inductive obj : Type :=
| ODict (o : list (string * val))
| OList (l : list val).

(** The store: the object at address [l] is the [l]-th one. *)
Definition heap : Type := list obj.

Definition alloc (o : obj) (h : heap) : val * heap :=
  (VRef (List.length h), (h ++ [o])%list).

Definition deref (h : heap) (v : val) : option obj :=
  match v with
  | VRef l => nth_error h l
  | _ => None
  end.

Fixpoint update {A} (i : nat) (x : A) (l : list A) : list A :=
  match l, i with
  | [], _ => []
  | _ :: l', O => x :: l'
  | y :: l', S i' => y :: update i' x l'
  end.

Fixpoint alookup (k : string) (o : list (string * val)) : option val :=
  match o with
  | [] => None
  | (k', v) :: o' => if String.eqb k k' then Some v else alookup k o'
  end.

Fixpoint aassign (k : string) (v : val) (o : list (string * val))
  : list (string * val) :=
  match o with
  | [] => [(k, v)]
  | (k', v') :: o' =>
      if String.eqb k k' then (k, v) :: o' else (k', v') :: aassign k v o'
  end.

Fixpoint aremove (k : string) (o : list (string * val)) : list (string * val) :=
  match o with
  | [] => []
  | (k', v') :: o' =>
      if String.eqb k k' then o' else (k', v') :: aremove k o'
  end.

(** A decoded value put in the store: every dict and list is a new
    object. *)
Fixpoint load (v : json) (h : heap) : val * heap :=
  match v with
  | JNull => (VNull, h)
  | JBool b => (VBool b, h)
  | JInt n => (VInt n, h)
  | JStr s => (VStr s, h)
  | JArr l =>
      let '(vs, h1) :=
        (fix items (l : list json) (h : heap) : list val * heap :=
           match l with
           | [] => ([], h)
           | x :: l' =>
               let '(vx, h1) := load x h in
               let '(vs, h2) := items l' h1 in
               (vx :: vs, h2)
           end) l h in
      alloc (OList vs) h1
  | JObj o =>
      let '(vs, h1) :=
        (fix members (o : list (string * json)) (h : heap)
           : list (string * val) * heap :=
           match o with
           | [] => ([], h)
           | (k, x) :: o' =>
               let '(vx, h1) := load x h in
               let '(vs, h2) := members o' h1 in
               ((k, vx) :: vs, h2)
           end) o h in
      alloc (ODict vs) h1
  end.

Fixpoint all_some {A} (l : list (option A)) : option (list A) :=
  match l with
  | [] => Some []
  | Some a :: l' =>
      match all_some l' with
      | Some r => Some (a :: r)
      | None => None
      end
  | None :: _ => None
  end.

(** The value a reference stands for, read through the store down to
    [fuel] levels. *)
Fixpoint reify (fuel : nat) (h : heap) (v : val) : option json :=
  match v with
  | VNull => Some JNull
  | VBool b => Some (JBool b)
  | VInt n => Some (JInt n)
  | VStr s => Some (JStr s)
  | VRef l =>
      match fuel with
      | O => None
      | S f =>
          match nth_error h l with
          | Some (OList vs) =>
              option_map JArr (all_some (map (reify f h) vs))
          | Some (ODict o) =>
              option_map JObj
                (all_some (map (fun kv => option_map (pair (fst kv))
                                                     (reify f h (snd kv))) o))
          | None => None
          end
      end
  end.

(** [self.game_data] put in an empty store. *)
Definition boot (g : game_state) : val * heap :=
  let '(p, h) := load (player g) [] in
  let '(e, h) := load (enemy g) h in
  let '(r, h) := load (battle_reason g) h in
  let '(hi, h) := load (JArr (history g)) h in
  let '(ph, h) := load (phase g) h in
  let '(sk, h) := load (JArr (enemy_skills_used g)) h in
  alloc (ODict [("player", p); ("enemy", e); ("battle_reason", r);
                ("history", hi); ("current_summary", VStr (current_summary g));
                ("round", VInt (round g)); ("phase", ph);
                ("mode", VStr (mode g)); ("enemy_skills_used", sk)]) h.

(** [self.game_data] read back from the store. *)
Definition game_of (h : heap) (gd : val) : option game_state :=
  match reify (S (List.length h)) h gd with
  | Some (JObj o) =>
      match lookup "player" o, lookup "enemy" o, lookup "battle_reason" o with
      | Some p, Some e, Some r =>
          match lookup "history" o, lookup "current_summary" o,
                lookup "round" o with
          | Some (JArr hi), Some (JStr s), Some (JInt n) =>
              match lookup "phase" o, lookup "mode" o,
                    lookup "enemy_skills_used" o with
              | Some ph, Some (JStr m), Some (JArr sk) =>
                  Some (mkGame p e r hi s n ph m sk)
              | _, _, _ => None
              end
          | _, _, _ => None
          end
      | _, _, _ => None
      end
  | _ => None
  end.

Definition obind {A B} (x : option A) (k : A -> option B) : option B :=
  match x with Some a => k a | None => None end.

Declare Scope opt_scope.
Delimit Scope opt_scope with opt.
Notation "x <- c ;; k" := (obind c (fun x => k))
  (at level 61, c at next level, right associativity) : opt_scope.

(** [v.copy()]: a new object with the entries of the old one. *)
Definition copy (v : val) (h : heap) : option (val * heap) :=
  (o <- deref h v ;; Some (alloc o h))%opt.

(** [get_game_status]; [None] where it raises. *)
Definition get_game_status (gd : val) (h : heap) : option (val * heap) :=
  (root <- deref h gd ;;
   match root with
   | OList _ => None
   | ODict g =>
       round_ <- alookup "round" g ;;
       phase_ <- alookup "phase" g ;;
       p <- alookup "player" g ;;
       pc <- copy p h ;;
       e <- alookup "enemy" g ;;
       ec <- copy e (snd pc) ;;
       gs <- game_of (snd ec) gd ;;
       over <- match is_game_over gs with Ok b => Some b | Raise _ => None end ;;
       hi <- alookup "history" g ;;
       entries <- deref (snd ec) hi ;;
       count <- match entries with
                | OList l => Some (len l)
                | ODict o => Some (len o)
                end ;;
       mode_ <- alookup "mode" g ;;
       sk <- alookup "enemy_skills_used" g ;;
       sc <- copy sk (snd ec) ;;
       Some (alloc (ODict [("round", round_); ("phase", phase_);
                           ("player", fst pc); ("enemy", fst ec);
                           ("game_over", VBool over);
                           ("history_count", VInt count);
                           ("mode", mode_);
                           ("enemy_skills_used", fst sc)]) (snd sc))
   end)%opt.

(** What a caller does to an object it holds. *)
Inductive action : Type :=
| SetKey (k : string) (v : val)
| DelKey (k : string)
| Append (v : val)
| SetIndex (i : nat) (v : val)
| Clear.

Definition act (a : action) (o : obj) : option obj :=
  match a, o with
  | SetKey k v, ODict d => Some (ODict (aassign k v d))
  | DelKey k, ODict d =>
      match alookup k d with
      | Some _ => Some (ODict (aremove k d))
      | None => None
      end
  | Append v, OList l => Some (OList (l ++ [v])%list)
  | SetIndex i v, OList l =>
      if (i <? List.length l)%nat then Some (OList (update i v l)) else None
  | Clear, ODict _ => Some (ODict [])
  | Clear, OList _ => Some (OList [])
  | _, _ => None
  end.

(** One step into a value: a key of a dict or an index of a list. *)
Inductive step : Type :=
| Key (k : string)
| Index (i : nat).

Fixpoint resolve (h : heap) (v : val) (path : list step) : option val :=
  match path with
  | [] => Some v
  | s :: path' =>
      match deref h v, s with
      | Some (ODict d), Key k =>
          (x <- alookup k d ;; resolve h x path')%opt
      | Some (OList l), Index i =>
          (x <- nth_error l i ;; resolve h x path')%opt
      | _, _ => None
      end
  end.

(** The caller applies [a] to the object at [path] below [root]. *)
Definition mutate (h : heap) (root : val) (path : list step) (a : action)
  : option heap :=
  (target <- resolve h root path ;;
   match target with
   | VRef l =>
       o <- nth_error h l ;;
       o' <- act a o ;;
       Some (update l o' h)
   | _ => None
   end)%opt.

(** The store of the offline engine after [initialize_game], its
    snapshot, and a caller that appends to the skills of the player it
    finds in the snapshot. *)
Definition seeded_store : val * heap := boot (game_data (offline_seeded "12:00:00")).

Definition seeded_snapshot : option (val * heap) :=
  get_game_status (fst seeded_store) (snd seeded_store).

Definition meddle (path : list step) (a : action) : option heap :=
  (s <- seeded_snapshot ;; mutate (snd s) (fst s) path a)%opt.

End Heap.

(** ** More vocabulary *)

(** The entry a completed round leaves in the history, and what else the
    steps after the validation may touch. *)
Definition logged (rd : json) (a now : string) (e e' : engine) : Prop :=
  (exists ps es,
     get rd "player_skill_used" (JStr "") = Ok ps
     /\ get rd "enemy_skill_used" (JStr "") = Ok es
     /\ history (game_data e')
        = (history (game_data e)
           ++ [round_entry (round (game_data e)) a ps es rd now])%list)
  /\ grown (enemy_skills_used (game_data e)) (enemy_skills_used (game_data e'))
  /\ use_mock e' = use_mock e /\ ai_enabled e' = ai_enabled e
  /\ client e' = client e
  /\ player (game_data e') = player (game_data e)
  /\ enemy (game_data e') = enemy (game_data e)
  /\ battle_reason (game_data e') = battle_reason (game_data e)
  /\ round (game_data e') = round (game_data e)
  /\ mode (game_data e') = mode (game_data e).


(** [initialize_game] up to and including [extract_json]: the repaired
    record of the backend. *)
Definition fetch_seed (json_loads : string -> option json)
           (json_dumps py_repr : json -> string)
           (api : nat -> string -> Q -> option string)
           (player_name enemy_name : string) : M json :=
  (response <- call_ai json_dumps py_repr api
                       (init_prompt player_name enemy_name) t08 ;;
   extract_json json_loads json_dumps py_repr response)%eng.

(** A combatant after the three assignments under [if "hp" not in ...]. *)
Definition with_defaults (hp : Z) (c : list (string * json)) : json :=
  JObj (assign "conc" (JInt 100)
          (assign "max_hp" (JInt hp) (assign "hp" (JInt hp) c))).

(** A backend record with a text where a number should be. *)
Definition reply_words : json :=
  JObj [("narrative", JStr "a blow");
        ("status", JObj [("player_hp", JStr "900"); ("enemy_hp", JInt 700)])].

Definition script_words : list (option string) :=
  [Some (Codec.dumps seed_record); Some (Codec.dumps reply_words)].

(** A seed whose combatants come without hp but with a max_hp and a conc
    of their own, and a seed without an enemy. *)
Definition seed_no_hp : json :=
  JObj [("player", JObj [("name", JStr "A"); ("max_hp", JInt 900);
                         ("conc", JInt 40)]);
        ("enemy", JObj [("name", JStr "B"); ("hp", JInt 700)]);
        ("reason", JStr "a feud")].

Definition seed_alone : json :=
  JObj [("player", combatant "A" 900 900 100)].

Definition script_no_hp : list (option string) := [Some (Codec.dumps seed_no_hp)].
Definition script_alone : list (option string) := [Some (Codec.dumps seed_alone)].

(** The first of the [n] requests starting at request [c] that is
    answered, with its index among them. *)
Fixpoint first_answer (api : nat -> string -> Q -> option string)
         (c : nat) (prompt : string) (temperature : Q) (n : nat)
  : option (nat * string) :=
  match n with
  | O => None
  | S n' =>
      match api c prompt temperature with
      | Some content => Some (O, content)
      | None =>
          match first_answer api (S c) prompt temperature n' with
          | Some (k, content) => Some (S k, content)
          | None => None
          end
      end
  end.

(** The seconds slept around [n] attempts that are not the last: [1], [2],
    [4] and so on. *)
Definition waits (n : nat) : list Z := map (fun k => 2 ^ Z.of_nat k) (seq 0 n).

(** The engine after [n] requests and the given sleeps. *)
Definition after_attempts (n : nat) (sleeps : list Z) (e : engine) : engine :=
  mkEngine (use_mock e) (ai_enabled e) (client e) (game_data e)
           (api_calls e + n) (slept e ++ sleeps)%list.

(** No entry of the list equals, by [==], an entry before it. *)
Definition distinct (l : list json) : bool :=
  (fix go (r : list json) : bool :=
     match r with
     | [] => true
     | v :: older => negb (py_mem v older) && go older
     end) (rev l).

(** The used skills through the calls of a round. *)
Definition keeps_distinct (e e' : engine) : Prop :=
  distinct (enemy_skills_used (game_data e)) = true ->
  distinct (enemy_skills_used (game_data e')) = true.

(** No request was sent and no second slept between [e] and [e']. *)
Definition quiet (e e' : engine) : Prop :=
  api_calls e' = api_calls e /\ slept e' = slept e.

(** ** The views of [AIGameEngine] *)

Section Views.

Variable py_repr : json -> string.

(** [f"  {i}. {name} - {effect} (消耗: {cost} CONC)\n"], after the three
    [skill.get]. *)
Definition menu_line (i : Z) (skill_ : json) : result string :=
  (name_ <- get skill_ "name" (JStr "未知技能") ;;
   effect <- get skill_ "effect" (JStr "效果未知") ;;
   cost <- get skill_ "cost" (JInt 0) ;;
   Ok ("  " ++ dec i ++ ". " ++ fmt py_repr name_ ++ " - " ++ fmt py_repr effect
       ++ " (消耗: " ++ fmt py_repr cost ++ " CONC)" ++ nl))%res.

(** The loop [for i, skill in enumerate(skills, 1): menu += ...], on the
    skills still to list. *)
Fixpoint menu_lines (i : Z) (skills : list json) (menu : string) : result string :=
  match skills with
  | [] => Ok menu
  | skill_ :: rest =>
      (line <- menu_line i skill_ ;; menu_lines (i + 1) rest (menu ++ line))%res
  end.

(** The body that [get_skill_menu] and [get_enemy_skills] share word for
    word, on the combatant [c].  A value that is not a list is iterated as
    Python does: the keys of a dict and the characters of a string have no
    [get], a number is not iterable. *)
Definition skill_menu (title none : string) (c : json) : result string :=
  (skills <- get c "skills" (JArr []) ;;
   if negb (truthy skills) then Ok none
   else match skills with
        | JArr l => menu_lines 1 l title
        | JObj _ | JStr _ => Raise AttributeError
        | _ => Raise TypeError
        end)%res.

Definition get_skill_menu (g : game_state) : result string :=
  skill_menu ("🎯🎯 可选技能：" ++ nl) ("暂无技能信息" ++ nl) (player g).

Definition get_enemy_skills (g : game_state) : result string :=
  skill_menu ("👹👹 敌人技能：" ++ nl) ("暂无敌人技能信息" ++ nl) (enemy g).

(** The loop of [get_enemy_skills_used]: [menu += f"  {i}. {skill}\n"]. *)
Fixpoint used_lines (i : Z) (skills : list json) (menu : string) : string :=
  match skills with
  | [] => menu
  | skill_ :: rest =>
      used_lines (i + 1) rest (menu ++ "  " ++ dec i ++ ". " ++ fmt py_repr skill_ ++ nl)
  end.

Definition get_enemy_skills_used (g : game_state) : string :=
  match enemy_skills_used g with
  | [] => "👹 敌人尚未使用任何技能"
  | l => used_lines 1 l ("👹👹 敌人已使用技能：" ++ nl)
  end.

End Views.

(** ** The constructor *)

(** What the probe request of [__init__] comes to: the construction of the
    client raises, the request raises, or the request is answered, with the
    text of the message (empty when there is none). *)
Inductive probe_result : Type :=
| NoClient
| NoAnswer
| Answer (content : string).

(** What [__init__] finds around it: whether [from openai import OpenAI]
    succeeds, and the probe, by key. *)
Record world : Type := mkWorld {
  openai_found : bool;
  probe : string -> probe_result
}.

(** [AIGameEngine(api_key, use_mock)].  The probe is not counted among the
    requests of the engine. *)
Definition __init__ (w : world) (api_key : option string) (use_mock_ : bool)
  : engine :=
  let use_mock0 :=
    use_mock_ || match api_key with None => true | Some _ => false end in
  let '(um, ai, cl) :=
    if negb use_mock0 then
      if openai_found w then
        match api_key with
        | Some key =>
            if String.eqb key "" || (py_len (strip key) <? 10)
            then (true, false, false)
            else match probe w key with
                 | Answer content =>
                     if negb (String.eqb content "") then (false, true, true)
                     else (true, false, true)
                 | NoAnswer => (true, false, true)
                 | NoClient => (true, false, false)
                 end
        | None => (true, false, false)
        end
      else (true, false, false)
    else (use_mock0, false, false) in
  mkEngine um ai cl (initial_game um) 0 [].

(** [test_api_connection(api_key)], on what its request comes to: it
    returns [False] for every exception. *)
Definition test_api_connection (r : probe_result) : bool :=
  match r with
  | Answer content => contains "连接成功" content
  | _ => false
  end.

(** [main] from the choice of the mode to the construction of the engine,
    on the lines typed at its prompts: the engine and the lines left, and
    [None] when the lines run out at a prompt. *)
Definition main_engine (w : world) (test : string -> probe_result)
           (lines : list string) : option (engine * list string) :=
  match lines with
  | [] => None
  | line :: rest =>
      let choice := strip line in
      match (if String.eqb choice "3" then
               match rest with
               | [] => None
               | key_line :: rest' =>
                   Some (if test_api_connection (test (strip key_line))
                         then "2" else "1", rest')
               end
             else Some (choice, rest)) with
      | None => None
      | Some (choice', rest1) =>
          if String.eqb choice' "2" then
            match rest1 with
            | [] => None
            | key_line :: rest2 =>
                let api_key := strip key_line in
                if String.eqb api_key "" then Some (__init__ w None true, rest2)
                else Some (__init__ w (Some api_key) false, rest2)
            end
          else Some (__init__ w None true, rest1)
      end
  end.

(** ** The console loop of [main]

    The lines typed at the prompts and the clock readings are given; an
    interrupt from the keyboard is outside the model.  [lower], [isdigit]
    and [int] are those of Python on ASCII text; a letter or a digit beyond
    ASCII is outside the model.  An exception in the body of the loop is
    caught there, whichever it is, so that only whether an expression
    raises matters to what follows. *)

Definition lower_char (c : ascii) : ascii :=
  let n := nat_of_ascii c in
  if ((65 <=? n) && (n <=? 90))%nat then ascii_of_nat (n + 32) else c.

(** [s.lower()] *)
Fixpoint lower (s : string) : string :=
  match s with
  | EmptyString => EmptyString
  | String c s' => String (lower_char c) (lower s')
  end.

Definition is_digit (c : ascii) : bool :=
  let n := nat_of_ascii c in ((48 <=? n) && (n <=? 57))%nat.

Fixpoint all_digits (s : string) : bool :=
  match s with
  | EmptyString => true
  | String c s' => is_digit c && all_digits s'
  end.

(** [s.isdigit()] *)
Definition isdigit (s : string) : bool :=
  negb (String.eqb s "") && all_digits s.

(** [int(s)] for a string of digits. *)
Definition py_int (s : string) : Z :=
  match NilZero.uint_of_string s with
  | Some d => Z.of_uint d
  | None => 0
  end.

(** [len(v)] *)
Definition py_length (v : json) : result Z :=
  match v with
  | JArr l => Ok (len l)
  | JObj o => Ok (len o)
  | JStr s => Ok (py_len s)
  | _ => Raise TypeError
  end.

(** [skills[i]] followed by a subscription with a string: a character of
    a string takes none, and a dict of a JSON record has no integer key.
    The caller has checked [0 <= i < len(skills)]. *)
Definition py_index (v : json) (i : Z) : result json :=
  match v with
  | JArr l => match nth_error l (Z.to_nat i) with
              | Some x => Ok x
              | None => Raise KeyError
              end
  | JObj _ => Raise KeyError
  | _ => Raise TypeError
  end.

Definition set_battle_reason (r : json) (g : game_state) : game_state :=
  mkGame (player g) (enemy g) r (history g) (current_summary g)
         (round g) (phase g) (mode g) (enemy_skills_used g).

Definition in_list (s : string) (l : list string) : bool :=
  existsb (String.eqb s) l.

Definition is_dict (v : json) : Prop := exists o, v = JObj o.

(** The menu is the title followed by one line for each skill of [l], in
    order and numbered from 1. *)
Definition menu_of (py_repr : json -> string) (title : string) (l : list json)
           (menu : string) : Prop :=
  exists lines,
    List.length lines = List.length l
    /\ (forall k sk,
          nth_error l k = Some sk ->
          exists line,
            nth_error lines k = Some line
            /\ menu_line py_repr (Z.of_nat k + 1) sk = Ok line)
    /\ menu = title ++ String.concat "" lines.

Inductive flow : Type := Continue | Break.

(** How the loop of [main] ends: it is left, by its test or by a [break],
    or the lines given are used up with the game still on. *)
Inductive ending : Type := Left | Waiting.

Inductive outcome : Type := Draw | Defeat | Victory | Undecided.

Section Console.

Variable json_loads : string -> option json.
Variable json_dumps : json -> string.
Variable py_repr : json -> string.
Variable api : nat -> string -> Q -> option string.

(** The prints after [initialize_game]: [true] when each of their
    expressions can be evaluated. *)
Definition opening_shown (g : game_state) : bool :=
  match history g with
  | [] => false
  | first :: _ =>
      match (_ <- getitem first "narrative" ;;
             _ <- getitem (player g) "name" ;;
             _ <- getitem (player g) "hp" ;;
             _ <- getitem (player g) "max_hp" ;;
             _ <- getitem (enemy g) "name" ;;
             _ <- getitem (enemy g) "hp" ;;
             _ <- getitem (enemy g) "max_hp" ;;
             _ <- get_skill_menu py_repr g ;;
             get_enemy_skills py_repr g)%res with
      | Ok _ => true
      | Raise _ => false
      end
  end.

(** The three assignments of the handler around [initialize_game]. *)
Definition default_config (player_name enemy_name : string) (g : game_state)
  : game_state :=
  set_battle_reason (JStr "未知原因的对决")
    (set_enemy (JObj [("name", JStr enemy_name); ("hp", JInt 1500);
                      ("max_hp", JInt 1500); ("conc", JInt 100);
                      ("skills", JArr [])])
       (set_player (JObj [("name", JStr player_name); ("hp", JInt 1200);
                          ("max_hp", JInt 1200); ("conc", JInt 100);
                          ("skills", JArr [])]) g)).

(** [input(...).strip() or default] *)
Definition or_default (line default : string) : string :=
  if String.eqb (strip line) "" then default else strip line.

(** [main] from the two names to the start of the loop: [None] when it
    returns because the record of the initialisation has an ["error"]. *)
Definition main_setup (player_line enemy_line now : string)
  : engine -> option engine :=
  fun e =>
    let player_name := or_default player_line "流浪武士" in
    let enemy_name := or_default enemy_line "机械章鱼" in
    let fallback e' :=
      Some (set_game (default_config player_name enemy_name (game_data e')) e') in
    match initialize_game json_loads json_dumps py_repr api
                          player_name enemy_name now e with
    | (Ok init_data, e1) =>
        match py_in "error" init_data with
        | Ok true =>
            match getitem init_data "error" with
            | Ok _ => None
            | Raise _ => fallback e1
            end
        | Ok false => if opening_shown (game_data e1) then Some e1 else fallback e1
        | Raise _ => fallback e1
        end
    | (Raise _, e1) => fallback e1
    end.

(** The block under [if action.isdigit()]: the action to play, or [None]
    for the [continue] of a number that is no skill.  [len(skills)] is
    evaluated on both sides of the test, by the comparison or by the
    message. *)
Definition choose_skill (g : game_state) (action : string) : result (option string) :=
  if isdigit action then
    let skill_num := py_int action in
    (skills <- get (player g) "skills" (JArr []) ;;
     n <- py_length skills ;;
     if (1 <=? skill_num) && (skill_num <=? n) then
       skill_ <- py_index skills (skill_num - 1) ;;
       name_ <- getitem skill_ "name" ;;
       effect <- getitem skill_ "effect" ;;
       Ok (Some ("使用技能[" ++ fmt py_repr name_ ++ "]: " ++ fmt py_repr effect))
     else Ok None)%res
  else Ok (Some action).

(** The prints after [play_round]: [false] for a record with an
    ["error"], [true] when the round is shown, which is where the loop
    looks at [is_game_over]. *)
Definition round_shown (result_ : json) (g : game_state) : result bool :=
  (has_error <- py_in "error" result_ ;;
   if has_error then
     _ <- getitem result_ "error" ;; Ok false
   else
     _ <- get result_ "narrative" (JStr "战斗继续...") ;;
     status_ <- get result_ "status" (JObj []) ;;
     _ <- get status_ "player_hp" (JStr "?") ;;
     _ <- getitem (player g) "max_hp" ;;
     _ <- getitem (enemy g) "max_hp" ;;
     Ok true)%res.

(** One pass through the body of [while not game.is_game_over()], for the
    line typed.  The views print and change nothing. *)
Definition main_turn (line now : string) : engine -> flow * engine :=
  fun e =>
    let action := strip line in
    if String.eqb action "" then (Continue, e)
    else
      let action_lower := lower action in
      if in_list action_lower ["quit"; "exit"; "q"] then (Break, e)
      else if in_list action_lower ["status"; "stats"; "s"] then (Continue, e)
      else if in_list action_lower ["skills"; "skill"; "sk"] then (Continue, e)
      else if in_list action_lower ["enemy_skills"; "enemy"; "es"] then (Continue, e)
      else if in_list action_lower ["enemy_used"; "eu"] then (Continue, e)
      else if in_list action_lower ["help"; "h"] then (Continue, e)
      else
        match choose_skill (game_data e) action with
        | Ok (Some action') =>
            match play_round json_loads json_dumps py_repr api action' now e with
            | (Ok result_, e') =>
                match round_shown result_ (game_data e') with
                | Ok true =>
                    match is_game_over (game_data e') with
                    | Ok true => (Break, e')
                    | _ => (Continue, e')
                    end
                | _ => (Continue, e')
                end
            | (Raise _, e') => (Continue, e')
            end
        | _ => (Continue, e)
        end.

(** The loop, on the lines still to come, each with the clock reading of
    its round.  The test of the loop is outside the [try]: when it raises,
    [main] does. *)
Fixpoint main_loop (lines : list (string * string)) : M ending :=
  fun e =>
    match is_game_over (game_data e) with
    | Raise x => (Raise x, e)
    | Ok true => (Ok Left, e)
    | Ok false =>
        match lines with
        | [] => (Ok Waiting, e)
        | (line, now) :: rest =>
            match main_turn line now e with
            | (Break, e') => (Ok Left, e')
            | (Continue, e') => main_loop rest e'
            end
        end
    end.

(** The result [main] announces after the loop. *)
Definition main_result (g : game_state) : result outcome :=
  (final_status <- get_game_status g ;;
   php <- getitem (s_player final_status) "hp" ;;
   player_down <- py_le php 0 ;;
   if player_down then
     ehp <- getitem (s_enemy final_status) "hp" ;;
     enemy_down <- py_le ehp 0 ;;
     if enemy_down then Ok Draw
     else _ <- getitem (s_player final_status) "name" ;; Ok Defeat
   else
     ehp <- getitem (s_enemy final_status) "hp" ;;
     enemy_down <- py_le ehp 0 ;;
     if enemy_down then _ <- getitem (s_player final_status) "name" ;; Ok Victory
     else Ok Undecided)%res.

End Console.

(** ** More scenarios *)

(** An endpoint that answers the seed, fails twice and then answers. *)
Definition script_late : list (option string) :=
  [Some (Codec.dumps seed_record); None; None; Some "late"].

(** A reply that wraps its record in prose. *)
Definition wrapped_reply : string :=
  "Sure! " ++ Codec.dumps reply_quiet ++ " Good luck.".

(** Lines typed at the prompt of the loop, with the clock of each. *)
Definition typed_lines : list (string * string) :=
  [("1", "12:00:01"); ("status", "12:00:02"); ("attack", "12:00:03");
   ("quit", "12:00:04")].

Definition attack_lines (n : nat) : list (string * string) :=
  map (fun _ => ("attack", "12:00:01")) (seq 0 n).

(** The offline engine after two rounds. *)
Definition after_two_rounds : engine :=
  snd (run_round (scripted []) "attack" "12:00:02"
         (snd (run_round (scripted []) "attack" "12:00:01"
                         (offline_seeded "12:00:00")))).

(** * Properties *)

(** ** Frames of the backend calls *)

Ltac break_match :=
  match goal with
  | |- context [match ?x with _ => _ end] => destruct x eqn:?
  | H : context [match ?x with _ => _ end] |- _ => destruct x eqn:?
  end.

Ltac inv_pair :=
  repeat match goal with
         | H : (_, _) = (_, _) |- _ => inversion H; subst; clear H
         end.

Lemma grown_refl {A} (l : list A) : grown l l.
Proof. exists []. now rewrite app_nil_r. Qed.

Lemma grown_trans {A} (l1 l2 l3 : list A) :
  grown l1 l2 -> grown l2 l3 -> grown l1 l3.
Proof.
  intros [a ->] [b ->]. exists (a ++ b)%list. now rewrite app_assoc.
Qed.

Lemma grown_In {A} (l l' : list A) (x : A) : grown l l' -> In x l -> In x l'.
Proof. intros [m ->] H. apply in_or_app. now left. Qed.

Lemma grown_length {A} (l l' : list A) :
  grown l l' -> (List.length l <= List.length l')%nat.
Proof. intros [m ->]. rewrite length_app. lia. Qed.

Lemma frame_s_refl e : frame_s e e.
Proof. constructor; auto using grown_refl. Qed.

Lemma frame_s_trans e1 e2 e3 : frame_s e1 e2 -> frame_s e2 e3 -> frame_s e1 e3.
Proof.
  intros [] []. constructor; try congruence.
  eapply grown_trans; eauto.
Qed.

Lemma frame_refl e : frame e e.
Proof. split; auto using frame_s_refl. Qed.

Lemma frame_trans e1 e2 e3 : frame e1 e2 -> frame e2 e3 -> frame e1 e3.
Proof.
  intros [A B] [C D]. split; [eapply frame_s_trans; eauto | congruence].
Qed.

Lemma frame_count_call e : frame e (count_call e).
Proof. split; [constructor|]; simpl; auto using grown_refl. Qed.

Lemma frame_sleep t e : frame e (sleep t e).
Proof. split; [constructor|]; simpl; auto using grown_refl. Qed.

Lemma frame_add_skill v e :
  frame e (set_game (set_skills_used
                       (enemy_skills_used (game_data e) ++ [v])%list
                       (game_data e)) e).
Proof.
  split; [constructor|]; simpl; auto. now exists [v].
Qed.

(** ** Dicts and clamps *)

Lemma lookup_assign_same k v o : lookup k (assign k v o) = Some v.
Proof.
  induction o as [|[k' v'] o IH]; simpl.
  - now rewrite String.eqb_refl.
  - destruct (String.eqb k k') eqn:E; simpl.
    + now rewrite String.eqb_refl.
    + now rewrite E.
Qed.

Lemma lookup_assign_other k k' v o :
  k <> k' -> lookup k (assign k' v o) = lookup k o.
Proof.
  intros N. induction o as [|[k2 v2] o IH]; simpl.
  - apply String.eqb_neq in N. now rewrite N.
  - destruct (String.eqb k' k2) eqn:E; simpl.
    + apply String.eqb_eq in E. subst k2.
      apply String.eqb_neq in N. now rewrite N.
    + destruct (String.eqb k k2); auto.
Qed.

Lemma int_of_assign_same k v o :
  int_of (JObj (assign k v o)) k = as_int v.
Proof. unfold int_of; simpl. now rewrite lookup_assign_same. Qed.

Lemma int_of_assign_other k k' v o :
  k <> k' -> int_of (JObj (assign k' v o)) k = int_of (JObj o) k.
Proof. intros N. unfold int_of; simpl. now rewrite lookup_assign_other. Qed.

Lemma clampz_range n hi : 0 <= hi -> 0 <= clampz n hi <= hi.
Proof. unfold clampz. lia. Qed.

Lemma clampz_nonpos n hi : n <= 0 -> 0 <= hi -> clampz n hi = 0.
Proof. unfold clampz. lia. Qed.

Lemma clamp_numeric st k hi :
  (forall v, lookup k st = Some v -> exists n, as_int v = Some n) ->
  exists c, clamp (JObj st) k hi = Ok (JObj (assign k c st))
            /\ as_int c = Some (clampz (field0 st k) hi).
Proof.
  intros H. unfold clamp, get, field0, clampz, py_min, py_max, rbind.
  destruct (lookup k st) as [v|] eqn:L.
  - destruct (H v eq_refl) as [n Hn]. rewrite Hn. simpl.
    destruct (hi <? n) eqn:A; simpl.
    + destruct (0 <? hi) eqn:B; simpl; eexists; split; try reflexivity;
        simpl; f_equal; lia.
    + rewrite Hn. destruct (0 <? n) eqn:B; simpl; eexists; split;
        try reflexivity; simpl; rewrite ?Hn; f_equal; lia.
  - simpl. destruct (hi <? 0) eqn:A; simpl.
    + destruct (0 <? hi) eqn:B; simpl; eexists; split; try reflexivity;
        simpl; f_equal; lia.
    + eexists; split; try reflexivity. simpl. f_equal. lia.
Qed.

Lemma py_eqb_str v s : py_eqb v (JStr s) = true <-> v = JStr s.
Proof.
  destruct v; simpl; split; intros H; try discriminate; try congruence.
  - apply String.eqb_eq in H. now subst.
  - inversion H. apply String.eqb_refl.
Qed.

(** ** The helpers on small inputs *)

Example strip_both_ends : strip ("  {a}" ++ nl ++ " ") = "{a}".
Proof. reflexivity. Qed.

Example split_three_lines :
  split_lines ("a" ++ nl ++ nl ++ "b") = ["a"; ""; "b"].
Proof. reflexivity. Qed.

Example find_first_brace : find "{" "ab{c}d}" = 2 /\ find "{" "abc" = -1.
Proof. split; reflexivity. Qed.

Example rfind_last_brace : rfind "}" "ab{c}d}" = 6 /\ rfind "}" "abc" = -1.
Proof. split; reflexivity. Qed.

Example slice_backwards : slice "}{" 1 1 = "".
Proof. reflexivity. Qed.

Example len_counts_code_points : py_len "触手鞭笞ab" = 6.
Proof. reflexivity. Qed.

Example comment_lines_dropped :
  strip_comments ("// note" ++ nl ++ "  [1," ++ nl ++ "# more" ++ nl ++ "2]")
  = "[1," ++ nl ++ "2]".
Proof. reflexivity. Qed.

Example clamp_examples :
  clamp (JObj [("player_hp", JInt 2500)]) "player_hp" 2000
  = Ok (JObj [("player_hp", JInt 2000)])
  /\ clamp (JObj [("player_hp", JInt (-5))]) "player_hp" 2000
     = Ok (JObj [("player_hp", JInt 0)])
  /\ clamp (JObj []) "player_hp" 2000 = Ok (JObj [("player_hp", JInt 0)])
  /\ clamp (JObj [("player_hp", JStr "full")]) "player_hp" 2000
     = Raise TypeError.
Proof. repeat split; reflexivity. Qed.

Example dict_equality_ignores_order :
  py_eqb (JObj [("a", JInt 1); ("b", JBool true)])
         (JObj [("b", JInt 1); ("a", JInt 1)]) = true.
Proof. reflexivity. Qed.

Example codec_reads_what_it_writes :
  Codec.loads (Codec.dumps seed_record) = Some seed_record
  /\ Codec.loads (Codec.dumps reply_dead) = Some reply_dead.
Proof. split; vm_compute; reflexivity. Qed.

Example codec_rejects :
  Codec.loads "oops" = None /\ Codec.loads "01" = None
  /\ Codec.loads "{}x" = None /\ Codec.loads " [1, 2 ] " = Some (JArr [JInt 1; JInt 2]).
Proof. repeat split; vm_compute; reflexivity. Qed.

(** ** The text between the braces *)

Lemma prefix_char c d s :
  String.prefix (String c EmptyString) (String d s) = Ascii.eqb c d.
Proof.
  change (String.prefix (String c EmptyString) (String d s))
    with (match ascii_dec c d with
          | left _ => String.prefix EmptyString s
          | right _ => false
          end).
  destruct (ascii_dec c d) as [->|N].
  - rewrite Ascii.eqb_refl. now destruct s.
  - symmetry. now apply Ascii.eqb_neq.
Qed.

Lemma contains_char_cons c d s :
  contains (String c EmptyString) (String d s)
  = Ascii.eqb c d || contains (String c EmptyString) s.
Proof.
  change (contains (String c EmptyString) (String d s))
    with (if String.prefix (String c EmptyString) (String d s) then true
          else contains (String c EmptyString) s).
  rewrite prefix_char. now destruct (Ascii.eqb c d).
Qed.

Lemma find_from_absent c s i :
  contains (String c EmptyString) s = false ->
  find_from (String c EmptyString) s i = -1.
Proof.
  revert i. induction s as [|d s IH]; intros i H.
  - reflexivity.
  - rewrite contains_char_cons in H. apply orb_false_iff in H.
    destruct H as [E H].
    change (find_from (String c EmptyString) (String d s) i)
      with (if String.prefix (String c EmptyString) (String d s) then i
            else find_from (String c EmptyString) s (i + 1)).
    rewrite prefix_char, E. now apply IH.
Qed.

Lemma find_from_first c pre rest i :
  contains (String c EmptyString) pre = false ->
  find_from (String c EmptyString) (pre ++ String c rest) i
  = i + Z.of_nat (String.length pre).
Proof.
  revert i. induction pre as [|d pre IH]; intros i H.
  - change (EmptyString ++ String c rest) with (String c rest).
    change (find_from (String c EmptyString) (String c rest) i)
      with (if String.prefix (String c EmptyString) (String c rest) then i
            else find_from (String c EmptyString) rest (i + 1)).
    rewrite prefix_char, Ascii.eqb_refl. simpl. lia.
  - rewrite contains_char_cons in H. apply orb_false_iff in H.
    destruct H as [E H].
    change (String d pre ++ String c rest) with (String d (pre ++ String c rest)).
    change (find_from (String c EmptyString) (String d (pre ++ String c rest)) i)
      with (if String.prefix (String c EmptyString)
                             (String d (pre ++ String c rest)) then i
            else find_from (String c EmptyString) (pre ++ String c rest) (i + 1)).
    rewrite prefix_char, E, IH by exact H.
    simpl String.length. lia.
Qed.

Lemma rfind_from_cons c d s i :
  rfind_from (String c EmptyString) (String d s) i
  = if rfind_from (String c EmptyString) s (i + 1) =? -1
    then (if Ascii.eqb c d then i else -1)
    else rfind_from (String c EmptyString) s (i + 1).
Proof.
  change (rfind_from (String c EmptyString) (String d s) i)
    with (let r := rfind_from (String c EmptyString) s (i + 1) in
          if r =? -1
          then (if String.prefix (String c EmptyString) (String d s) then i else -1)
          else r).
  cbv zeta. now rewrite prefix_char.
Qed.

Lemma rfind_from_absent c s i :
  contains (String c EmptyString) s = false ->
  rfind_from (String c EmptyString) s i = -1.
Proof.
  revert i. induction s as [|d s IH]; intros i H.
  - reflexivity.
  - rewrite contains_char_cons in H. apply orb_false_iff in H.
    destruct H as [E H].
    rewrite rfind_from_cons, IH by exact H. simpl. now rewrite E.
Qed.

Lemma rfind_from_last c x post i :
  0 <= i ->
  contains (String c EmptyString) post = false ->
  rfind_from (String c EmptyString) (x ++ String c post) i
  = i + Z.of_nat (String.length x).
Proof.
  revert i. induction x as [|d x IH]; intros i I H.
  - change (EmptyString ++ String c post) with (String c post).
    rewrite rfind_from_cons, rfind_from_absent by exact H.
    simpl. rewrite Ascii.eqb_refl. lia.
  - change (String d x ++ String c post) with (String d (x ++ String c post)).
    rewrite rfind_from_cons, IH by (try lia; exact H).
    destruct (Z.eqb_spec (i + 1 + Z.of_nat (String.length x)) (-1)) as [E|E];
      [lia|].
    simpl String.length. lia.
Qed.

Lemma substring_skip a b n :
  String.substring (String.length a) n (a ++ b) = String.substring 0 n b.
Proof. induction a as [|c a IH]; simpl; auto. Qed.

Lemma substring_take a b :
  String.substring 0 (String.length a) (a ++ b) = a.
Proof. induction a as [|c a IH]; simpl; [now destruct b | now rewrite IH]. Qed.

Lemma length_append a b :
  String.length (a ++ b) = (String.length a + String.length b)%nat.
Proof. induction a as [|c a IH]; simpl; auto. Qed.

Lemma append_assoc_str a b c : (a ++ b) ++ c = a ++ (b ++ c).
Proof. induction a as [|x a IH]; simpl; [reflexivity | now rewrite IH]. Qed.

(** When the text has an opening brace, and a closing one after it, the
    second repair reads from the first opening brace to the last closing
    one, both included. *)
Lemma braces_between pre mid post :
  contains "{" pre = false ->
  contains "}" post = false ->
  braces (pre ++ "{" ++ mid ++ "}" ++ post) = Some ("{" ++ mid ++ "}").
Proof.
  intros P Q. unfold braces, find, rfind.
  change ("{" ++ mid ++ "}" ++ post) with (String "{"%char (mid ++ "}" ++ post)).
  rewrite find_from_first by exact P.
  replace (pre ++ String "{"%char (mid ++ "}" ++ post))
    with ((pre ++ String "{"%char mid) ++ String "}"%char post).
  2:{ now rewrite append_assoc_str. }
  rewrite rfind_from_last by (try lia; exact Q).
  rewrite length_append. simpl String.length.
  replace (negb (0 + Z.of_nat (String.length pre) =? -1)) with true
    by (symmetry; apply negb_true_iff, Z.eqb_neq; lia).
  replace (negb (0 + Z.of_nat (String.length pre + S (String.length mid)) + 1 =? 0))
    with true by (symmetry; apply negb_true_iff, Z.eqb_neq; lia).
  simpl andb. f_equal. unfold slice.
  replace (Z.to_nat (0 + Z.of_nat (String.length pre))) with (String.length pre)
    by lia.
  replace (Z.to_nat (0 + Z.of_nat (String.length pre + S (String.length mid)) + 1
                     - (0 + Z.of_nat (String.length pre))))
    with (String.length (String "{"%char mid ++ "}")).
  2:{ rewrite length_append. simpl. lia. }
  replace ((pre ++ String "{"%char mid) ++ String "}"%char post)
    with (pre ++ ((String "{"%char mid ++ "}") ++ post)).
  2:{ now rewrite !append_assoc_str. }
  rewrite substring_skip, substring_take. reflexivity.
Qed.

(** Without an opening brace, or without a closing one, there is no
    second repair. *)
Lemma braces_missing text :
  contains "{" text = false \/ contains "}" text = false ->
  braces text = None.
Proof.
  intros [H|H]; unfold braces, find, rfind.
  - now rewrite find_from_absent.
  - rewrite rfind_from_absent by exact H. simpl.
    now rewrite andb_false_r.
Qed.

Section Facts.

Variable json_loads : string -> option json.
Variable json_dumps : json -> string.
Variable py_repr : json -> string.
Variable api : nat -> string -> Q -> option string.

Local Abbreviation mock := (_call_ai_mock json_dumps py_repr).
Local Abbreviation ask := (call_ai json_dumps py_repr api).
Local Abbreviation repair := (extract_json json_loads json_dumps py_repr).

(** The round branch of the offline generator does not read the prompt. *)
Lemma mock_unmarked p p' t t' e :
  marked p = false -> marked p' = false -> mock p t e = mock p' t' e.
Proof.
  unfold marked, _call_ai_mock. intros -> ->. reflexivity.
Qed.

Lemma mock_marked p t e :
  marked p = true -> mock p t e = (Ok (json_dumps seed_record), e).
Proof.
  unfold marked, _call_ai_mock. intros ->. reflexivity.
Qed.

Lemma mock_frame p t e r e' : mock p t e = (r, e') -> frame e e'.
Proof.
  unfold _call_ai_mock, bind, read, lift, modify, ret.
  intros H.
  repeat (break_match; inv_pair; simpl in *; try discriminate);
    auto using frame_refl, frame_add_skill.
Qed.

Lemma retry_frame p t m l e r e' :
  retry json_dumps py_repr api p t m l e = (r, e') -> frame e e'.
Proof.
  revert e. induction l as [|a l IH]; simpl; intros e H.
  - eapply mock_frame; eauto.
  - repeat break_match; inv_pair.
    + apply frame_count_call.
    + eapply frame_trans; [|eapply IH; eauto].
      eapply frame_trans; [apply frame_count_call | apply frame_sleep].
    + eapply frame_trans; [apply frame_count_call | eapply mock_frame; eauto].
Qed.

Lemma call_ai_frame p t e r e' : ask p t e = (r, e') -> frame e e'.
Proof.
  unfold call_ai, _call_ai_real. intros H.
  repeat break_match; eauto using mock_frame, retry_frame.
Qed.

Lemma extract_json_frame text e r e' : repair text e = (r, e') -> frame e e'.
Proof.
  unfold extract_json, bind, ret, loads_or_raise, lift. intros H.
  repeat (break_match; unfold ret, lift in *; inv_pair; try discriminate);
    eauto using frame_refl, mock_frame.
Qed.

(** ** The summary step *)

Local Abbreviation summarize := (update_summary json_dumps py_repr api).

Lemma update_summary_total e :
  exists e', summarize e = (Ok tt, e') /\ frame_s e e'.
Proof.
  unfold update_summary, bind, read, try_pass, modify, ret.
  destruct (len (history (game_data e)) <? 2); [eauto using frame_s_refl|].
  destruct (len (history (game_data e)) mod 3 =? 0); [|eauto using frame_s_refl].
  destruct (ask (summary_prompt py_repr (game_data e)) t03 e) as [r e1] eqn:A.
  apply call_ai_frame in A. destruct A as [A _].
  destruct r as [s|x]; [|eauto].
  destruct (worth_keeping s); [|eauto].
  eexists; split; [reflexivity|].
  destruct A. constructor; simpl; auto.
Qed.

(** ** The validation of a record *)

Lemma validate_no_status o e :
  lookup "status" o = None -> validate_status (JObj o) e = (Ok (JObj o), e).
Proof.
  intros H. unfold validate_status, bind, lift, ret. simpl. now rewrite H.
Qed.

Lemma numeric_assign st k c :
  numeric_status st -> (exists n, as_int c = Some n) ->
  numeric_status (assign k c st).
Proof.
  intros N C k' I v L.
  destruct (string_dec k' k) as [->|D].
  - rewrite lookup_assign_same in L. now inversion L; subst.
  - rewrite lookup_assign_other in L by auto. eauto.
Qed.

Lemma validate_with_status o st po eo e :
  lookup "status" o = Some (JObj st) -> numeric_status st ->
  player (game_data e) = JObj po -> enemy (game_data e) = JObj eo ->
  exists php ehp pc ec st',
    validate_status (JObj o) e
    = (Ok (JObj (assign "status" (JObj st') o)),
       set_game (set_enemy (JObj (assign "conc" ec (assign "hp" ehp eo)))
                  (set_player (JObj (assign "conc" pc (assign "hp" php po)))
                     (game_data e))) e)
    /\ as_int php = Some (clampz (field0 st "player_hp") 2000)
    /\ as_int ehp = Some (clampz (field0 st "enemy_hp") 2000)
    /\ as_int pc = Some (clampz (field0 st "player_conc") 100)
    /\ as_int ec = Some (clampz (field0 st "enemy_conc") 100).
Proof.
  intros S N P E.
  assert (K : forall k, In k ["player_hp"; "enemy_hp"; "player_conc"; "enemy_conc"] ->
                        forall st0, numeric_status st0 ->
                        forall v, lookup k st0 = Some v -> exists n, as_int v = Some n).
  { intros k I st0 N0 v L. eapply N0; eauto. }
  destruct (clamp_numeric st "player_hp" 2000) as [c1 [C1 V1]].
  { apply K; simpl; auto. }
  pose proof (@numeric_assign _ "player_hp" _ N (ex_intro _ _ V1)) as N1.
  destruct (clamp_numeric (assign "player_hp" c1 st) "enemy_hp" 2000) as [c2 [C2 V2]].
  { apply K; simpl; auto. }
  pose proof (@numeric_assign _ "enemy_hp" _ N1 (ex_intro _ _ V2)) as N2.
  destruct (clamp_numeric (assign "enemy_hp" c2 (assign "player_hp" c1 st))
                          "player_conc" 100) as [c3 [C3 V3]].
  { apply K; simpl; auto. }
  pose proof (@numeric_assign _ "player_conc" _ N2 (ex_intro _ _ V3)) as N3.
  destruct (clamp_numeric (assign "player_conc" c3
                             (assign "enemy_hp" c2 (assign "player_hp" c1 st)))
                          "enemy_conc" 100) as [c4 [C4 V4]].
  { apply K; simpl; auto. }
  exists c1, c2, c3, c4.
  eexists. split.
  - unfold validate_status, write_player, write_enemy, bind, lift, ret, read, modify.
    simpl. rewrite S. simpl. rewrite C1. simpl. rewrite C2. simpl.
    rewrite C3. simpl. rewrite C4. simpl.
    rewrite !lookup_assign_same.
    rewrite (lookup_assign_other (k:="player_conc") (k':="enemy_conc")) by discriminate.
    rewrite (lookup_assign_other (k:="enemy_hp") (k':="enemy_conc")) by discriminate.
    rewrite (lookup_assign_other (k:="player_hp") (k':="enemy_conc")) by discriminate.
    rewrite !lookup_assign_same.
    rewrite (lookup_assign_other (k:="enemy_hp") (k':="player_conc")) by discriminate.
    rewrite (lookup_assign_other (k:="player_hp") (k':="player_conc")) by discriminate.
    rewrite !lookup_assign_same.
    rewrite (lookup_assign_other (k:="player_hp") (k':="enemy_hp")) by discriminate.
    rewrite !lookup_assign_same.
    rewrite P. simpl. rewrite E. simpl. reflexivity.
  - unfold field0 in *.
    rewrite (lookup_assign_other (k:="enemy_hp") (k':="player_hp")) in V2 by discriminate.
    rewrite (lookup_assign_other (k:="player_conc") (k':="enemy_hp")) in V3 by discriminate.
    rewrite (lookup_assign_other (k:="player_conc") (k':="player_hp")) in V3 by discriminate.
    rewrite (lookup_assign_other (k:="enemy_conc") (k':="player_conc")) in V4 by discriminate.
    rewrite (lookup_assign_other (k:="enemy_conc") (k':="enemy_hp")) in V4 by discriminate.
    rewrite (lookup_assign_other (k:="enemy_conc") (k':="player_hp")) in V4 by discriminate.
    auto.
Qed.

(** ** The two halves of a round *)

Lemma round_prompt_ok g a p :
  round_prompt py_repr g a = Ok p ->
  exists po eo, player g = JObj po /\ enemy g = JObj eo.
Proof.
  unfold round_prompt, rbind. intros H.
  destruct (enemy g) as [| | | | |eo]; simpl in H; try discriminate.
  destruct (skills_desc _ _); try discriminate.
  destruct (player g) as [| | | | |po]; simpl in H; try discriminate.
  eauto.
Qed.

Lemma fetch_round_inv a e rd e1 :
  fetch_round json_loads json_dumps py_repr api a e = (Ok rd, e1) ->
  frame (next_round e) e1
  /\ exists po eo, player (game_data e) = JObj po /\ enemy (game_data e) = JObj eo.
Proof.
  unfold fetch_round, bind, modify, read, lift. fold (next_round e).
  intros H.
  destruct (round_prompt py_repr (game_data (next_round e)) a) as [p|x] eqn:P;
    [|discriminate].
  destruct (ask p t07 (next_round e)) as [[text|x] e0] eqn:A; [|discriminate].
  apply call_ai_frame in A. apply extract_json_frame in H.
  split; [eapply frame_trans; eauto|].
  apply round_prompt_ok in P. exact P.
Qed.

Lemma record_round_obj o a now e :
  exists e',
    record_round json_dumps py_repr api (JObj o) a now e = (Ok (JObj o), e')
    /\ player (game_data e') = player (game_data e)
    /\ enemy (game_data e') = enemy (game_data e)
    /\ round (game_data e') = round (game_data e)
    /\ len (history (game_data e')) = len (history (game_data e)) + 1
    /\ phase (game_data e')
       = match lookup "phase" o with
         | Some p => p
         | None => phase (game_data e)
         end
    /\ grown (enemy_skills_used (game_data e))
             (enemy_skills_used (game_data e')).
Proof.
  unfold record_round, log_round, bind, lift, ret, read, modify. simpl.
  destruct (lookup "phase" o) as [ph|]; simpl;
    destruct (truthy _ && negb _); simpl;
    match goal with
    | |- context [update_summary _ _ _ ?x] =>
        destruct (update_summary_total x) as (e3 & U & F); rewrite U
    end;
    eexists; (split; [reflexivity|]); destruct F; simpl in *;
    repeat split; try congruence;
    try (match goal with
         | H : history _ = _ |- _ => rewrite H
         end; unfold len; rewrite length_app; simpl; lia);
    try (eapply grown_trans; [|eassumption]; eauto using grown_refl;
         eexists; reflexivity).
Qed.

Lemma frame_player e e' :
  frame e e' -> player (game_data e') = player (game_data e)
                /\ enemy (game_data e') = enemy (game_data e).
Proof. intros [[] _]. auto. Qed.


(** ** The game-over predicate and the snapshot *)

Lemma int_of_getitem c k n :
  int_of c k = Some n -> exists v, getitem c k = Ok v /\ as_int v = Some n.
Proof.
  unfold int_of. destruct (getitem c k); [eauto | discriminate].
Qed.

(** C3, amended.  On a state whose two hp are integers the game-over
    predicate returns, and it is true exactly when the hp of the player is
    at most 0, or that of the enemy is, or the phase is ["ending"], or the
    round is at least 20. *)
Theorem is_game_over_iff g p e :
  int_of (player g) "hp" = Some p ->
  int_of (enemy g) "hp" = Some e ->
  exists b, is_game_over g = Ok b
            /\ (b = true <->
                p <= 0 \/ e <= 0 \/ phase g = JStr "ending" \/ 20 <= round g).
Proof.
  intros P E.
  apply int_of_getitem in P. destruct P as (vp & P1 & P2).
  apply int_of_getitem in E. destruct E as (ve & E1 & E2).
  unfold is_game_over, rbind, py_le. rewrite P1, P2.
  destruct (p <=? 0) eqn:A.
  - exists true. split; auto. split; auto. intros _. left. lia.
  - rewrite E1, E2. destruct (e <=? 0) eqn:B.
    + exists true. split; auto. split; auto. intros _. right. left. lia.
    + destruct (py_eqb (phase g) (JStr "ending")) eqn:C.
      * exists true. split; auto. split; auto. intros _.
        right. right. left. now apply py_eqb_str.
      * exists (20 <=? round g). split; auto. split.
        -- intros H. right. right. right. lia.
        -- intros [H|[H|[H|H]]]; try lia.
           apply py_eqb_str in H. congruence.
Qed.

Lemma status_of_dead_player g po eo n :
  player g = JObj po -> enemy g = JObj eo ->
  int_of (player g) "hp" = Some n -> n <= 0 ->
  get_game_status g
  = Ok (mkStatus (round g) (phase g) (player g) (enemy g) true
                 (len (history g)) (mode g) (enemy_skills_used g)).
Proof.
  intros P E H N.
  apply int_of_getitem in H. destruct H as (v & H1 & H2).
  unfold get_game_status, is_game_over, rbind, py_le.
  rewrite H1, H2. rewrite P in *. rewrite E. simpl.
  replace (n <=? 0) with true by lia. reflexivity.
Qed.

(** ** Rounds with a status *)

Lemma play_round_with_status a now e o st e1 :
  fetch_round json_loads json_dumps py_repr api a e = (Ok (JObj o), e1) ->
  lookup "status" o = Some (JObj st) ->
  numeric_status st ->
  exists rd e2 po eo php ehp pc ec,
    play_round json_loads json_dumps py_repr api a now e = (Ok rd, e2)
    /\ player (game_data e2) = JObj (assign "conc" pc (assign "hp" php po))
    /\ enemy (game_data e2) = JObj (assign "conc" ec (assign "hp" ehp eo))
    /\ as_int php = Some (clampz (field0 st "player_hp") 2000)
    /\ as_int ehp = Some (clampz (field0 st "enemy_hp") 2000)
    /\ as_int pc = Some (clampz (field0 st "player_conc") 100)
    /\ as_int ec = Some (clampz (field0 st "enemy_conc") 100)
    /\ phase (game_data e2)
       = match lookup "phase" o with
         | Some p => p
         | None => phase (game_data e)
         end
    /\ round (game_data e2) = round (game_data e) + 1.
Proof.
  intros F S N.
  pose proof (fetch_round_inv _ _ F) as (Fr & po & eo & P & E).
  destruct (frame_player Fr) as [P1 E1]. simpl in P1, E1.
  rewrite P in P1. rewrite E in E1.
  destruct (validate_with_status _ e1 S N P1 E1)
    as (php & ehp & pc & ec & st' & V & A1 & A2 & A3 & A4).
  unfold play_round, bind. rewrite F.
  unfold settle_round, bind. rewrite V.
  match goal with
  | |- context [record_round _ _ _ ?r a now ?x] =>
      destruct (record_round_obj (assign "status" (JObj st') o) a now x)
        as (e2 & R & Pl & En & Rd & _ & Ph & _)
  end.
  rewrite R. simpl in *.
  rewrite lookup_assign_other in Ph by discriminate.
  destruct Fr as [[] _]. simpl in *.
  exists (JObj (assign "status" (JObj st') o)), e2, po, eo, php, ehp, pc, ec.
  repeat split; auto; try congruence.
  destruct (lookup "phase" o); congruence.
Qed.

(** C1, amended.  When the status of the repaired record puts the hp of
    the player at 0 or below, or leaves it out, the round completes and the
    next snapshot reports [game_over = true]; its phase is the one the
    record carries, and the phase before the round when the record carries
    none. *)
Theorem hp_zero_is_game_over a now e o st e1 :
  fetch_round json_loads json_dumps py_repr api a e = (Ok (JObj o), e1) ->
  lookup "status" o = Some (JObj st) ->
  numeric_status st ->
  field0 st "player_hp" <= 0 ->
  exists rd e2 s,
    play_round json_loads json_dumps py_repr api a now e = (Ok rd, e2)
    /\ get_game_status (game_data e2) = Ok s
    /\ s_game_over s = true
    /\ s_phase s = match lookup "phase" o with
                   | Some p => p
                   | None => phase (game_data e)
                   end.
Proof.
  intros F S N Z.
  destruct (play_round_with_status a now _ F S N)
    as (rd & e2 & po & eo & php & ehp & pc & ec
        & R & P & E & A1 & _ & _ & _ & Ph & _).
  exists rd, e2. eexists. split; [exact R|].
  split; [eapply status_of_dead_player with (n := 0); eauto; try lia|].
  - rewrite P. rewrite int_of_assign_other by discriminate.
    rewrite int_of_assign_same, A1. f_equal. apply clampz_nonpos; lia.
  - simpl. auto.
Qed.

(** The branch of [initialize_game] that takes the seed of the offline
    generator. *)
Lemma default_seed_stored now e1 data e' :
  bind (mock "初始化" t07)
       (fun t => bind (loads_or_raise json_loads t)
          (fun default_data =>
             bind (lift (getitem default_data "player"))
               (fun p => bind (lift (getitem default_data "enemy"))
                  (fun en => bind (lift (get default_data "reason" (JStr "未知原因")))
                     (fun reason => bind (modify (seed_game p en reason))
                        (fun _ => bind (lift (get default_data "opening"
                                                  (JStr "战斗开始！")))
                           (fun opening =>
                              bind (modify (push_history
                                              (init_entry default_data opening now)))
                                   (fun _ => ret default_data)))))))) e1
  = (Ok data, e') ->
  getitem data "player" = Ok (player (game_data e'))
  /\ getitem data "enemy" = Ok (enemy (game_data e')).
Proof.
  unfold bind, loads_or_raise, lift, ret, modify.
  destruct (mock "初始化" t07 e1) as [[t|x] e2]; [|discriminate].
  destruct (json_loads t) as [dd|]; [|discriminate].
  destruct (getitem dd "player") as [p|x] eqn:P; [|discriminate].
  destruct (getitem dd "enemy") as [q|x] eqn:Q; [|discriminate].
  destruct (get dd "reason" _) as [r|x]; [|discriminate].
  destruct (get dd "opening" _) as [op|x]; [|discriminate].
  intros H. inversion H; subst. simpl. auto.
Qed.

(** [initialize_game] writes the two combatant records of the seed it
    returns into the state as they are. *)
Lemma initialize_stores_seed pn en now e data e' :
  initialize_game json_loads json_dumps py_repr api pn en now e = (Ok data, e') ->
  getitem data "player" = Ok (player (game_data e'))
  /\ getitem data "enemy" = Ok (enemy (game_data e')).
Proof.
  unfold initialize_game, bind. intros H.
  destruct (ask (init_prompt pn en) t08 e) as [[response|x] e0]; [|discriminate].
  destruct (repair response e0) as [[d|x] e1]; [|discriminate].
  unfold lift, ret, modify, loads_or_raise in H.
  destruct (py_in "player" d) as [[|]|x] eqn:A; try discriminate.
  - destruct (py_in "enemy" d) as [[|]|x] eqn:B; try discriminate.
    + destruct d as [| | | | |o]; try discriminate. simpl in H.
      destruct (lookup "player" o) as [p|] eqn:P; try discriminate.
      destruct (lookup "enemy" o) as [q|] eqn:Q; try discriminate.
      simpl in H.
      destruct (py_in "hp" p) as [[|]|x]; try discriminate;
        [|destruct (fill_defaults 1000 p) as [p1|x]; try discriminate];
        simpl in H;
        (destruct (py_in "hp" q) as [[|]|x]; try discriminate;
         [|destruct (fill_defaults 1200 q) as [q1|x]; try discriminate]);
        simpl in H; inversion H; subst; simpl;
        rewrite ?lookup_assign_same;
        rewrite ?(lookup_assign_other (k:="player") (k':="enemy")) by discriminate;
        rewrite ?lookup_assign_same; auto.
    + eapply default_seed_stored; exact H.
  - eapply default_seed_stored; exact H.
Qed.


(** ** The offline generator *)

Lemma mock_value p t e :
  fst (mock p t e)
  = if marked p then Ok (json_dumps seed_record)
    else offline_text json_dumps py_repr (game_data e).
Proof.
  unfold _call_ai_mock, offline_text, marked, bind, read, lift, modify, ret, rbind.
  destruct (contains "初始化" p || contains "初始设定" p); [reflexivity|].
  destruct (mock_stage py_repr (game_data e) (round (game_data e) + 1)) as [st|x];
    [|reflexivity].
  destruct (py_mem _ _); simpl;
    repeat (match goal with
            | |- context [getitem ?c ?k] => destruct (getitem c k); simpl
            | |- context [py_sub ?v ?n] => destruct (py_sub v n); simpl
            end; try reflexivity).
Qed.

Lemma mock_state p t e st :
  marked p = false ->
  mock_stage py_repr (game_data e) (round (game_data e) + 1) = Ok st ->
  enemy_skills_used (game_data (snd (mock p t e)))
  = if py_mem (JStr (enemy_skill st)) (enemy_skills_used (game_data e))
    then enemy_skills_used (game_data e)
    else (enemy_skills_used (game_data e) ++ [JStr (enemy_skill st)])%list.
Proof.
  unfold _call_ai_mock, marked, bind, read, lift, modify, ret, rbind.
  intros -> S. rewrite S.
  destruct (py_mem _ _); simpl;
    repeat (match goal with
            | |- context [getitem ?c ?k] => destruct (getitem c k); simpl
            | |- context [py_sub ?v ?n] => destruct (py_sub v n); simpl
            end; try reflexivity).
Qed.

Lemma mock_stage_fields g g' n :
  getitem (player g) "name" = getitem (player g') "name" ->
  getitem (enemy g) "name" = getitem (enemy g') "name" ->
  mock_stage py_repr g n = mock_stage py_repr g' n.
Proof.
  unfold mock_stage. intros -> ->. reflexivity.
Qed.

Lemma mock_stage_table g n st sk pd ed :
  mock_stage py_repr g n = Ok st ->
  spec_bucket n = Some (sk, pd, ed) ->
  enemy_skill st = sk /\ player_damage st = pd /\ enemy_damage st = ed.
Proof.
  unfold mock_stage, spec_bucket, rbind. intros M B.
  destruct (1 <=? n) eqn:A0, (n <=? 3) eqn:A1, (4 <=? n) eqn:A2,
           (n <=? 6) eqn:A3, (7 <=? n) eqn:A4, (n <=? 9) eqn:A5,
           (10 <=? n) eqn:A6;
    simpl in B; try discriminate; try lia;
    repeat match type of M with
           | context [getitem ?c ?k] => destruct (getitem c k); try discriminate
           end;
    inversion M; subst; inversion B; subst; simpl; auto.
Qed.

Lemma mock_stage_total g n :
  has_key (player g) "name" -> has_key (enemy g) "name" ->
  exists st, mock_stage py_repr g n = Ok st.
Proof.
  intros [vp P] [ve E]. unfold mock_stage, rbind. rewrite P, E.
  repeat break_match; eauto.
Qed.

Lemma offline_text_total g :
  mock_ready g -> exists text, offline_text json_dumps py_repr g = Ok text.
Proof.
  intros [(Np & [hp Hp] & [c Cp]) (Ne & [ehp He] & [ec Ce])].
  destruct (@mock_stage_total g (round g + 1) Np Ne) as [st S].
  apply int_of_getitem in Hp, Cp, He, Ce.
  destruct Hp as (v1 & G1 & I1), Cp as (v2 & G2 & I2),
           He as (v3 & G3 & I3), Ce as (v4 & G4 & I4).
  unfold offline_text, rbind, py_sub.
  rewrite S, G1, I1, G3, I3, G2, I2, G4, I4. eauto.
Qed.

Lemma mock_total p t e :
  mock_ready (game_data e) ->
  exists text e', mock p t e = (Ok text, e').
Proof.
  intros R. pose proof (mock_value p t e) as V.
  destruct (mock p t e) as [r e'] eqn:M. simpl in V.
  destruct (marked p).
  - subst r. eauto.
  - destruct (offline_text_total R) as [text T]. rewrite T in V. subst r. eauto.
Qed.


(** ** The response repairer *)


(** ** The live caller *)

Lemma range_3 : range 3 = [0; 1; 2].
Proof. reflexivity. Qed.

Lemma mock_game_only p t e e' :
  game_data e = game_data e' -> fst (mock p t e) = fst (mock p t e').
Proof. intros H. rewrite !mock_value. now rewrite H. Qed.

Lemma not_live e : live e = false -> forall p t, ask p t e = mock p t e.
Proof.
  unfold live, call_ai, _call_ai_real. intros H p t.
  destruct (use_mock e), (ai_enabled e), (client e); simpl in *;
    try discriminate; reflexivity.
Qed.

(** C5, amended.  On a state where each combatant has a name and integer
    hp and conc, [call_ai] returns a text.  The live engine sends at most
    three requests; it sleeps [2^attempt] seconds after a failed attempt
    that is not the last ([1] then [2]); the first answer is returned as it
    is, and after three failures the answer is that of the offline
    generator for the same prompt. *)
Theorem call_ai_policy p t e :
  mock_ready (game_data e) ->
  exists text e',
    ask p t e = (Ok text, e')
    /\ frame e e'
    /\ (live e = false -> ask p t e = mock p t e)
    /\ (live e = true ->
        let n := failures api (api_calls e) p t in
        api_calls e' = (api_calls e + Nat.min (S n) 3)%nat
        /\ slept e' = (slept e ++ backoff n)%list
        /\ match n with
           | 3%nat => fst (mock p t e) = Ok text
           | _ => api (api_calls e + n)%nat p t = Some text
           end).
Proof.
  intros R.
  destruct (live e) eqn:L.
  - assert (U : use_mock e = false /\ ai_enabled e = true /\ client e = true).
    { unfold live in L. destruct (use_mock e), (ai_enabled e), (client e);
        simpl in L; try discriminate; auto. }
    destruct U as (U1 & U2 & U3).
    unfold call_ai, _call_ai_real, failures.
    rewrite U1, U2, U3, range_3. simpl.
    destruct (api (api_calls e) p t) as [c0|] eqn:A0.
    { exists c0, (count_call e). split; [reflexivity|].
      split; [apply frame_count_call|].
      split; [discriminate|]. intros _. simpl.
      split; [lia|]. split; [now rewrite app_nil_r|].
      now rewrite Nat.add_0_r. }
    destruct (api (S (api_calls e)) p t) as [c1|] eqn:A1.
    { eexists c1, _. split; [reflexivity|].
      split; [eapply frame_trans; [apply frame_count_call|];
              eapply frame_trans; [apply frame_sleep | apply frame_count_call]|].
      split; [discriminate|]. intros _. simpl.
      split; [lia|]. split; [reflexivity|].
      now rewrite Nat.add_1_r. }
    destruct (api (S (S (api_calls e))) p t) as [c2|] eqn:A2.
    { eexists c2, _. split; [reflexivity|].
      split; [do 2 (eapply frame_trans; [apply frame_count_call|];
                    eapply frame_trans; [apply frame_sleep|]);
              apply frame_count_call|].
      split; [discriminate|]. intros _. simpl.
      split; [lia|]. split; [now rewrite <- app_assoc|].
      now replace (api_calls e + 2)%nat with (S (S (api_calls e))) by lia. }
    match goal with
    | |- context [mock p t ?x] =>
        destruct (@mock_total p t x R) as (text & e' & M);
        pose proof (@mock_game_only p t x e eq_refl) as G
    end.
    rewrite M in G. simpl in G.
    exists text, e'. rewrite M. split; [reflexivity|].
    split.
    { apply mock_frame in M.
      eapply frame_trans; [|exact M].
      do 2 (eapply frame_trans; [apply frame_count_call|];
            eapply frame_trans; [apply frame_sleep|]).
      apply frame_count_call. }
    split; [discriminate|]. intros _. simpl.
    pose proof M as M'. unfold _call_ai_mock, bind, read, lift, modify, ret in M'.
    assert (W : api_calls e' = S (S (S (api_calls e)))
                /\ slept e' = ((slept e ++ [2 ^ 0]) ++ [2 ^ 1])%list).
    { repeat (break_match; inv_pair; simpl in *; try discriminate); auto. }
    destruct W as [W1 W2]. rewrite W1, W2, <- app_assoc. simpl.
    split; [lia|]. split; [reflexivity | auto].
  - destruct (@mock_total p t e R) as (text & e' & M).
    exists text, e'. rewrite (@not_live e L). rewrite M.
    split; [reflexivity|]. split; [eapply mock_frame; eauto|].
    split; [reflexivity | discriminate].
Qed.

(** ** The summary *)

Lemma worth_keeping_len s : worth_keeping s = (10 <? py_len s).
Proof.
  unfold worth_keeping. destruct s; simpl; auto.
Qed.

Lemma summary_due_spec n : summary_due n = true <-> 2 <= n /\ n mod 3 = 0.
Proof.
  unfold summary_due. rewrite andb_true_iff, Z.leb_le, Z.eqb_eq. tauto.
Qed.

Lemma summary_due_period k :
  0 <= k ->
  Z.b2z (summary_due (k + 1)) + Z.b2z (summary_due (k + 2))
  + Z.b2z (summary_due (k + 3)) = 1.
Proof.
  intros H. unfold summary_due.
  assert (M := Z.mod_pos_bound k 3 ltac:(lia)).
  assert (E := Z.div_mod k 3 ltac:(lia)).
  assert (C : k mod 3 = 0 \/ k mod 3 = 1 \/ k mod 3 = 2) by lia.
  assert (D : 0 <= k / 3) by (apply Z.div_pos; lia).
  destruct C as [C|[C|C]].
  - replace ((k + 1) mod 3) with 1
      by (apply Z.mod_unique with (q := k / 3); lia).
    replace ((k + 2) mod 3) with 2
      by (apply Z.mod_unique with (q := k / 3); lia).
    replace ((k + 3) mod 3) with 0
      by (apply Z.mod_unique with (q := k / 3 + 1); lia).
    replace (2 <=? k + 3) with true by lia.
    simpl. rewrite !andb_false_r. reflexivity.
  - replace ((k + 1) mod 3) with 2
      by (apply Z.mod_unique with (q := k / 3); lia).
    replace ((k + 2) mod 3) with 0
      by (apply Z.mod_unique with (q := k / 3 + 1); lia).
    replace ((k + 3) mod 3) with 1
      by (apply Z.mod_unique with (q := k / 3 + 1); lia).
    replace (2 <=? k + 2) with true by lia.
    simpl. rewrite !andb_false_r. reflexivity.
  - replace ((k + 1) mod 3) with 0
      by (apply Z.mod_unique with (q := k / 3 + 1); lia).
    replace ((k + 2) mod 3) with 1
      by (apply Z.mod_unique with (q := k / 3 + 1); lia).
    replace ((k + 3) mod 3) with 2
      by (apply Z.mod_unique with (q := k / 3 + 1); lia).
    replace (2 <=? k + 1) with true by lia.
    simpl. rewrite !andb_false_r. reflexivity.
Qed.

Lemma update_summary_cases e :
  summarize e
  = if summary_due (len (history (game_data e))) then
      match ask (summary_prompt py_repr (game_data e)) t03 e with
      | (Ok s, e1) =>
          (Ok tt, if worth_keeping s
                  then set_game (set_summary s (game_data e1)) e1 else e1)
      | (Raise _, e1) => (Ok tt, e1)
      end
    else (Ok tt, e).
Proof.
  unfold update_summary, summary_due, bind, read, try_pass, modify, ret.
  destruct (len (history (game_data e)) <? 2) eqn:A.
  - replace (2 <=? len (history (game_data e))) with false by lia. reflexivity.
  - replace (2 <=? len (history (game_data e))) with true by lia. simpl.
    destruct (len (history (game_data e)) mod 3 =? 0); [|reflexivity].
    destruct (ask _ _ e) as [[s|x] e1]; [|reflexivity].
    destruct (worth_keeping s); reflexivity.
Qed.

Lemma validate_status_keeps rd e r e' :
  validate_status rd e = (r, e') ->
  history (game_data e') = history (game_data e)
  /\ current_summary (game_data e') = current_summary (game_data e).
Proof.
  unfold validate_status, write_player, write_enemy, bind, lift, ret, read, modify.
  intros H.
  repeat (break_match; inv_pair; simpl in *; try discriminate); auto.
Qed.

Lemma record_round_summary rd a now e r e' :
  record_round json_dumps py_repr api rd a now e = (Ok r, e') ->
  summary_due (len (history (game_data e)) + 1) = false ->
  current_summary (game_data e') = current_summary (game_data e).
Proof.
  unfold record_round, log_round, bind, lift, ret, read, modify. intros H D.
  assert (L : forall (h : list json) x, len (h ++ [x])%list = len h + 1).
  { intros h x. unfold len. rewrite length_app. simpl. lia. }
  repeat (break_match; inv_pair; simpl in *; try discriminate);
    match goal with
    | U : summarize ?x = _ |- _ =>
        rewrite update_summary_cases in U; simpl in U;
        rewrite L, D in U; inversion U; subst; reflexivity
    end.
Qed.

Lemma play_round_keeps_summary a now e rd e2 :
  play_round json_loads json_dumps py_repr api a now e = (Ok rd, e2) ->
  summary_due (len (history (game_data e)) + 1) = false ->
  current_summary (game_data e2) = current_summary (game_data e).
Proof.
  intros P Dn. revert P.
  unfold play_round, settle_round, bind.
  destruct (fetch_round _ _ _ _ a e) as [[rd0|x] e0] eqn:F; [|discriminate].
  apply fetch_round_inv in F. destruct F as [[[] Sm] _]. simpl in *.
  destruct (validate_status rd0 e0) as [[rd1|x] e3] eqn:V; [|discriminate].
  apply validate_status_keeps in V. destruct V as [V1 V2].
  intros R. apply record_round_summary in R; [congruence|].
  rewrite V1. congruence.
Qed.


(** ** Three rounds offline *)

Lemma contains_cons needle c s :
  contains needle (String c s)
  = if String.prefix needle (String c s) then true else contains needle s.
Proof. reflexivity. Qed.

Lemma contains_app_r needle a b :
  contains needle b = true -> contains needle (a ++ b) = true.
Proof.
  intros H. induction a as [|c a IH]; [exact H|].
  change (String c a ++ b) with (String c (a ++ b)).
  rewrite contains_cons, IH. now destruct (String.prefix _ _).
Qed.

Lemma init_prompt_marked pn en : marked (init_prompt pn en) = true.
Proof.
  unfold marked, init_prompt. apply orb_true_iff. right.
  do 5 apply contains_app_r. vm_compute. reflexivity.
Qed.

Lemma extract_json_direct text v e :
  json_loads (strip text) = Some v -> repair text e = (Ok v, e).
Proof. unfold extract_json. intros ->. reflexivity. Qed.

(** A round is its part before the summary, then the summary. *)
Lemma play_round_split a now e :
  play_round json_loads json_dumps py_repr api a now e
  = match bind (fetch_round json_loads json_dumps py_repr api a)
               (fun rd => bind (validate_status rd)
                  (fun rd' => bind (log_round rd' a now) (fun _ => ret rd'))) e
    with
    | (Ok rd, e') => bind summarize (fun _ => ret rd) e'
    | (Raise x, e') => (Raise x, e')
    end.
Proof.
  unfold play_round, settle_round, record_round, bind, ret.
  destruct (fetch_round _ _ _ _ a e) as [[rd|x] e0]; [|reflexivity].
  destruct (validate_status rd e0) as [[rd1|x] e1]; [|reflexivity].
  destruct (log_round rd1 a now e1) as [[u|x] e2]; reflexivity.
Qed.

Lemma offline_ask p t e : use_mock e = true -> ask p t e = mock p t e.
Proof. unfold call_ai. intros ->. reflexivity. Qed.

End Facts.

(** ** The offline scenario, with the reference reader and writer *)

Section Offline.

Variable py_repr : json -> string.
Variable api : nat -> string -> Q -> option string.

Local Abbreviation init := (initialize_game Codec.loads Codec.dumps py_repr api).
Local Abbreviation play := (play_round Codec.loads Codec.dumps py_repr api).

Lemma offline_initialize pn en t0 :
  init pn en t0 (new_engine false) = (Ok seed_record, offline_seeded t0).
Proof.
  unfold initialize_game, bind.
  rewrite offline_ask by reflexivity.
  rewrite mock_marked by apply init_prompt_marked.
  erewrite extract_json_direct by (vm_compute; reflexivity).
  vm_compute. reflexivity.
Qed.

(** The summary step of an offline engine, on a prompt the reader cannot
    look into: the answer of the offline generator to a marked prompt or
    to a round prompt.  *)
Lemma offline_summary_cases e :
  use_mock e = true ->
  summary_due (len (history (game_data e))) = true ->
  update_summary Codec.dumps py_repr api e
  = (let (r, e1) := _call_ai_mock Codec.dumps py_repr EmptyString t03 e in
     match r with
     | Ok s => (Ok tt, if worth_keeping s
                       then set_game (set_summary s (game_data e1)) e1 else e1)
     | Raise _ => (Ok tt, e1)
     end)
  \/ update_summary Codec.dumps py_repr api e
     = (Ok tt, if worth_keeping (Codec.dumps seed_record)
               then set_game (set_summary (Codec.dumps seed_record) (game_data e)) e
               else e).
Proof.
  intros U D. rewrite update_summary_cases, D.
  rewrite offline_ask by exact U.
  destruct (marked (summary_prompt py_repr (game_data e))) eqn:Mk.
  - right. rewrite mock_marked by exact Mk. reflexivity.
  - left. erewrite mock_unmarked; [reflexivity | exact Mk | reflexivity].
Qed.

(** C6.  Offline, [initialize_game] followed by three rounds of
    ["attack"] all return a record; the round counter is then 3, the
    history has 4 entries, and the skill of the first stage is among the
    used skills after the first, the second and the third round. *)
Theorem offline_three_attacks pn en t0 t1 t2 t3 :
  exists d r1 r2 r3 e1 e2 e3 e4,
    init pn en t0 (new_engine false) = (Ok d, e1)
    /\ play "attack" t1 e1 = (Ok r1, e2)
    /\ play "attack" t2 e2 = (Ok r2, e3)
    /\ play "attack" t3 e3 = (Ok r3, e4)
    /\ round (game_data e4) = 3
    /\ len (history (game_data e4)) = 4
    /\ In (JStr "触手鞭笞") (enemy_skills_used (game_data e2))
    /\ In (JStr "触手鞭笞") (enemy_skills_used (game_data e3))
    /\ In (JStr "触手鞭笞") (enemy_skills_used (game_data e4)).
Proof.
  exists seed_record.
  destruct (play "attack" t1 (offline_seeded t0)) as [r1 e2] eqn:P1.
  pose proof P1 as Q1. vm_compute in Q1. inversion Q1; subst r1 e2; clear Q1.
  match type of P1 with _ = (Ok ?r, ?e) => exists r; set (e2 := e) in * end.
  pose proof (play_round_split Codec.loads Codec.dumps py_repr api "attack" t2 e2) as S2.
  match type of S2 with
  | _ = match ?pre with _ => _ end => destruct pre as [r2 e2'] eqn:Pre
  end.
  vm_compute in Pre. inversion Pre; subst r2 e2'; clear Pre.
  match type of S2 with
  | _ = bind _ _ ?e => set (e2' := e) in *
  end.
  unfold bind at 1 in S2.
  destruct (@offline_summary_cases e2' eq_refl eq_refl) as [C|C];
    rewrite C in S2; clear C;
    match type of S2 with
    | _ = ?rhs => let v := eval vm_compute in rhs in change rhs with v in S2
    end;
    match type of S2 with
    | _ = (Ok ?r, ?e) => exists r; set (e3 := e) in *
    end;
    destruct (play "attack" t3 e3) as [r3 e4] eqn:P3;
    pose proof P3 as Q3; vm_compute in Q3; inversion Q3; subst r3 e4; clear Q3;
    match type of P3 with _ = (Ok ?r, ?e) => exists r end;
    eexists (offline_seeded t0), e2, e3, _;
    (split; [apply offline_initialize|]);
    (split; [exact P1|]);
    (split; [exact S2|]);
    (split; [exact P3|]);
    vm_compute; intuition congruence.
Qed.

End Offline.

(** ** The snapshot and what it shares *)

Module HeapFacts.
Import Heap.

Lemma nth_error_update_other {A} (l : list A) i j x :
  i <> j -> nth_error (update i x l) j = nth_error l j.
Proof.
  revert i j. induction l as [|y l IH]; intros [|i] [|j] N; simpl; auto;
    try congruence.
Qed.

Lemma nth_error_past {A} (h t : list A) k :
  nth_error (h ++ t) (List.length h + k)%nat = nth_error t k.
Proof.
  rewrite nth_error_app2 by lia. f_equal. lia.
Qed.

Lemma nth_error_before {A} (h t : list A) l :
  (l < List.length h)%nat -> nth_error (h ++ t) l = nth_error h l.
Proof. intros H. now apply nth_error_app1. Qed.

(** A mutation whose target is at address [n] or above leaves the
    objects below [n] alone. *)
Lemma mutate_above h root path a h'' n :
  mutate h root path a = Some h'' ->
  (forall l, resolve h root path = Some (VRef l) -> (n <= l)%nat) ->
  forall l, (l < n)%nat -> nth_error h'' l = nth_error h l.
Proof.
  unfold mutate, obind. intros M R l L.
  destruct (resolve h root path) as [[| | | |t]|]; try discriminate.
  specialize (R t eq_refl).
  destruct (nth_error h t); try discriminate.
  destruct (act a o); try discriminate.
  inversion M; subst. apply nth_error_update_other. lia.
Qed.

(** The store after a snapshot: the old one and four new objects, the
    three copies and the snapshot itself. *)
Lemma get_game_status_allocates gd h snap h' :
  get_game_status gd h = Some (snap, h') ->
  exists g p e sk o1 o2 o3 r ph ov c m,
    deref h gd = Some (ODict g)
    /\ alookup "player" g = Some p /\ deref h p = Some o1
    /\ alookup "enemy" g = Some e /\ deref (h ++ [o1])%list e = Some o2
    /\ alookup "enemy_skills_used" g = Some sk
    /\ deref ((h ++ [o1]) ++ [o2])%list sk = Some o3
    /\ snap = VRef (List.length h + 3)%nat
    /\ h' = (h ++ [o1; o2; o3;
                   ODict [("round", r); ("phase", ph);
                          ("player", VRef (List.length h));
                          ("enemy", VRef (List.length h + 1)%nat);
                          ("game_over", VBool ov);
                          ("history_count", VInt c);
                          ("mode", m);
                          ("enemy_skills_used", VRef (List.length h + 2)%nat)]])%list.
Proof.
  unfold get_game_status, obind, copy, alloc. intros H.
  destruct (deref h gd) as [[g|]|] eqn:G; try discriminate.
  destruct (alookup "round" g) as [r|]; try discriminate.
  destruct (alookup "phase" g) as [ph|]; try discriminate.
  destruct (alookup "player" g) as [p|] eqn:Gp; try discriminate.
  destruct (deref h p) as [o1|] eqn:O1; try discriminate.
  destruct (alookup "enemy" g) as [e|] eqn:Ge; try discriminate.
  simpl in H.
  destruct (deref (h ++ [o1])%list e) as [o2|] eqn:O2; try discriminate.
  simpl in H.
  destruct (game_of _ gd); try discriminate.
  destruct (is_game_over _) as [ov|]; try discriminate.
  destruct (alookup "history" g); try discriminate.
  destruct (deref _ v); try discriminate.
  destruct (match o with OList l => _ | ODict o0 => _ end) as [c|];
    try discriminate.
  destruct (alookup "mode" g) as [m|]; try discriminate.
  destruct (alookup "enemy_skills_used" g) as [sk|] eqn:Gs; try discriminate.
  destruct (deref ((h ++ [o1]) ++ [o2])%list sk) as [o3|] eqn:O3;
    try discriminate.
  simpl in H. inversion H; subst; clear H.
  exists g, p, e, sk, o1, o2, o3, r, ph, ov, c, m.
  repeat (split; [reflexivity || assumption|]).
  split.
  - f_equal. rewrite !length_app. simpl. lia.
  - rewrite !length_app. simpl.
    replace (List.length h + 1 + 1)%nat with (List.length h + 2)%nat by lia.
    rewrite <- !app_assoc. reflexivity.
Qed.


End HeapFacts.

(** On the store of the seeded engine the snapshot reads back as the
    snapshot of the engine by value. *)
Example heap_snapshot_agrees :
  exists s st,
    Heap.seeded_snapshot = Some s
    /\ get_game_status (game_data (offline_seeded "12:00:00")) = Ok st
    /\ Heap.reify 4 (snd s) (fst s)
       = Some (JObj [("round", JInt (s_round st)); ("phase", s_phase st);
                     ("player", s_player st); ("enemy", s_enemy st);
                     ("game_over", JBool (s_game_over st));
                     ("history_count", JInt (s_history_count st));
                     ("mode", JStr (s_mode st));
                     ("enemy_skills_used", JArr (s_enemy_skills_used st))]).
Proof.
  do 2 eexists. split; [vm_compute; reflexivity|].
  split; vm_compute; reflexivity.
Qed.

(** * Runs of the engine

    The statements above, at concrete engines: each lemma below applies
    one of them, or shows the run on which a sentence of the specification
    fails. *)

Ltac numeric :=
  let k := fresh in let I := fresh in let v := fresh in let L := fresh in
  intros k I v L; simpl in I;
  repeat (destruct I as [I|I];
          [subst k; simpl in L; inversion L; subst; eexists; reflexivity|]);
  contradiction.

(** C1, counterexample.  A record that puts the hp of the player at 0 and
    reports the phase ["battle"]: the next snapshot says [game_over] and
    still has the phase ["battle"], not ["ending"]. *)
Lemma backend_phase_is_kept :
  exists rd e2 s,
    run_round (scripted script_dead) "attack" "12:00:01"
              (live_after_init script_dead) = (Ok rd, e2)
    /\ int_of (player (game_data e2)) "hp" = Some 0
    /\ get_game_status (game_data e2) = Ok s
    /\ s_game_over s = true
    /\ s_phase s = JStr "battle"
    /\ s_phase s <> JStr "ending".
Proof.
  do 3 eexists.
  split; [vm_compute; reflexivity|].
  split; [vm_compute; reflexivity|].
  split; [vm_compute; reflexivity|].
  split; [reflexivity|]. split; [reflexivity | discriminate].
Qed.

Lemma hp_zero_is_game_over_witness :
  exists rd e2 s,
    play_round Codec.loads Codec.dumps Codec.repr (scripted script_dead)
               "attack" "12:00:01" (live_after_init script_dead) = (Ok rd, e2)
    /\ get_game_status (game_data e2) = Ok s
    /\ s_game_over s = true
    /\ s_phase s = match lookup "phase" [("narrative", JStr "the player falls");
                                         ("status", status_of 0 500 50 50);
                                         ("phase", JStr "battle")] with
                   | Some p => p
                   | None => phase (game_data (live_after_init script_dead))
                   end.
Proof.
  eapply (@hp_zero_is_game_over Codec.loads Codec.dumps Codec.repr
            (scripted script_dead) "attack" "12:00:01"
            (live_after_init script_dead)).
  - vm_compute. reflexivity.
  - reflexivity.
  - numeric.
  - vm_compute. discriminate.
Defined.



(** C3, counterexample.  A seed with a negative hp is stored as it is;
    the game is then over although no hp is 0, the phase is ["battle"] and
    the round is 0. *)
Lemma negative_hp_is_game_over :
  is_game_over (game_data (live_after_init script_negative)) = Ok true
  /\ int_of (player (game_data (live_after_init script_negative))) "hp"
     = Some (-1)
  /\ ~ spec_game_over (game_data (live_after_init script_negative)).
Proof.
  split; [vm_compute; reflexivity|]. split; [vm_compute; reflexivity|].
  intros [H|[H|[H|H]]]; try (vm_compute in H; discriminate).
  assert (R : round (game_data (live_after_init script_negative)) = 0)
    by (vm_compute; reflexivity).
  lia.
Qed.

Lemma is_game_over_iff_witness :
  exists b,
    is_game_over (game_data (live_after_init script_negative)) = Ok b
    /\ (b = true <->
        -1 <= 0 \/ 800 <= 0
        \/ phase (game_data (live_after_init script_negative)) = JStr "ending"
        \/ 20 <= round (game_data (live_after_init script_negative))).
Proof.
  apply (@is_game_over_iff (game_data (live_after_init script_negative))
           (-1) 800); vm_compute; reflexivity.
Defined.


(** C5, counterexample.  A seed with empty combatants leaves them without
    a name; when the three requests of a call then fail, the offline
    generator raises [KeyError], and so does [call_ai]. *)
Lemma call_ai_raises :
  exists e',
    run_ask (scripted script_bare) "x" t07 (live_after_init script_bare)
    = (Raise KeyError, e')
    /\ api_calls e' = (api_calls (live_after_init script_bare) + 3)%nat
    /\ slept e' = [1; 2].
Proof.
  eexists. split; [vm_compute; reflexivity|]. split; vm_compute; reflexivity.
Qed.

Lemma ready_after_seed : mock_ready (game_data (live_after_init script_seed)).
Proof.
  split; (split; [eexists; vm_compute; reflexivity|]);
    split; eexists; vm_compute; reflexivity.
Defined.

Lemma call_ai_policy_witness :
  exists text e',
    call_ai Codec.dumps Codec.repr (scripted script_seed) "x" t07
            (live_after_init script_seed) = (Ok text, e')
    /\ api_calls e' = 4%nat /\ slept e' = [1; 2]
    /\ fst (run_mock "x" t07 (live_after_init script_seed)) = Ok text.
Proof.
  destruct (@call_ai_policy Codec.dumps Codec.repr (scripted script_seed)
              "x" t07 (live_after_init script_seed) ready_after_seed)
    as (text & e' & A & _ & _ & L).
  destruct (L eq_refl) as (L1 & L2 & L3).
  exists text, e'. split; [exact A|].
  split; [exact L1|]. split; [exact L2 | exact L3].
Defined.





(** * More of the engine *)

(** ** The bookkeeping of a round *)

Lemma clamp_ok s k hi s' :
  clamp s k hi = Ok s' ->
  exists o c, s = JObj o /\ s' = JObj (assign k c o)
              /\ as_int c = Some (clampz (field0 o k) hi)
              /\ (forall v, lookup k o = Some v -> exists n, as_int v = Some n).
Proof.
  intros H. destruct s as [| | | | |o]; try discriminate.
  assert (N : forall v, lookup k o = Some v -> exists n, as_int v = Some n).
  { intros v L. unfold clamp, get, rbind, py_min in H. rewrite L in H.
    destruct (as_int v) as [n|]; [eauto | discriminate]. }
  destruct (clamp_numeric o k hi N) as (c & C & V).
  rewrite C in H. inversion H; subst. eauto 6.
Qed.

Lemma clamp_raises o k hi x : clamp (JObj o) k hi = Raise x -> x = TypeError.
Proof.
  unfold clamp, get, rbind, py_min, py_max, setitem. simpl.
  intros H. repeat (break_match; try discriminate); congruence.
Qed.

(** The four clamps of [validate_status], as the source chains them. *)
Lemma clamps_ok s0 s4 :
  (s1 <- clamp s0 "player_hp" 2000 ;;
   s2 <- clamp s1 "enemy_hp" 2000 ;;
   s3 <- clamp s2 "player_conc" 100 ;;
   clamp s3 "enemy_conc" 100)%res = Ok s4 ->
  exists st, s0 = JObj st /\ numeric_status st.
Proof.
  unfold rbind. intros H.
  destruct (clamp s0 "player_hp" 2000) as [s1|] eqn:C1; [|discriminate].
  destruct (clamp s1 "enemy_hp" 2000) as [s2|] eqn:C2; [|discriminate].
  destruct (clamp s2 "player_conc" 100) as [s3|] eqn:C3; [|discriminate].
  apply clamp_ok in C1, C2, C3, H.
  destruct C1 as (o1 & c1 & -> & -> & _ & N1).
  destruct C2 as (o2 & c2 & E2 & -> & _ & N2).
  destruct C3 as (o3 & c3 & E3 & -> & _ & N3).
  destruct H as (o4 & c4 & E4 & _ & _ & N4).
  inversion E2; subst o2. inversion E3; subst o3. inversion E4; subst o4.
  exists o1. split; [reflexivity|].
  intros k I v L. simpl in I.
  destruct I as [<-|[<-|[<-|[<-|[]]]]].
  - eauto.
  - apply N2. now rewrite lookup_assign_other by discriminate.
  - apply N3. now rewrite !lookup_assign_other by discriminate.
  - apply N4. now rewrite !lookup_assign_other by discriminate.
Qed.

Lemma clamps_raise st x :
  (s1 <- clamp (JObj st) "player_hp" 2000 ;;
   s2 <- clamp s1 "enemy_hp" 2000 ;;
   s3 <- clamp s2 "player_conc" 100 ;;
   clamp s3 "enemy_conc" 100)%res = Raise x ->
  x = TypeError.
Proof.
  unfold rbind. intros H.
  destruct (clamp (JObj st) "player_hp" 2000) as [s1|] eqn:C1;
    [|inversion H; subst; eapply clamp_raises; eauto].
  apply clamp_ok in C1. destruct C1 as (o1 & c1 & E1 & -> & _).
  destruct (clamp _ "enemy_hp" 2000) as [s2|] eqn:C2;
    [|inversion H; subst; eapply clamp_raises; eauto].
  apply clamp_ok in C2. destruct C2 as (o2 & c2 & E2 & -> & _).
  destruct (clamp _ "player_conc" 100) as [s3|] eqn:C3;
    [|inversion H; subst; eapply clamp_raises; eauto].
  apply clamp_ok in C3. destruct C3 as (o3 & c3 & E3 & -> & _).
  eapply clamp_raises; eauto.
Qed.

(** What [validate_status] does, by the shape of the record. *)
Lemma validate_status_cases rd e po eo :
  player (game_data e) = JObj po -> enemy (game_data e) = JObj eo ->
  (exists x, validate_status rd e = (Raise x, e))
  \/ (py_in "status" rd = Ok false /\ validate_status rd e = (Ok rd, e))
  \/ (exists o st, rd = JObj o /\ lookup "status" o = Some (JObj st)
                   /\ numeric_status st).
Proof.
  intros P E.
  destruct (py_in "status" rd) as [[|]|x] eqn:I.
  - destruct (getitem rd "status") as [s0|x] eqn:G.
    + destruct ((s1 <- clamp s0 "player_hp" 2000 ;;
                 s2 <- clamp s1 "enemy_hp" 2000 ;;
                 s3 <- clamp s2 "player_conc" 100 ;;
                 clamp s3 "enemy_conc" 100)%res) as [s4|x] eqn:C.
      * right. right. apply clamps_ok in C. destruct C as (st & -> & N).
        destruct rd as [| | | | |o]; try discriminate.
        simpl in G. destruct (lookup "status" o) eqn:L; inversion G; subst.
        eauto.
      * left. exists x. unfold validate_status, bind, lift. rewrite I, G, C.
        reflexivity.
    + left. exists x. unfold validate_status, bind, lift. rewrite I, G.
      reflexivity.
  - right. left. split; [reflexivity|].
    unfold validate_status, bind, lift, ret. now rewrite I.
  - left. exists x. unfold validate_status, bind, lift. now rewrite I.
Qed.

(** A status dict with a field that is not a number makes the validation
    raise [TypeError], before anything is written. *)
Lemma validate_status_type_error o st k v e :
  lookup "status" o = Some (JObj st) ->
  In k ["player_hp"; "enemy_hp"; "player_conc"; "enemy_conc"] ->
  lookup k st = Some v -> as_int v = None ->
  validate_status (JObj o) e = (Raise TypeError, e).
Proof.
  intros S I L A.
  unfold validate_status, bind, lift. simpl. rewrite S. simpl.
  destruct ((s1 <- clamp (JObj st) "player_hp" 2000 ;;
             s2 <- clamp s1 "enemy_hp" 2000 ;;
             s3 <- clamp s2 "player_conc" 100 ;;
             clamp s3 "enemy_conc" 100)%res) as [s4|x] eqn:C.
  - apply clamps_ok in C. destruct C as (st' & E & N). inversion E; subst st'.
    destruct (N k I v L) as [n Hn]. congruence.
  - apply clamps_raise in C. now subst.
Qed.

(** What [log_round] does: it raises on a record that is not a dict,
    before it has written anything; on a dict it sets the phase, notes the
    skill of the enemy and appends the entry of the round. *)
Lemma log_round_cases rd a now e :
  match log_round rd a now e with
  | (Raise _, e') => e' = e
  | (Ok _, e') =>
      exists ps es,
        get rd "player_skill_used" (JStr "") = Ok ps
        /\ get rd "enemy_skill_used" (JStr "") = Ok es
        /\ history (game_data e')
           = (history (game_data e)
              ++ [round_entry (round (game_data e)) a ps es rd now])%list
        /\ grown (enemy_skills_used (game_data e))
                 (enemy_skills_used (game_data e'))
        /\ use_mock e' = use_mock e /\ ai_enabled e' = ai_enabled e
        /\ client e' = client e
        /\ player (game_data e') = player (game_data e)
        /\ enemy (game_data e') = enemy (game_data e)
        /\ battle_reason (game_data e') = battle_reason (game_data e)
        /\ round (game_data e') = round (game_data e)
        /\ mode (game_data e') = mode (game_data e)
        /\ current_summary (game_data e') = current_summary (game_data e)
        /\ api_calls e' = api_calls e /\ slept e' = slept e
  end.
Proof.
  unfold log_round, bind, lift, ret, read, modify.
  destruct rd as [| | | | |o]; simpl; auto;
    try (destruct (contains _ _); reflexivity);
    try (destruct (py_mem _ _); reflexivity).
  destruct (lookup "phase" o) as [ph|]; simpl;
      destruct (truthy _ && negb _); simpl;
      do 2 eexists; (split; [reflexivity|]); (split; [reflexivity|]);
      (split; [reflexivity|]);
      (split; [first [apply grown_refl | eexists; reflexivity]|]);
      repeat split; reflexivity.
Qed.

(** The validation of a status dict of numbers, with the dict it leaves in
    the record. *)
Lemma validate_with_status_detail o st po eo e :
  lookup "status" o = Some (JObj st) -> numeric_status st ->
  player (game_data e) = JObj po -> enemy (game_data e) = JObj eo ->
  exists php ehp pc ec,
    validate_status (JObj o) e
    = (Ok (JObj (assign "status"
                   (JObj (assign "enemy_conc" ec
                            (assign "player_conc" pc
                               (assign "enemy_hp" ehp
                                  (assign "player_hp" php st))))) o)),
       set_game (set_enemy (JObj (assign "conc" ec (assign "hp" ehp eo)))
                  (set_player (JObj (assign "conc" pc (assign "hp" php po)))
                     (game_data e))) e)
    /\ as_int php = Some (clampz (field0 st "player_hp") 2000)
    /\ as_int ehp = Some (clampz (field0 st "enemy_hp") 2000)
    /\ as_int pc = Some (clampz (field0 st "player_conc") 100)
    /\ as_int ec = Some (clampz (field0 st "enemy_conc") 100).
Proof.
  intros S N P E.
  assert (K : forall k, In k ["player_hp"; "enemy_hp"; "player_conc"; "enemy_conc"] ->
                        forall st0, numeric_status st0 ->
                        forall v, lookup k st0 = Some v -> exists n, as_int v = Some n).
  { intros k I st0 N0 v L. eapply N0; eauto. }
  destruct (clamp_numeric st "player_hp" 2000) as [c1 [C1 V1]].
  { apply K; simpl; auto. }
  pose proof (@numeric_assign _ "player_hp" _ N (ex_intro _ _ V1)) as N1.
  destruct (clamp_numeric (assign "player_hp" c1 st) "enemy_hp" 2000) as [c2 [C2 V2]].
  { apply K; simpl; auto. }
  pose proof (@numeric_assign _ "enemy_hp" _ N1 (ex_intro _ _ V2)) as N2.
  destruct (clamp_numeric (assign "enemy_hp" c2 (assign "player_hp" c1 st))
                          "player_conc" 100) as [c3 [C3 V3]].
  { apply K; simpl; auto. }
  pose proof (@numeric_assign _ "player_conc" _ N2 (ex_intro _ _ V3)) as N3.
  destruct (clamp_numeric (assign "player_conc" c3
                             (assign "enemy_hp" c2 (assign "player_hp" c1 st)))
                          "enemy_conc" 100) as [c4 [C4 V4]].
  { apply K; simpl; auto. }
  exists c1, c2, c3, c4.
  split.
  - unfold validate_status, write_player, write_enemy, bind, lift, ret, read, modify.
    simpl. rewrite S. simpl. rewrite C1. simpl. rewrite C2. simpl.
    rewrite C3. simpl. rewrite C4. simpl.
    rewrite !lookup_assign_same.
    rewrite (lookup_assign_other (k:="player_conc") (k':="enemy_conc")) by discriminate.
    rewrite (lookup_assign_other (k:="enemy_hp") (k':="enemy_conc")) by discriminate.
    rewrite (lookup_assign_other (k:="player_hp") (k':="enemy_conc")) by discriminate.
    rewrite !lookup_assign_same.
    rewrite (lookup_assign_other (k:="enemy_hp") (k':="player_conc")) by discriminate.
    rewrite (lookup_assign_other (k:="player_hp") (k':="player_conc")) by discriminate.
    rewrite !lookup_assign_same.
    rewrite (lookup_assign_other (k:="player_hp") (k':="enemy_hp")) by discriminate.
    rewrite !lookup_assign_same.
    rewrite P. simpl. rewrite E. simpl. reflexivity.
  - unfold field0 in *.
    rewrite (lookup_assign_other (k:="enemy_hp") (k':="player_hp")) in V2 by discriminate.
    rewrite (lookup_assign_other (k:="player_conc") (k':="enemy_hp")) in V3 by discriminate.
    rewrite (lookup_assign_other (k:="player_conc") (k':="player_hp")) in V3 by discriminate.
    rewrite (lookup_assign_other (k:="enemy_conc") (k':="player_conc")) in V4 by discriminate.
    rewrite (lookup_assign_other (k:="enemy_conc") (k':="enemy_hp")) in V4 by discriminate.
    rewrite (lookup_assign_other (k:="enemy_conc") (k':="player_hp")) in V4 by discriminate.
    auto.
Qed.

Section Rounds.

Variable json_loads : string -> option json.
Variable json_dumps : json -> string.
Variable py_repr : json -> string.
Variable api : nat -> string -> Q -> option string.

Local Abbreviation play := (play_round json_loads json_dumps py_repr api).
Local Abbreviation fetch := (fetch_round json_loads json_dumps py_repr api).

Lemma fetch_round_frame a e r e0 :
  fetch a e = (r, e0) -> frame (next_round e) e0.
Proof.
  unfold fetch_round, bind, modify, read, lift. fold (next_round e).
  intros H.
  destruct (round_prompt py_repr (game_data (next_round e)) a) as [p|x] eqn:P.
  - destruct (call_ai json_dumps py_repr api p t07 (next_round e))
      as [[text|x] e1] eqn:A.
    + apply call_ai_frame in A. apply extract_json_frame in H.
      eapply frame_trans; eauto.
    + inversion H; subst. eapply call_ai_frame; eauto.
  - inversion H; subst. apply frame_refl.
Qed.

Lemma record_round_cases rd a now e :
  match record_round json_dumps py_repr api rd a now e with
  | (Raise _, e') => e' = e
  | (Ok r, e') => r = rd /\ logged rd a now e e'
  end.
Proof.
  unfold record_round, bind.
  pose proof (log_round_cases rd a now e) as L.
  destruct (log_round rd a now e) as [[u|x] e1]; [|exact L].
  destruct (update_summary_total json_dumps py_repr api e1) as (e2 & U & F).
  rewrite U. unfold ret. split; [reflexivity|].
  destruct L as (ps & es & G1 & G2 & H & S & L).
  destruct F. unfold logged.
  split; [exists ps, es; split; [exact G1|]; split; [exact G2|]; congruence|].
  split; [eapply grown_trans; eauto|].
  intuition congruence.
Qed.

(** What a round has done to the engine, by its outcome. *)
Lemma play_round_accounts a now e :
  match play a now e with
  | (Ok rd, e2) =>
      round (game_data e2) = round (game_data e) + 1
      /\ (exists ps es,
            get rd "player_skill_used" (JStr "") = Ok ps
            /\ get rd "enemy_skill_used" (JStr "") = Ok es
            /\ history (game_data e2)
               = (history (game_data e)
                  ++ [round_entry (round (game_data e) + 1) a ps es rd now])%list)
      /\ grown (enemy_skills_used (game_data e))
               (enemy_skills_used (game_data e2))
      /\ battle_reason (game_data e2) = battle_reason (game_data e)
      /\ mode (game_data e2) = mode (game_data e)
      /\ use_mock e2 = use_mock e /\ ai_enabled e2 = ai_enabled e
      /\ client e2 = client e
  | (Raise _, e2) => frame (next_round e) e2
  end.
Proof.
  unfold play_round, bind.
  destruct (fetch a e) as [[rd|x] e1] eqn:F;
    [|eapply fetch_round_frame; eauto].
  destruct (fetch_round_inv _ _ _ _ _ _ F) as (Fr & po & eo & P & E).
  pose proof Fr as [[] _]. simpl in *.
  assert (P1 : player (game_data e1) = JObj po) by congruence.
  assert (E1 : enemy (game_data e1) = JObj eo) by congruence.
  unfold settle_round, bind.
  assert (Done : forall rd' e1',
             game_data e1' = set_enemy (enemy (game_data e1'))
                               (set_player (player (game_data e1')) (game_data e1)) ->
             use_mock e1' = use_mock e1 -> ai_enabled e1' = ai_enabled e1 ->
             client e1' = client e1 ->
             match record_round json_dumps py_repr api rd' a now e1' with
             | (Ok rd0, e2) =>
                 round (game_data e2) = round (game_data e) + 1
                 /\ (exists ps es,
                       get rd0 "player_skill_used" (JStr "") = Ok ps
                       /\ get rd0 "enemy_skill_used" (JStr "") = Ok es
                       /\ history (game_data e2)
                          = (history (game_data e)
                             ++ [round_entry (round (game_data e) + 1) a ps es
                                             rd0 now])%list)
                 /\ grown (enemy_skills_used (game_data e))
                          (enemy_skills_used (game_data e2))
                 /\ battle_reason (game_data e2) = battle_reason (game_data e)
                 /\ mode (game_data e2) = mode (game_data e)
                 /\ use_mock e2 = use_mock e /\ ai_enabled e2 = ai_enabled e
                 /\ client e2 = client e
             | (Raise _, e2) => e2 = e1'
             end).
  { intros rd' e1' G U1 U2 U3.
    assert (G1 : round (game_data e1') = round (game_data e1)) by now rewrite G.
    assert (G2 : history (game_data e1') = history (game_data e1)) by now rewrite G.
    assert (G3 : enemy_skills_used (game_data e1')
                 = enemy_skills_used (game_data e1)) by now rewrite G.
    assert (G4 : battle_reason (game_data e1') = battle_reason (game_data e1))
      by now rewrite G.
    assert (G5 : mode (game_data e1') = mode (game_data e1)) by now rewrite G.
    pose proof (record_round_cases rd' a now e1') as R.
    destruct (record_round json_dumps py_repr api rd' a now e1') as [[r|x] e2];
      [|exact R].
    destruct R as (-> & (ps & es & K1 & K2 & H) & S & L).
    split; [intuition congruence|].
    split; [exists ps, es; split; [exact K1|]; split; [exact K2|];
            rewrite H; congruence|].
    split; [eapply grown_trans; [|exact S]; rewrite G3; assumption|].
    intuition congruence. }
  destruct (validate_status_cases rd e1 P1 E1)
    as [[x V]|[[I V]|(o & st & -> & S & N)]].
  - rewrite V. exact Fr.
  - rewrite V.
    assert (G : game_data e1 = set_enemy (enemy (game_data e1))
                                 (set_player (player (game_data e1)) (game_data e1)))
      by now destruct (game_data e1).
    specialize (Done rd e1 G eq_refl eq_refl eq_refl).
    destruct (record_round _ _ _ rd a now e1) as [[r|x] e2]; [exact Done|].
    subst e2. exact Fr.
  - destruct (validate_with_status_detail o e1 S N P1 E1)
      as (php & ehp & pc & ec & V & _).
    rewrite V.
    match goal with
    | |- context [record_round _ _ _ (JObj ?r) a now ?x] =>
        specialize (Done (JObj r) x eq_refl eq_refl eq_refl eq_refl);
        destruct (record_round_obj json_dumps py_repr api r a now x)
          as (e2 & R & _);
        rewrite R in *
    end.
    exact Done.
Qed.

(** X1.  Whatever [play_round] does, it moves the round counter by one.
    When it returns, the history is one entry longer and its last entry
    holds the new round number, the action, the two skills of the record
    and the record that is returned; the used skills have at most grown, and
    the mode, the reason of the battle and the attributes of the engine are
    as before.  When it raises, nothing but the round counter and the used
    skills has changed: combatants, phase, history and summary are those of
    before the call. *)
Theorem play_round_bookkeeping a now e :
  round (game_data (snd (play a now e))) = round (game_data e) + 1
  /\ (forall rd e2,
        play a now e = (Ok rd, e2) ->
        (exists ps es,
           get rd "player_skill_used" (JStr "") = Ok ps
           /\ get rd "enemy_skill_used" (JStr "") = Ok es
           /\ len (history (game_data e2)) = len (history (game_data e)) + 1
           /\ last (history (game_data e2)) JNull
              = round_entry (round (game_data e) + 1) a ps es rd now)
        /\ grown (enemy_skills_used (game_data e))
                 (enemy_skills_used (game_data e2))
        /\ battle_reason (game_data e2) = battle_reason (game_data e)
        /\ mode (game_data e2) = mode (game_data e)
        /\ use_mock e2 = use_mock e /\ ai_enabled e2 = ai_enabled e
        /\ client e2 = client e)
  /\ (forall x e2,
        play a now e = (Raise x, e2) -> frame (next_round e) e2).
Proof.
  pose proof (play_round_accounts a now e) as B.
  destruct (play a now e) as [[rd|x] e2] eqn:R; simpl.
  - destruct B as (B1 & (ps & es & G1 & G2 & H) & B3). split; [exact B1|]. split.
    + intros rd' e2' Q. inversion Q; subst.
      split; [|exact B3].
      exists ps, es. split; [exact G1|]. split; [exact G2|].
      rewrite H. unfold len. rewrite length_app, last_last. simpl. split; [lia|].
      reflexivity.
    + intros x e2' Q. discriminate.
  - split; [|split].
    + pose proof (fr_round (proj1 B)) as Rd. simpl in Rd. exact Rd.
    + intros rd e2' Q. discriminate.
    + intros x' e2' Q. inversion Q; subst. exact B.
Qed.

(** X2.  When [play_round] returns a record that has a status, that
    status is a dict holding what the engine now holds: the hp and conc of
    the two combatants in the state are the four values of the returned
    status, and they are within [0, 2000] and [0, 100], whatever the backend
    sent. *)
Theorem play_round_reports_state a now e rd e2 :
  play a now e = (Ok rd, e2) ->
  py_in "status" rd = Ok true ->
  exists st,
    getitem rd "status" = Ok (JObj st)
    /\ getitem (player (game_data e2)) "hp" = getitem (JObj st) "player_hp"
    /\ getitem (enemy (game_data e2)) "hp" = getitem (JObj st) "enemy_hp"
    /\ getitem (player (game_data e2)) "conc" = getitem (JObj st) "player_conc"
    /\ getitem (enemy (game_data e2)) "conc" = getitem (JObj st) "enemy_conc"
    /\ clamped (player (game_data e2)) /\ clamped (enemy (game_data e2)).
Proof.
  unfold play_round, bind. intros H I.
  destruct (fetch a e) as [[rd0|x] e1] eqn:F; [|discriminate].
  destruct (fetch_round_inv _ _ _ _ _ _ F) as (Fr & po & eo & P & E).
  pose proof Fr as [[] _]. simpl in *.
  assert (P1 : player (game_data e1) = JObj po) by congruence.
  assert (E1 : enemy (game_data e1) = JObj eo) by congruence.
  unfold settle_round, bind in H.
  destruct (validate_status_cases rd0 e1 P1 E1)
    as [[x V]|[[I0 V]|(o & st & -> & S & N)]].
  - rewrite V in H. discriminate.
  - rewrite V in H.
    pose proof (record_round_cases rd0 a now e1) as R.
    rewrite H in R. destruct R as [-> _]. congruence.
  - destruct (validate_with_status_detail o e1 S N P1 E1)
      as (php & ehp & pc & ec & V & A1 & A2 & A3 & A4).
    rewrite V in H.
    match type of H with
    | context [record_round _ _ _ (JObj ?r) a now ?x] =>
        destruct (record_round_obj json_dumps py_repr api r a now x)
          as (e3 & R & Pl & En & _)
    end.
    rewrite R in H. inversion H; subst rd e3. clear H.
    simpl in Pl, En.
    eexists. split; [simpl; rewrite lookup_assign_same; reflexivity|].
    rewrite Pl, En. simpl.
    rewrite !lookup_assign_same.
    rewrite !(lookup_assign_other (k:="hp") (k':="conc")) by discriminate.
    rewrite !lookup_assign_same.
    rewrite (lookup_assign_other (k:="player_conc") (k':="enemy_conc")) by discriminate.
    rewrite (lookup_assign_other (k:="enemy_hp") (k':="enemy_conc")) by discriminate.
    rewrite (lookup_assign_other (k:="player_hp") (k':="enemy_conc")) by discriminate.
    rewrite (lookup_assign_other (k:="enemy_hp") (k':="player_conc")) by discriminate.
    rewrite (lookup_assign_other (k:="player_hp") (k':="player_conc")) by discriminate.
    rewrite (lookup_assign_other (k:="player_hp") (k':="enemy_hp")) by discriminate.
    rewrite !lookup_assign_same.
    split; [reflexivity|]. split; [reflexivity|].
    split; [reflexivity|]. split; [reflexivity|].
    unfold clamped.
    split; eexists; eexists;
      (split; [rewrite int_of_assign_other by discriminate;
               rewrite int_of_assign_same; eassumption|]);
      (split; [rewrite int_of_assign_same; eassumption|]);
      unfold clampz; lia.
Qed.

(** X3.  A record whose status is a dict with a field that is not a number
    (a text, a list, null) makes [play_round] raise [TypeError]; a status that
    is not a dict makes it raise [AttributeError].  Either way the round is
    lost after the backend was asked: the engine is as the call of the
    backend left it, with the round counter moved and no history entry. *)
Theorem play_round_rejects_bad_status a now e o s e1 :
  fetch a e = (Ok (JObj o), e1) ->
  lookup "status" o = Some s ->
  frame (next_round e) e1
  /\ (forall st k v,
        s = JObj st ->
        In k ["player_hp"; "enemy_hp"; "player_conc"; "enemy_conc"] ->
        lookup k st = Some v -> as_int v = None ->
        play a now e = (Raise TypeError, e1))
  /\ ((forall st, s <> JObj st) ->
      play a now e = (Raise AttributeError, e1)).
Proof.
  intros F S. split; [eapply fetch_round_frame; eauto|]. split.
  - intros st k v -> I L A.
    unfold play_round, bind. rewrite F. unfold settle_round, bind.
    now rewrite (validate_status_type_error o e1 S I L A).
  - intros N. unfold play_round, bind. rewrite F.
    unfold settle_round, validate_status, bind, lift. simpl. rewrite S. simpl.
    destruct s; try reflexivity. now destruct (N o0).
Qed.

(** The combatants after a round, whatever the round did: as they were,
    or with a new hp and a new conc, both numbers. *)
Lemma play_round_combatants a now e :
  (player (game_data (snd (play a now e))) = player (game_data e)
   /\ enemy (game_data (snd (play a now e))) = enemy (game_data e))
  \/ exists po eo php ehp pc ec,
       player (game_data e) = JObj po /\ enemy (game_data e) = JObj eo
       /\ player (game_data (snd (play a now e)))
          = JObj (assign "conc" pc (assign "hp" php po))
       /\ enemy (game_data (snd (play a now e)))
          = JObj (assign "conc" ec (assign "hp" ehp eo))
       /\ (exists n, as_int php = Some n) /\ (exists n, as_int ehp = Some n).
Proof.
  pose proof (play_round_accounts a now e) as B.
  destruct (play a now e) as [[rd|x] e2] eqn:R; simpl.
  - clear B. revert R. unfold play_round, bind.
    destruct (fetch a e) as [[rd0|x] e1] eqn:F; [|discriminate].
    destruct (fetch_round_inv _ _ _ _ _ _ F) as (Fr & po & eo & P & E).
    destruct (frame_player Fr) as [FP FE]. simpl in FP, FE.
    assert (P1 : player (game_data e1) = JObj po) by congruence.
    assert (E1 : enemy (game_data e1) = JObj eo) by congruence.
    unfold settle_round, bind.
    destruct (validate_status_cases rd0 e1 P1 E1)
      as [[x V]|[[I0 V]|(o & st & -> & S & N)]].
    + rewrite V. discriminate.
    + rewrite V. intros H. left.
      pose proof (record_round_cases rd0 a now e1) as C.
      rewrite H in C. destruct C as (_ & _ & _ & _ & _ & _ & Pl & En & _).
      rewrite Pl, En, FP, FE. auto.
    + destruct (validate_with_status_detail o e1 S N P1 E1)
        as (php & ehp & pc & ec & V & A1 & A2 & A3 & A4).
      rewrite V.
      match goal with
      | |- context [record_round _ _ _ (JObj ?r) a now ?x] =>
          destruct (record_round_obj json_dumps py_repr api r a now x)
            as (e3 & C & Pl & En & _)
      end.
      rewrite C. intros H. inversion H; subst rd e3. clear H.
      right. exists po, eo, php, ehp, pc, ec.
      rewrite Pl, En. simpl. eauto 10.
  - left. destruct (frame_player B) as [FP FE]. simpl in FP, FE. auto.
Qed.

(** The hp of a combatant stays a number through a round, whatever the
    round does. *)
Lemma play_round_hp_numbers a now e :
  (exists n, int_of (player (game_data e)) "hp" = Some n) ->
  (exists n, int_of (enemy (game_data e)) "hp" = Some n) ->
  (exists n, int_of (player (game_data (snd (play a now e)))) "hp" = Some n)
  /\ (exists n, int_of (enemy (game_data (snd (play a now e)))) "hp" = Some n).
Proof.
  intros Hp He.
  destruct (play_round_combatants a now e)
    as [[-> ->]|(po & eo & php & ehp & pc & ec & _ & _ & -> & -> & [n1 A1] & [n2 A2])];
    [auto|].
  split; eexists;
    rewrite int_of_assign_other by discriminate;
    rewrite int_of_assign_same; eassumption.
Qed.

(** X22.  A round writes nothing to a combatant but its hp and its conc:
    whatever [play_round] does, every other key of the player and of the
    enemy (the name, the max_hp, the skills) holds what it held, and no key
    is ever removed. *)
Theorem play_round_writes_hp_and_conc_only a now e :
  (forall k,
     k <> "hp" -> k <> "conc" ->
     getitem (player (game_data (snd (play a now e)))) k
     = getitem (player (game_data e)) k
     /\ getitem (enemy (game_data (snd (play a now e)))) k
        = getitem (enemy (game_data e)) k)
  /\ (forall k,
        (has_key (player (game_data e)) k ->
         has_key (player (game_data (snd (play a now e)))) k)
        /\ (has_key (enemy (game_data e)) k ->
            has_key (enemy (game_data (snd (play a now e)))) k)).
Proof.
  destruct (play_round_combatants a now e)
    as [[-> ->]|(po & eo & php & ehp & pc & ec & P & E & -> & -> & _)].
  - split; intros k; auto.
  - rewrite P, E. split.
    + intros k N1 N2. simpl. now rewrite !lookup_assign_other by auto.
    + intros k. unfold has_key. simpl.
      destruct (string_dec k "conc") as [->|N2];
        [rewrite !lookup_assign_same; split; eauto|].
      rewrite !(lookup_assign_other (k:=k) (k':="conc")) by auto.
      destruct (string_dec k "hp") as [->|N1];
        [rewrite !lookup_assign_same; split; eauto|].
      rewrite !(lookup_assign_other (k:=k) (k':="hp")) by auto.
      split; auto.
Qed.

(** A name and an hp that is a number stay through a round. *)
Lemma play_round_keeps_name a now e k :
  has_key (player (game_data e)) k ->
  has_key (player (game_data (snd (play a now e)))) k.
Proof.
  destruct (play_round_combatants a now e)
    as [[-> _]|(po & eo & php & ehp & pc & ec & P & E & -> & _)]; [auto|].
  rewrite P. unfold has_key. simpl.
  destruct (string_dec k "conc") as [->|N2];
    [rewrite !lookup_assign_same; eauto|].
  rewrite !(lookup_assign_other (k:=k) (k':="conc")) by auto.
  destruct (string_dec k "hp") as [->|N1];
    [rewrite !lookup_assign_same; eauto|].
  now rewrite !(lookup_assign_other (k:=k) (k':="hp")) by auto.
Qed.

End Rounds.

(** ** The initialisation *)

Section Seeds.

Variable json_loads : string -> option json.
Variable json_dumps : json -> string.
Variable py_repr : json -> string.
Variable api : nat -> string -> Q -> option string.

Local Abbreviation init := (initialize_game json_loads json_dumps py_repr api).
Local Abbreviation seed := (fetch_seed json_loads json_dumps py_repr api).

Lemma fetch_seed_frame pn en e r e1 : seed pn en e = (r, e1) -> frame e e1.
Proof.
  unfold fetch_seed, bind. intros H.
  destruct (call_ai json_dumps py_repr api (init_prompt pn en) t08 e)
    as [[response|x] e0] eqn:A.
  - apply call_ai_frame in A. apply extract_json_frame in H.
    eapply frame_trans; eauto.
  - inversion H; subst. eapply call_ai_frame; eauto.
Qed.

(** [initialize_game] is [fetch_seed] followed by the rest. *)
Lemma initialize_game_split pn en now e :
  init pn en now e
  = match seed pn en e with
    | (Ok data, e1) =>
        (has_player <- lift (py_in "player" data) ;;
         has_both <- (if has_player then lift (py_in "enemy" data) else ret false) ;;
         if has_both then
           p <- lift (getitem data "player") ;;
           en <- lift (getitem data "enemy") ;;
           reason <- lift (get data "reason" (JStr "未知原因")) ;;
           modify (seed_game p en reason) ;;;
           p_has_hp <- lift (py_in "hp" p) ;;
           p' <- (if p_has_hp then ret p
                  else p1 <- lift (fill_defaults 1000 p) ;;
                       modify (set_player p1) ;;; ret p1) ;;
           en_has_hp <- lift (py_in "hp" en) ;;
           en' <- (if en_has_hp then ret en
                   else en1 <- lift (fill_defaults 1200 en) ;;
                        modify (set_enemy en1) ;;; ret en1) ;;
           data1 <- lift (setitem data "player" p') ;;
           data2 <- lift (setitem data1 "enemy" en') ;;
           opening <- lift (get data2 "opening" (JStr "战斗开始！")) ;;
           modify (push_history (init_entry data2 opening now)) ;;;
           ret data2
         else
           t <- _call_ai_mock json_dumps py_repr "初始化" t07 ;;
           default_data <- loads_or_raise json_loads t ;;
           p <- lift (getitem default_data "player") ;;
           en <- lift (getitem default_data "enemy") ;;
           reason <- lift (get default_data "reason" (JStr "未知原因")) ;;
           modify (seed_game p en reason) ;;;
           opening <- lift (get default_data "opening" (JStr "战斗开始！")) ;;
           modify (push_history (init_entry default_data opening now)) ;;;
           ret default_data)%eng e1
    | (Raise x, e1) => (Raise x, e1)
    end.
Proof.
  unfold initialize_game, fetch_seed, bind.
  destruct (call_ai json_dumps py_repr api (init_prompt pn en) t08 e)
    as [[response|x] e0]; [|reflexivity].
  destruct (extract_json json_loads json_dumps py_repr response e0)
    as [[d|x] e1]; reflexivity.
Qed.

(** What a completed initialisation has done to the state [e1] it
    started from. *)
Lemma initialize_game_rest pn en now e data e1 r e' :
  seed pn en e = (Ok data, e1) ->
  init pn en now e = (r, e') ->
  match r with
  | Ok d =>
      round (game_data e') = 0
      /\ phase (game_data e') = JStr "battle"
      /\ enemy_skills_used (game_data e') = []
      /\ (exists opening,
            get d "opening" (JStr "战斗开始！") = Ok opening
            /\ history (game_data e')
               = (history (game_data e1) ++ [init_entry d opening now])%list)
      /\ get d "reason" (JStr "未知原因") = Ok (battle_reason (game_data e'))
      /\ current_summary (game_data e') = current_summary (game_data e1)
      /\ mode (game_data e') = mode (game_data e1)
      /\ use_mock e' = use_mock e1 /\ ai_enabled e' = ai_enabled e1
      /\ client e' = client e1
  | Raise _ =>
      history (game_data e') = history (game_data e1)
      /\ current_summary (game_data e') = current_summary (game_data e1)
      /\ mode (game_data e') = mode (game_data e1)
      /\ use_mock e' = use_mock e1 /\ ai_enabled e' = ai_enabled e1
      /\ client e' = client e1
  end.
Proof.
  intros S. rewrite initialize_game_split, S.
  unfold bind, lift, ret, modify, loads_or_raise.
  assert (D : forall r0 e0,
             (let (r1, e2) := _call_ai_mock json_dumps py_repr "初始化" t07 e1 in
              match r1 with
              | Ok t =>
                  let (r2, e3) :=
                    match json_loads t with
                    | Some v => fun e => (Ok v, e)
                    | None => fun e => (Raise JSONDecodeError, e)
                    end e2 in
                  match r2 with
                  | Ok dd =>
                      match getitem dd "player" with
                      | Ok p =>
                          match getitem dd "enemy" with
                          | Ok q =>
                              match get dd "reason" (JStr "未知原因") with
                              | Ok reason =>
                                  match get dd "opening" (JStr "战斗开始！") with
                                  | Ok opening =>
                                      (Ok dd,
                                       set_game
                                         (push_history (init_entry dd opening now)
                                            (game_data
                                               (set_game
                                                  (seed_game p q reason (game_data e3))
                                                  e3)))
                                         (set_game (seed_game p q reason (game_data e3))
                                                   e3))
                                  | Raise x =>
                                      (Raise x,
                                       set_game (seed_game p q reason (game_data e3)) e3)
                                  end
                              | Raise x => (Raise x, e3)
                              end
                          | Raise x => (Raise x, e3)
                          end
                      | Raise x => (Raise x, e3)
                      end
                  | Raise x => (Raise x, e3)
                  end
              | Raise x => (Raise x, e2)
              end) = (r0, e0) ->
             match r0 with
             | Ok d =>
                 round (game_data e0) = 0
                 /\ phase (game_data e0) = JStr "battle"
                 /\ enemy_skills_used (game_data e0) = []
                 /\ (exists opening,
                       get d "opening" (JStr "战斗开始！") = Ok opening
                       /\ history (game_data e0)
                          = (history (game_data e1) ++ [init_entry d opening now])%list)
                 /\ get d "reason" (JStr "未知原因") = Ok (battle_reason (game_data e0))
                 /\ current_summary (game_data e0) = current_summary (game_data e1)
                 /\ mode (game_data e0) = mode (game_data e1)
                 /\ use_mock e0 = use_mock e1 /\ ai_enabled e0 = ai_enabled e1
                 /\ client e0 = client e1
             | Raise _ =>
                 history (game_data e0) = history (game_data e1)
                 /\ current_summary (game_data e0) = current_summary (game_data e1)
                 /\ mode (game_data e0) = mode (game_data e1)
                 /\ use_mock e0 = use_mock e1 /\ ai_enabled e0 = ai_enabled e1
                 /\ client e0 = client e1
             end).
  { intros r0 e0.
    rewrite (mock_marked json_dumps py_repr "初始化" t07 e1) by reflexivity.
    destruct (json_loads (json_dumps seed_record)) as [dd|];
      [|intros H; inversion H; subst; auto 10].
    destruct (getitem dd "player") as [p|x] eqn:P;
      [|intros H; inversion H; subst; auto 10].
    destruct (getitem dd "enemy") as [q|x] eqn:Q;
      [|intros H; inversion H; subst; auto 10].
    destruct dd as [| | | | |o]; try discriminate. simpl.
    intros H; inversion H; subst; simpl.
    split; [reflexivity|]. split; [reflexivity|]. split; [reflexivity|].
    split; [eexists; split; reflexivity|]. auto 10. }
  destruct (py_in "player" data) as [[|]|x] eqn:A;
    [| apply D | intros H; inversion H; subst; auto 10].
  destruct (py_in "enemy" data) as [[|]|x] eqn:B;
    [| apply D | intros H; inversion H; subst; auto 10].
  destruct data as [| | | | |o]; try discriminate;
    try (simpl; intros H; inversion H; subst; auto 10; fail).
  simpl in A, B. simpl.
  destruct (lookup "player" o) as [p|] eqn:P; try discriminate.
  destruct (lookup "enemy" o) as [q|] eqn:Q; try discriminate.
  simpl.
  destruct (py_in "hp" p) as [[|]|x];
    [|destruct (fill_defaults 1000 p) as [p1|x]|]; simpl;
    try (intros H; inversion H; subst; simpl; auto 10; fail);
    (destruct (py_in "hp" q) as [[|]|x];
     [|destruct (fill_defaults 1200 q) as [q1|x]|]); simpl;
    try (intros H; inversion H; subst; simpl; auto 10; fail);
    intros H; inversion H; subst; simpl;
    (split; [reflexivity|]); (split; [reflexivity|]); (split; [reflexivity|]);
    (split; [eexists; split; reflexivity|]);
    rewrite ?(lookup_assign_other (k:="reason") (k':="enemy")) by discriminate;
    rewrite ?(lookup_assign_other (k:="reason") (k':="player")) by discriminate;
    auto 10.
Qed.

(** X4.  A completed [initialize_game] has put the round counter at 0,
    the phase at ["battle"] and the used skills at the empty list, has taken
    the reason of the battle from the record it returns (["未知原因"] when
    the record has none) and has appended one entry to the history, made of
    that record and its opening.  It does not start a new history or a new
    summary: the entries and the summary of before the call are kept.  A
    call that raises leaves history and summary as they were too. *)
Theorem initialize_game_effects pn en now e :
  match init pn en now e with
  | (Ok d, e') =>
      round (game_data e') = 0
      /\ phase (game_data e') = JStr "battle"
      /\ enemy_skills_used (game_data e') = []
      /\ (exists opening,
            get d "opening" (JStr "战斗开始！") = Ok opening
            /\ history (game_data e')
               = (history (game_data e) ++ [init_entry d opening now])%list)
      /\ get d "reason" (JStr "未知原因") = Ok (battle_reason (game_data e'))
      /\ current_summary (game_data e') = current_summary (game_data e)
      /\ mode (game_data e') = mode (game_data e)
      /\ use_mock e' = use_mock e /\ ai_enabled e' = ai_enabled e
      /\ client e' = client e
  | (Raise _, e') =>
      history (game_data e') = history (game_data e)
      /\ current_summary (game_data e') = current_summary (game_data e)
      /\ mode (game_data e') = mode (game_data e)
      /\ use_mock e' = use_mock e /\ ai_enabled e' = ai_enabled e
      /\ client e' = client e
  end.
Proof.
  destruct (seed pn en e) as [[data|x] e1] eqn:S.
  - pose proof (fetch_seed_frame _ _ _ S) as [[] Sm]. simpl in *.
    destruct (init pn en now e) as [r e'] eqn:I.
    pose proof (initialize_game_rest _ _ _ _ S I) as R.
    destruct r as [d|x].
    + destruct R as (R1 & R2 & R3 & (op & R4 & R5) & R6 & R7 & R8 & R9 & R10 & R11).
      split; [exact R1|]. split; [exact R2|]. split; [exact R3|].
      split; [exists op; split; [exact R4 | congruence]|].
      split; [exact R6|]. intuition congruence.
    + intuition congruence.
  - rewrite initialize_game_split, S.
    pose proof (fetch_seed_frame _ _ _ S) as [[] Sm]. simpl in *.
    intuition congruence.
Qed.

(** X5.  When the repaired record of the backend is a dict that lacks the
    player or the enemy, nothing of it is used: with a reader that reads the
    seed of the offline generator back, [initialize_game] returns that seed
    and stores its two combatants, its reason and its opening. *)
Theorem initialize_game_falls_back pn en now e o e1 :
  seed pn en e = (Ok (JObj o), e1) ->
  lookup "player" o = None \/ lookup "enemy" o = None ->
  json_loads (json_dumps seed_record) = Some seed_record ->
  exists e',
    init pn en now e = (Ok seed_record, e')
    /\ getitem seed_record "player" = Ok (player (game_data e'))
    /\ getitem seed_record "enemy" = Ok (enemy (game_data e'))
    /\ getitem seed_record "reason" = Ok (battle_reason (game_data e'))
    /\ exists opening,
         getitem seed_record "opening" = Ok opening
         /\ history (game_data e')
            = (history (game_data e) ++ [init_entry seed_record opening now])%list.
Proof.
  intros S L J.
  pose proof (fetch_seed_frame _ _ _ S) as [[] _]. simpl in *.
  rewrite initialize_game_split, S.
  unfold bind, lift, ret, modify, loads_or_raise. simpl.
  assert (B : (if match lookup "player" o with Some _ => true | None => false end
               then match lookup "enemy" o with Some _ => true | None => false end
               else false) = false).
  { destruct L as [-> | ->]; [reflexivity|]. now destruct (lookup "player" o). }
  destruct (lookup "player" o); simpl in *;
    [destruct (lookup "enemy" o); simpl in *; try discriminate|];
    try rewrite (mock_marked json_dumps py_repr "初始化" t07 e1) by reflexivity;
    unfold ret; rewrite J; simpl;
    (eexists; split; [reflexivity|]); simpl;
    (split; [reflexivity|]); (split; [reflexivity|]); (split; [reflexivity|]);
    (eexists; split; [reflexivity|]); congruence.
Qed.

(** X6.  When the repaired record is a dict whose player and enemy are
    dicts, [initialize_game] does not raise.  A combatant that comes with an
    hp is stored as it is, whatever else it lacks; one without an hp gets hp
    and max_hp 1000 (the player) or 1200 (the enemy) and conc 100, in the
    place of any max_hp or conc it came with, and keeps its other keys. *)
Theorem initialize_game_fills_defaults pn en now e o p q e1 :
  seed pn en e = (Ok (JObj o), e1) ->
  lookup "player" o = Some (JObj p) ->
  lookup "enemy" o = Some (JObj q) ->
  exists d e',
    init pn en now e = (Ok d, e')
    /\ player (game_data e')
       = match lookup "hp" p with
         | Some _ => JObj p
         | None => with_defaults 1000 p
         end
    /\ enemy (game_data e')
       = match lookup "hp" q with
         | Some _ => JObj q
         | None => with_defaults 1200 q
         end
    /\ (forall hp c k,
          int_of (with_defaults hp c) "hp" = Some hp
          /\ int_of (with_defaults hp c) "max_hp" = Some hp
          /\ int_of (with_defaults hp c) "conc" = Some 100
          /\ (~ In k ["hp"; "max_hp"; "conc"] ->
              getitem (with_defaults hp c) k = getitem (JObj c) k)).
Proof.
  intros S P Q.
  rewrite initialize_game_split, S.
  unfold bind, lift, ret, modify. simpl. rewrite P, Q. simpl.
  unfold with_defaults.
  destruct (lookup "hp" p), (lookup "hp" q); simpl;
    (do 2 eexists; split; [reflexivity|]); simpl;
    (split; [reflexivity|]); (split; [reflexivity|]);
    intros hp c k;
    (split; [rewrite !int_of_assign_other by discriminate;
             now rewrite int_of_assign_same|]);
    (split; [rewrite int_of_assign_other by discriminate;
             now rewrite int_of_assign_same|]);
    (split; [now rewrite int_of_assign_same|]);
    intros N; simpl;
    rewrite !lookup_assign_other; auto;
    intros ->; apply N; simpl; auto.
Qed.

End Seeds.

(** ** The repairer, the retry loop and the used skills *)

Lemma after_attempts_none e : after_attempts 0 [] e = e.
Proof.
  destruct e. unfold after_attempts. simpl. now rewrite Nat.add_0_r, app_nil_r.
Qed.

Lemma existsb_rev {A} (f : A -> bool) (l : list A) :
  existsb f (rev l) = existsb f l.
Proof.
  induction l as [|a l IH]; simpl; [reflexivity|].
  rewrite existsb_app, IH. simpl. rewrite orb_false_r. apply orb_comm.
Qed.

Lemma distinct_snoc l v : distinct (l ++ [v]) = negb (py_mem v l) && distinct l.
Proof.
  unfold distinct. rewrite rev_unit. f_equal. f_equal.
  unfold py_mem. rewrite existsb_rev. reflexivity.
Qed.

Section Calls.

Variable json_loads : string -> option json.
Variable json_dumps : json -> string.
Variable py_repr : json -> string.
Variable api : nat -> string -> Q -> option string.

Local Abbreviation mock := (_call_ai_mock json_dumps py_repr).
Local Abbreviation ask := (call_ai json_dumps py_repr api).
Local Abbreviation repair := (extract_json json_loads json_dumps py_repr).


Lemma retry_suffix p t n j :
  forall i e,
    (i + j = n)%nat ->
    retry json_dumps py_repr api p t (Z.of_nat n) (map Z.of_nat (seq i j)) e
    = match first_answer api (api_calls e) p t j with
      | Some (k, content) =>
          (Ok content,
           after_attempts (S k) (map (fun a => 2 ^ Z.of_nat a) (seq i k)) e)
      | None =>
          mock p t (after_attempts j (map (fun a => 2 ^ Z.of_nat a)
                                          (seq i (j - 1))) e)
      end.
Proof.
  induction j as [|j IH]; intros i e E; simpl.
  - now rewrite after_attempts_none.
  - destruct (api (api_calls e) p t) as [content|] eqn:A.
    + f_equal. unfold count_call, after_attempts. simpl.
      now rewrite Nat.add_1_r, app_nil_r.
    + destruct (Z.of_nat i <? Z.of_nat n - 1) eqn:L.
      * rewrite IH by lia. simpl.
        assert (J : exists j', j = S j') by (destruct j; [lia | eauto]).
        destruct J as [j' ->].
        destruct (first_answer api (S (api_calls e)) p t (S j')) as [[k c]|].
        -- f_equal. unfold after_attempts, sleep, count_call. simpl.
           f_equal; [lia | now rewrite <- app_assoc].
        -- f_equal. unfold after_attempts, sleep, count_call. simpl.
           rewrite Nat.sub_0_r.
           f_equal; [lia | now rewrite <- app_assoc].
      * assert (j = 0)%nat by lia. subst j. simpl.
        f_equal. unfold after_attempts, count_call. simpl.
        now rewrite Nat.add_1_r, app_nil_r.
Qed.

(** X8.  The live caller with any number [n] of attempts: it sends its
    requests one after the other until one is answered, at most [n] of
    them, sleeping [2 ^ k] seconds after the failure of attempt [k] unless
    that was the last.  The first answer is returned as it is; when none of
    the [n] requests is answered (and when [n] is 0) the result is that of
    the offline generator. *)
Theorem call_ai_real_attempts p t n e :
  client e = true -> ai_enabled e = true ->
  _call_ai_real json_dumps py_repr api p t (Z.of_nat n) e
  = match first_answer api (api_calls e) p t n with
    | Some (k, content) => (Ok content, after_attempts (S k) (waits k) e)
    | None => mock p t (after_attempts n (waits (n - 1)) e)
    end.
Proof.
  intros C A. unfold _call_ai_real, range, waits. rewrite C, A. simpl.
  rewrite Nat2Z.id. now apply retry_suffix.
Qed.

Lemma mock_distinct p t e r e' : mock p t e = (r, e') -> keeps_distinct e e'.
Proof.
  unfold _call_ai_mock, bind, read, lift, modify, ret, keeps_distinct.
  intros H D.
  repeat (break_match; inv_pair; simpl in *; try discriminate); auto;
    rewrite distinct_snoc, D;
    match goal with
    | H : py_mem _ _ = false |- _ => now rewrite H
    end.
Qed.

Lemma keeps_distinct_refl e : keeps_distinct e e.
Proof. unfold keeps_distinct. auto. Qed.

Lemma keeps_distinct_trans e1 e2 e3 :
  keeps_distinct e1 e2 -> keeps_distinct e2 e3 -> keeps_distinct e1 e3.
Proof. unfold keeps_distinct. auto. Qed.

Lemma keeps_distinct_same e e' :
  enemy_skills_used (game_data e') = enemy_skills_used (game_data e) ->
  keeps_distinct e e'.
Proof. unfold keeps_distinct. now intros ->. Qed.

Lemma retry_distinct p t m l e r e' :
  retry json_dumps py_repr api p t m l e = (r, e') -> keeps_distinct e e'.
Proof.
  revert e. induction l as [|a l IH]; simpl; intros e H.
  - eapply mock_distinct; eauto.
  - repeat break_match; inv_pair.
    + now apply keeps_distinct_same.
    + eapply keeps_distinct_trans; [|eapply IH; eauto].
      now apply keeps_distinct_same.
    + eapply keeps_distinct_trans; [|eapply mock_distinct; eauto].
      now apply keeps_distinct_same.
Qed.

Lemma call_ai_distinct p t e r e' : ask p t e = (r, e') -> keeps_distinct e e'.
Proof.
  unfold call_ai, _call_ai_real. intros H.
  repeat break_match; eauto using mock_distinct, retry_distinct.
Qed.

Lemma extract_json_distinct text e r e' :
  repair text e = (r, e') -> keeps_distinct e e'.
Proof.
  unfold extract_json, bind, ret, loads_or_raise, lift. intros H.
  repeat (break_match; unfold ret, lift in *; inv_pair; try discriminate);
    eauto using keeps_distinct_refl, mock_distinct.
Qed.

Lemma update_summary_distinct e r e' :
  update_summary json_dumps py_repr api e = (r, e') -> keeps_distinct e e'.
Proof.
  rewrite update_summary_cases. intros H.
  destruct (summary_due _); [|inv_pair; apply keeps_distinct_refl].
  destruct (ask _ t03 e) as [[s|x] e1] eqn:A; apply call_ai_distinct in A;
    inv_pair; auto.
  destruct (worth_keeping s); auto.
Qed.

Lemma validate_status_skills rd e r e' :
  validate_status rd e = (r, e') ->
  enemy_skills_used (game_data e') = enemy_skills_used (game_data e).
Proof.
  unfold validate_status, write_player, write_enemy, bind, lift, ret, read, modify.
  intros H.
  repeat (break_match; inv_pair; simpl in *; try discriminate); auto.
Qed.

Lemma log_round_distinct rd a now e r e' :
  log_round rd a now e = (r, e') -> keeps_distinct e e'.
Proof.
  unfold log_round, bind, lift, ret, read, modify, keeps_distinct.
  intros H D.
  repeat (break_match; inv_pair; simpl in *; try discriminate); auto;
    rewrite distinct_snoc, D;
    match goal with
    | H : _ && negb (py_mem _ _) = true |- _ =>
        apply andb_true_iff in H; destruct H as [_ H]; now rewrite H
    end.
Qed.

Lemma play_round_distinct a now e r e' :
  play_round json_loads json_dumps py_repr api a now e = (r, e') ->
  keeps_distinct e e'.
Proof.
  unfold play_round, settle_round, record_round, fetch_round, bind, ret,
    modify, read, lift.
  intros H.
  destruct (round_prompt py_repr _ a) as [p|x]; [|inv_pair; now apply keeps_distinct_same].
  destruct (ask p t07 _) as [[text|x] e0] eqn:A; apply call_ai_distinct in A;
    [|inv_pair; exact A].
  destruct (repair text e0) as [[rd|x] e1] eqn:B; apply extract_json_distinct in B;
    [|inv_pair; eapply keeps_distinct_trans; eauto].
  destruct (validate_status rd e1) as [[rd1|x] e2] eqn:V;
    apply validate_status_skills in V; apply keeps_distinct_same in V;
    [|inv_pair; eauto using keeps_distinct_trans].
  destruct (log_round rd1 a now e2) as [[u|x] e3] eqn:L;
    apply log_round_distinct in L;
    [|inv_pair; eauto using keeps_distinct_trans].
  destruct (update_summary json_dumps py_repr api e3) as [[u2|x] e4] eqn:U;
    apply update_summary_distinct in U; inv_pair;
    eauto 6 using keeps_distinct_trans.
Qed.

Lemma initialize_game_distinct pn en now e r e' :
  initialize_game json_loads json_dumps py_repr api pn en now e = (r, e') ->
  keeps_distinct e e'.
Proof.
  unfold initialize_game, bind. intros H.
  destruct (ask (init_prompt pn en) t08 e) as [[response|x] e0] eqn:A;
    apply call_ai_distinct in A; [|inv_pair; exact A].
  destruct (repair response e0) as [[d|x] e1] eqn:B;
    apply extract_json_distinct in B;
    [|inv_pair; eapply keeps_distinct_trans; eauto].
  eapply keeps_distinct_trans; [exact A|].
  eapply keeps_distinct_trans; [exact B|].
  clear A B.
  unfold lift, ret, modify, loads_or_raise, keeps_distinct in *.
  intros D.
  repeat (break_match; unfold ret, lift in *;
          try match goal with
              | M : _call_ai_mock _ _ "初始化" t07 _ = _ |- _ =>
                  rewrite mock_marked in M by reflexivity
              end;
          inv_pair; simpl in *; try discriminate); auto.
Qed.

(** X9.  The used skills of the enemy never hold the same skill twice: a
    list in which no entry equals an earlier one is still such a list after
    [play_round], [initialize_game], [call_ai] and [extract_json], whether
    they return or raise.  The list of a new engine is empty. *)
Theorem used_skills_stay_distinct e :
  distinct (enemy_skills_used (game_data e)) = true ->
  (forall a now,
     distinct (enemy_skills_used
                 (game_data (snd (play_round json_loads json_dumps py_repr api
                                             a now e)))) = true)
  /\ (forall pn en now,
        distinct (enemy_skills_used
                    (game_data (snd (initialize_game json_loads json_dumps
                                       py_repr api pn en now e)))) = true)
  /\ (forall p t,
        distinct (enemy_skills_used (game_data (snd (ask p t e)))) = true)
  /\ (forall text,
        distinct (enemy_skills_used (game_data (snd (repair text e)))) = true)
  /\ (forall b, distinct (enemy_skills_used (game_data (new_engine b))) = true).
Proof.
  intros D.
  split; [intros a now;
          destruct (play_round _ _ _ _ a now e) as [r e'] eqn:H;
          apply play_round_distinct in H; auto|].
  split; [intros pn en now;
          destruct (initialize_game _ _ _ _ pn en now e) as [r e'] eqn:H;
          apply initialize_game_distinct in H; auto|].
  split; [intros p t; destruct (ask p t e) as [r e'] eqn:H;
          apply call_ai_distinct in H; auto|].
  split; [intros text; destruct (repair text e) as [r e'] eqn:H;
          apply extract_json_distinct in H; auto|].
  reflexivity.
Qed.

End Calls.

(** ** The numbers of an offline round *)

Section OfflineRound.

Variable json_dumps : json -> string.
Variable py_repr : json -> string.

Local Abbreviation mock := (_call_ai_mock json_dumps py_repr).

Lemma mock_stage_damage g n st :
  mock_stage py_repr g n = Ok st ->
  80 <= enemy_damage st <= 200 /\ 100 <= player_damage st <= 250.
Proof.
  unfold mock_stage, rbind. intros H.
  repeat (break_match; try discriminate); inversion H; subst; simpl; lia.
Qed.

Lemma py_sub_int c k n r :
  (v <- getitem c k ;; py_sub v n)%res = Ok r ->
  exists x, int_of c k = Some x /\ r = x - n.
Proof.
  unfold rbind, py_sub, int_of.
  destruct (getitem c k) as [v|]; [|discriminate].
  destruct (as_int v) as [x|]; [|discriminate].
  intros H. inversion H. eauto.
Qed.


End OfflineRound.

(** ** The constructor and the menus *)

(** [__init__] ends in mock mode or with the backend enabled, never
    both and never neither. *)
Lemma constructor_one_mode w k m :
  use_mock (__init__ w k m) = negb (ai_enabled (__init__ w k m)).
Proof.
  unfold __init__.
  destruct m; [reflexivity|]. destruct k as [key|]; [|reflexivity]. simpl.
  destruct (openai_found w); [|reflexivity].
  destruct (String.eqb key "" || (py_len (strip key) <? 10)); [reflexivity|].
  destruct (probe w key) as [| |content]; try reflexivity.
  destruct (String.eqb content ""); reflexivity.
Qed.

(** X11.  [__init__] leaves the engine in exactly one of two modes.  It is
    live ([ai_enabled], not [use_mock], mode ["真实AI"]) exactly when mock
    mode was not asked for, the client library is there, the key has at
    least 10 characters once stripped and the probe was answered with a
    text that is not empty; it is then the engine [new_engine true].  In
    every other case it is in mock mode, and each of its calls of the
    backend is answered by the offline generator. *)
Theorem constructor_modes w k m :
  let e := __init__ w k m in
  use_mock e = negb (ai_enabled e)
  /\ live e = ai_enabled e
  /\ game_data e = initial_game (use_mock e)
  /\ (ai_enabled e = true <->
      m = false /\ openai_found w = true
      /\ exists key content,
           k = Some key /\ 10 <= py_len (strip key)
           /\ probe w key = Answer content /\ content <> "")
  /\ (ai_enabled e = true -> e = new_engine true)
  /\ (ai_enabled e = false ->
      forall json_dumps py_repr api p t,
        call_ai json_dumps py_repr api p t e
        = _call_ai_mock json_dumps py_repr p t e).
Proof.
  unfold __init__.
  destruct m; simpl.
  { repeat split; try discriminate; try reflexivity.
    intros (H & _). discriminate. }
  destruct k as [key|]; simpl.
  2:{ repeat split; try discriminate; try reflexivity.
      intros (_ & _ & key & c & H & _). discriminate. }
  destruct (openai_found w) eqn:F; simpl.
  2:{ repeat split; try discriminate; try reflexivity.
      intros (_ & H & _). discriminate. }
  destruct (String.eqb key "") eqn:K; simpl.
  { apply String.eqb_eq in K. subst key.
    repeat split; try discriminate; try reflexivity.
    intros (_ & _ & key & c & H & L & _). inversion H; subst.
    vm_compute in L. exfalso. now apply L. }
  destruct (py_len (strip key) <? 10) eqn:L; simpl.
  { repeat split; try discriminate; try reflexivity.
    intros (_ & _ & key' & c & H & L' & _). inversion H; subst. exfalso. lia. }
  destruct (probe w key) as [| |content] eqn:P; simpl.
  - repeat split; try discriminate; try reflexivity.
    intros (_ & _ & key' & c & H & _ & P' & _). inversion H; subst. congruence.
  - repeat split; try discriminate; try reflexivity.
    intros (_ & _ & key' & c & H & _ & P' & _). inversion H; subst. congruence.
  - destruct (String.eqb content "") eqn:C; simpl.
    + apply String.eqb_eq in C. subst content.
      repeat split; try discriminate; try reflexivity.
      intros (_ & _ & key' & c & H & _ & P' & N). inversion H; subst.
      rewrite P in P'. inversion P'. subst. exfalso. now apply N.
    + apply String.eqb_neq in C.
      repeat split; try discriminate; try reflexivity.
      exists key, content. repeat split; auto. lia.
Qed.

(** X20.  The engine [main] builds.  It is live only when the first line
    typed is 2, or is 3 and the connection test passed, and then it is the
    engine [__init__] makes of the key typed at the prompt that follows:
    after a test that passed the key is asked for again, and it is that
    second key the engine is built with, not the one that was tested.  In
    every other case, an unknown choice included, the engine is the one of
    mock mode. *)
Theorem main_engine_modes w test lines e rest :
  main_engine w test lines = Some (e, rest) ->
  (ai_enabled e = false -> use_mock e = true)
  /\ (ai_enabled e = true ->
      exists key_line,
        e = __init__ w (Some (strip key_line)) false
        /\ ((exists c, lines = c :: key_line :: rest /\ strip c = "2")
            \/ (exists c tested,
                  lines = c :: tested :: key_line :: rest /\ strip c = "3"
                  /\ test_api_connection (test (strip tested)) = true)))
  /\ ((forall c tail, lines = c :: tail -> strip c <> "2" /\ strip c <> "3") ->
      e = __init__ w None true /\ ai_enabled e = false).
Proof.
  intros H.
  assert (M : forall k m, ai_enabled (__init__ w k m) = false ->
                          use_mock (__init__ w k m) = true).
  { intros k m A. rewrite constructor_one_mode, A. reflexivity. }
  split; [|split].
  - intros A. revert H. unfold main_engine.
    destruct lines as [|line rest0]; [discriminate|].
    destruct (String.eqb (strip line) "3").
    + destruct rest0 as [|k0 rest1]; [discriminate|].
      destruct (test_api_connection (test (strip k0))); simpl.
      * destruct rest1 as [|k1 rest2]; [discriminate|].
        destruct (String.eqb (strip k1) ""); intros H; inversion H; subst;
          now apply M.
      * intros H; inversion H; subst. now apply M.
    + destruct (String.eqb (strip line) "2").
      * destruct rest0 as [|k1 rest2]; [discriminate|].
        destruct (String.eqb (strip k1) ""); intros H; inversion H; subst;
          now apply M.
      * intros H; inversion H; subst. now apply M.
  - intros A. revert H. unfold main_engine.
    destruct lines as [|line rest0]; [discriminate|].
    destruct (String.eqb (strip line) "3") eqn:C3.
    + apply String.eqb_eq in C3.
      destruct rest0 as [|k0 rest1]; [discriminate|].
      destruct (test_api_connection (test (strip k0))) eqn:T; simpl.
      * destruct rest1 as [|k1 rest2]; [discriminate|].
        destruct (String.eqb (strip k1) ""); intros H; inversion H; subst.
        -- discriminate.
        -- exists k1. split; [reflexivity|]. right. exists line, k0. auto.
      * intros H; inversion H; subst. discriminate.
    + destruct (String.eqb (strip line) "2") eqn:C2.
      * apply String.eqb_eq in C2.
        destruct rest0 as [|k1 rest2]; [discriminate|].
        destruct (String.eqb (strip k1) ""); intros H; inversion H; subst.
        -- discriminate.
        -- exists k1. split; [reflexivity|]. left. exists line. auto.
      * intros H; inversion H; subst. discriminate.
  - intros N. revert H. unfold main_engine.
    destruct lines as [|line rest0]; [discriminate|].
    destruct (N line rest0 eq_refl) as [N2 N3].
    apply String.eqb_neq in N2, N3. rewrite N3, N2.
    intros H; inversion H; subst. split; reflexivity.
Qed.

(** The digits of a number, read back. *)
Lemma all_digits_uint d : all_digits (NilEmpty.string_of_uint d) = true.
Proof. induction d; simpl; auto. Qed.

Lemma isdigit_dec z : 0 <= z -> isdigit (dec z) = true.
Proof.
  intros H. unfold isdigit, dec.
  destruct z as [|p|p]; [reflexivity| |lia].
  simpl. unfold NilZero.string_of_uint.
  pose proof (DecimalPos.Unsigned.to_uint_nonnil p) as N.
  destruct (Pos.to_uint p) eqn:E; try congruence;
    rewrite <- E at 2; rewrite all_digits_uint; reflexivity.
Qed.

Lemma py_int_dec z : 0 <= z -> py_int (dec z) = z.
Proof.
  intros H. unfold py_int, dec.
  destruct z as [|p|p]; [reflexivity| |lia].
  simpl. rewrite NilZero.usu by apply DecimalPos.Unsigned.to_uint_nonnil.
  unfold Z.of_uint. now rewrite DecimalPos.Unsigned.of_to.
Qed.

Lemma append_empty_r (s : string) : s ++ "" = s.
Proof. induction s as [|c s IH]; simpl; [reflexivity | now rewrite IH]. Qed.

Section Menus.

Variable py_repr : json -> string.

Lemma menu_line_total i o : exists line, menu_line py_repr i (JObj o) = Ok line.
Proof. unfold menu_line. simpl. eauto. Qed.

Lemma menu_lines_append l :
  forall i menu,
    Forall is_dict l ->
    exists lines,
      menu_lines py_repr i l menu = Ok (menu ++ String.concat "" lines)
      /\ List.length lines = List.length l
      /\ forall k sk,
           nth_error l k = Some sk ->
           exists line,
             nth_error lines k = Some line
             /\ menu_line py_repr (i + Z.of_nat k) sk = Ok line.
Proof.
  induction l as [|sk l IH]; intros i menu F; simpl.
  - exists []. split; [now rewrite append_empty_r|]. split; [reflexivity|].
    intros [|k] sk0 N; discriminate.
  - inversion F as [|? ? [o ->] F']; subst.
    destruct (menu_line_total i o) as [line L]. rewrite L. simpl.
    destruct (IH (i + 1) (menu ++ line) F') as (lines & T & Len & K).
    exists (line :: lines). split.
    { rewrite T, append_assoc_str. f_equal.
      destruct lines; simpl; [now rewrite append_empty_r | reflexivity]. }
    split; [simpl; now rewrite Len|].
    intros [|k] sk0 N; simpl in N.
    + inversion N; subst. exists line.
      split; [reflexivity | now rewrite Z.add_0_r].
    + destruct (K k sk0 N) as (line0 & N0 & L0).
      exists line0. split; [exact N0|].
      now replace (i + Z.of_nat (S k)) with (i + 1 + Z.of_nat k) by lia.
Qed.

Lemma skill_menu_lists title none o l :
  lookup "skills" o = Some (JArr l) -> l <> [] -> Forall is_dict l ->
  exists menu,
    skill_menu py_repr title none (JObj o) = Ok menu
    /\ menu_of py_repr title l menu.
Proof.
  intros S N F. unfold skill_menu. simpl. rewrite S.
  destruct l as [|sk0 l0]; [congruence|].
  change (truthy (JArr (sk0 :: l0))) with true. cbv iota beta. simpl negb.
  cbv iota.
  destruct (menu_lines_append 1 title F) as (lines & T & Len & K).
  eexists. split; [exact T|].
  exists lines. split; [exact Len|]. split; [|reflexivity].
  intros k sk E. destruct (K k sk E) as (line & N0 & L).
  exists line. split; [exact N0|].
  now replace (Z.of_nat k + 1) with (1 + Z.of_nat k) by lia.
Qed.

Lemma skill_menu_none title none o :
  lookup "skills" o = None \/ lookup "skills" o = Some (JArr []) ->
  skill_menu py_repr title none (JObj o) = Ok none.
Proof.
  unfold skill_menu. simpl. intros [-> | ->]; reflexivity.
Qed.

Lemma used_lines_append l :
  forall i menu,
    exists lines,
      used_lines py_repr i l menu = menu ++ String.concat "" lines
      /\ List.length lines = List.length l
      /\ forall k sk,
           nth_error l k = Some sk ->
           nth_error lines k
           = Some ("  " ++ dec (i + Z.of_nat k) ++ ". " ++ fmt py_repr sk ++ nl).
Proof.
  induction l as [|sk l IH]; intros i menu; cbn [used_lines].
  - exists []. split; [now rewrite append_empty_r|]. split; [reflexivity|].
    intros [|k] sk0 N; discriminate.
  - set (line := "  " ++ dec i ++ ". " ++ fmt py_repr sk ++ nl).
    destruct (IH (i + 1) (menu ++ line)) as (lines & T & Len & K).
    exists (line :: lines). split.
    { rewrite T, append_assoc_str. f_equal.
      destruct lines; cbn [String.concat];
        [now rewrite append_empty_r | reflexivity]. }
    split; [cbn [List.length]; now rewrite Len|].
    intros [|k] sk0 N; cbn [nth_error] in *.
    + inversion N; subst. unfold line. now rewrite Z.add_0_r.
    + rewrite (K k sk0 N).
      now replace (i + Z.of_nat (S k)) with (i + 1 + Z.of_nat k) by lia.
Qed.

(** X12.  The three menus.  For a combatant whose skills are a list of
    dicts that is not empty, the skill menu is its title followed by one
    line for each skill, in the order of the list and numbered from 1, made
    of the name, the effect and the cost of that skill (["未知技能"],
    ["效果未知"] and 0 for a missing one); it does not raise.  For a
    combatant without skills, or with an empty list of them, the menu is the
    one line saying so, without the title.  The menu of the used skills
    never raises: it is one sentence when there are none, and else a title
    and one numbered line for each. *)
Theorem skill_menus_list_every_skill g :
  (forall o l,
     player g = JObj o -> lookup "skills" o = Some (JArr l) ->
     l <> [] -> Forall is_dict l ->
     exists menu, get_skill_menu py_repr g = Ok menu
                  /\ menu_of py_repr ("🎯🎯 可选技能：" ++ nl) l menu)
  /\ (forall o,
        player g = JObj o ->
        lookup "skills" o = None \/ lookup "skills" o = Some (JArr []) ->
        get_skill_menu py_repr g = Ok ("暂无技能信息" ++ nl))
  /\ (forall o l,
        enemy g = JObj o -> lookup "skills" o = Some (JArr l) ->
        l <> [] -> Forall is_dict l ->
        exists menu, get_enemy_skills py_repr g = Ok menu
                     /\ menu_of py_repr ("👹👹 敌人技能：" ++ nl) l menu)
  /\ (forall o,
        enemy g = JObj o ->
        lookup "skills" o = None \/ lookup "skills" o = Some (JArr []) ->
        get_enemy_skills py_repr g = Ok ("暂无敌人技能信息" ++ nl))
  /\ (enemy_skills_used g = [] ->
      get_enemy_skills_used py_repr g = "👹 敌人尚未使用任何技能")
  /\ (enemy_skills_used g <> [] ->
      exists lines,
        get_enemy_skills_used py_repr g
        = ("👹👹 敌人已使用技能：" ++ nl) ++ String.concat "" lines
        /\ List.length lines = List.length (enemy_skills_used g)
        /\ forall k sk,
             nth_error (enemy_skills_used g) k = Some sk ->
             nth_error lines k
             = Some ("  " ++ dec (Z.of_nat k + 1) ++ ". " ++ fmt py_repr sk ++ nl)).
Proof.
  split; [intros o l P; unfold get_skill_menu; rewrite P;
          apply skill_menu_lists|].
  split; [intros o P; unfold get_skill_menu; rewrite P;
          apply skill_menu_none|].
  split; [intros o l P; unfold get_enemy_skills; rewrite P;
          apply skill_menu_lists|].
  split; [intros o P; unfold get_enemy_skills; rewrite P;
          apply skill_menu_none|].
  unfold get_enemy_skills_used.
  split; [now intros ->|].
  intros N. destruct (enemy_skills_used g) as [|sk0 l0] eqn:U; [congruence|].
  destruct (used_lines_append (sk0 :: l0) 1 ("👹👹 敌人已使用技能：" ++ nl))
    as (lines & T & Len & K).
  exists lines. split; [exact T|]. split; [exact Len|].
  intros k sk E. rewrite (K k sk E).
  now replace (Z.of_nat k + 1) with (1 + Z.of_nat k) by lia.
Qed.


End Menus.

(** ** The console loop *)

Lemma is_game_over_false g :
  is_game_over g = Ok false -> round g < 20.
Proof.
  unfold is_game_over, rbind. intros H.
  repeat (break_match; try discriminate).
  inversion H. lia.
Qed.

Lemma is_game_over_numbers g :
  (exists n, int_of (player g) "hp" = Some n) ->
  (exists n, int_of (enemy g) "hp" = Some n) ->
  exists b, is_game_over g = Ok b.
Proof.
  intros [p P] [q Q].
  destruct (is_game_over_iff g P Q) as (b & H & _). eauto.
Qed.

Section Loop.

Variable json_loads : string -> option json.
Variable json_dumps : json -> string.
Variable py_repr : json -> string.
Variable api : nat -> string -> Q -> option string.

Local Abbreviation play := (play_round json_loads json_dumps py_repr api).
Local Abbreviation turn := (main_turn json_loads json_dumps py_repr api).
Local Abbreviation loop := (main_loop json_loads json_dumps py_repr api).

(** A pass through the body of the loop leaves the engine as it is or
    plays one round. *)
Lemma main_turn_cases line now e :
  snd (turn line now e) = e
  \/ exists a, snd (turn line now e) = snd (play a now e).
Proof.
  unfold main_turn.
  destruct (String.eqb (strip line) ""); [now left|].
  repeat (match goal with
          | |- context [if in_list ?s ?l then _ else _] => destruct (in_list s l)
          end; [now left|]).
  destruct (choose_skill py_repr (game_data e) (strip line)) as [[a|]|x];
    try (now left).
  right. exists a.
  destruct (play a now e) as [[rd|x] e']; simpl; [|reflexivity].
  destruct (round_shown rd (game_data e')) as [[|]|x]; try reflexivity.
  destruct (is_game_over (game_data e')) as [[|]|x]; reflexivity.
Qed.

Lemma main_turn_round line now e :
  round (game_data (snd (turn line now e))) = round (game_data e)
  \/ round (game_data (snd (turn line now e))) = round (game_data e) + 1.
Proof.
  destruct (main_turn_cases line now e) as [-> | [a ->]]; [now left|].
  right.
  pose proof (play_round_accounts json_loads json_dumps py_repr api a now e) as B.
  destruct (play a now e) as [[rd|x] e2]; simpl.
  - tauto.
  - destruct B as [[] _]. simpl in *. assumption.
Qed.

(** The loop starts no round at a counter of 20 or more. *)
Lemma main_loop_bound lines :
  forall e,
    round (game_data (snd (loop lines e))) <= Z.max 20 (round (game_data e)).
Proof.
  induction lines as [|[line now] rest IH]; intros e; simpl.
  - destruct (is_game_over (game_data e)) as [[|]|x]; simpl; lia.
  - destruct (is_game_over (game_data e)) as [[|]|x] eqn:G; simpl; try lia.
    apply is_game_over_false in G.
    pose proof (main_turn_round line now e) as R.
    destruct (turn line now e) as [[|] e'] eqn:T; simpl in *;
      [specialize (IH e')|]; lia.
Qed.

(** X14.  The loop of [main] plays at most one round for each line typed
    and none beyond the 20th: whatever is typed and whatever the backend
    answers, the round counter only moves up, by at most the number of
    lines, and does not pass 20 (or where it started, if that was
    higher). *)
Theorem main_loop_round_cap lines e :
  round (game_data e) <= round (game_data (snd (loop lines e)))
  /\ round (game_data (snd (loop lines e))) <= Z.max 20 (round (game_data e))
  /\ round (game_data (snd (loop lines e))) <= round (game_data e) + len lines.
Proof.
  revert e. induction lines as [|[line now] rest IH]; intros e; simpl.
  - destruct (is_game_over (game_data e)) as [[|]|x]; simpl; unfold len; simpl; lia.
  - destruct (is_game_over (game_data e)) as [[|]|x] eqn:G; simpl;
      try (unfold len; simpl; lia).
    apply is_game_over_false in G.
    pose proof (main_turn_round line now e) as R.
    destruct (turn line now e) as [[|] e'] eqn:T; simpl in *.
    + specialize (IH e'). unfold len in *. simpl List.length.
      rewrite Nat2Z.inj_succ. lia.
    + unfold len. simpl List.length. rewrite Nat2Z.inj_succ. lia.
Qed.

Lemma main_turn_hp_numbers line now e :
  (exists n, int_of (player (game_data e)) "hp" = Some n) ->
  (exists n, int_of (enemy (game_data e)) "hp" = Some n) ->
  (exists n, int_of (player (game_data (snd (turn line now e)))) "hp" = Some n)
  /\ (exists n, int_of (enemy (game_data (snd (turn line now e)))) "hp" = Some n).
Proof.
  intros P E.
  destruct (main_turn_cases line now e) as [-> | [a ->]]; [auto|].
  now apply play_round_hp_numbers.
Qed.

Lemma main_turn_break line now e e' :
  turn line now e = (Break, e') ->
  in_list (lower (strip line)) ["quit"; "exit"; "q"] = true
  \/ is_game_over (game_data e') = Ok true.
Proof.
  unfold main_turn.
  destruct (String.eqb (strip line) ""); [discriminate|].
  destruct (in_list (lower (strip line)) ["quit"; "exit"; "q"]); [now left|].
  repeat (match goal with
          | |- context [if in_list ?s ?l then _ else _] => destruct (in_list s l)
          end; [discriminate|]).
  destruct (choose_skill py_repr (game_data e) (strip line)) as [[a|]|x];
    try discriminate.
  destruct (play a now e) as [[rd|x] e2]; [|discriminate].
  destruct (round_shown rd (game_data e2)) as [[|]|x]; try discriminate.
  destruct (is_game_over (game_data e2)) as [[|]|x] eqn:G; try discriminate.
  intros H. inversion H; subst. now right.
Qed.

(** The loop on a state whose two hp are numbers. *)
Lemma main_loop_runs lines :
  forall e,
    (exists n, int_of (player (game_data e)) "hp" = Some n) ->
    (exists n, int_of (enemy (game_data e)) "hp" = Some n) ->
    exists end_ e',
      loop lines e = (Ok end_, e')
      /\ (exists n, int_of (player (game_data e')) "hp" = Some n)
      /\ (exists n, int_of (enemy (game_data e')) "hp" = Some n).
Proof.
  induction lines as [|[line now] rest IH]; intros e P E; simpl.
  - destruct (is_game_over_numbers _ P E) as [[|] G]; rewrite G; eauto.
  - destruct (is_game_over_numbers _ P E) as [[|] G]; rewrite G; [eauto|].
    destruct (@main_turn_hp_numbers line now e P E) as [P' E'].
    destruct (turn line now e) as [[|] e'] eqn:T; simpl in *; eauto.
Qed.

(** How the loop was left. *)
Lemma main_loop_ending lines :
  forall e end_ e',
    loop lines e = (Ok end_, e') ->
    match end_ with
    | Left =>
        is_game_over (game_data e') = Ok true
        \/ exists line now,
             In (line, now) lines
             /\ in_list (lower (strip line)) ["quit"; "exit"; "q"] = true
    | Waiting => is_game_over (game_data e') = Ok false
    end.
Proof.
  induction lines as [|[line now] rest IH]; intros e end_ e'; simpl.
  - destruct (is_game_over (game_data e)) as [[|]|x] eqn:G; intros H;
      inversion H; subst; auto.
  - destruct (is_game_over (game_data e)) as [[|]|x] eqn:G;
      try (intros H; inversion H; subst; auto; fail).
    destruct (turn line now e) as [[|] e1] eqn:T.
    + intros H. apply IH in H. destruct end_; [|exact H].
      destruct H as [H | (l0 & n0 & I & Q)]; [now left|].
      right. exists l0, n0. auto.
    + intros H. inversion H; subst.
      destruct (@main_turn_break line now e e' T) as [Q | O]; [|now left].
      right. exists line, now. auto.
Qed.

(** X15.  From a state in which the hp of the two combatants are numbers,
    no exception leaves the loop of [main], whatever is typed and whatever
    the backend answers, and the two hp are numbers at its end.  The loop is
    left only when the game is over or on a line that says quit; when the
    lines are used up before that, the game is not over. *)
Theorem main_loop_never_raises lines e :
  (exists n, int_of (player (game_data e)) "hp" = Some n) ->
  (exists n, int_of (enemy (game_data e)) "hp" = Some n) ->
  exists end_ e',
    loop lines e = (Ok end_, e')
    /\ (exists n, int_of (player (game_data e')) "hp" = Some n)
    /\ (exists n, int_of (enemy (game_data e')) "hp" = Some n)
    /\ match end_ with
       | Left =>
           is_game_over (game_data e') = Ok true
           \/ exists line now,
                In (line, now) lines
                /\ in_list (lower (strip line)) ["quit"; "exit"; "q"] = true
       | Waiting => is_game_over (game_data e') = Ok false
       end.
Proof.
  intros P E.
  destruct (@main_loop_runs lines e P E) as (end_ & e' & L & P' & E').
  exists end_, e'.
  split; [exact L|]. split; [exact P'|]. split; [exact E'|].
  eapply main_loop_ending; eauto.
Qed.

Lemma main_loop_keeps_key lines k :
  forall e,
    has_key (player (game_data e)) k ->
    has_key (player (game_data (snd (loop lines e)))) k.
Proof.
  induction lines as [|[line now] rest IH]; intros e H; simpl.
  - destruct (is_game_over (game_data e)) as [[|]|x]; exact H.
  - destruct (is_game_over (game_data e)) as [[|]|x]; try exact H.
    assert (T : has_key (player (game_data (snd (turn line now e)))) k).
    { destruct (main_turn_cases line now e) as [-> | [a ->]]; [exact H|].
      now apply play_round_keeps_name. }
    destruct (turn line now e) as [[|] e']; simpl in *; auto.
Qed.

(** X21.  The report at the end of [main].  From a state in which the two
    hp are numbers and the player has a name, the report after the loop does
    not raise, whatever was typed and answered: it says draw when both hp
    are at most 0, defeat when only that of the player is, victory when only
    that of the enemy is, and else that the battle is undecided, which is
    what a game ended by the round cap or by the phase ["ending"] gets. *)
Theorem main_report_never_raises lines e :
  (exists n, int_of (player (game_data e)) "hp" = Some n) ->
  (exists n, int_of (enemy (game_data e)) "hp" = Some n) ->
  has_key (player (game_data e)) "name" ->
  exists php ehp,
    int_of (player (game_data (snd (loop lines e)))) "hp" = Some php
    /\ int_of (enemy (game_data (snd (loop lines e)))) "hp" = Some ehp
    /\ main_result (game_data (snd (loop lines e)))
       = Ok (if php <=? 0 then (if ehp <=? 0 then Draw else Defeat)
             else if ehp <=? 0 then Victory else Undecided).
Proof.
  intros P E N.
  destruct (@main_loop_runs lines e P E) as (end_ & e' & L & [php P'] & [ehp E']).
  pose proof (@main_loop_keeps_key lines "name" e N) as N'.
  rewrite L in *. simpl in N'. simpl.
  exists php, ehp. split; [exact P'|]. split; [exact E'|].
  destruct (is_game_over_numbers (game_data e') (ex_intro _ _ P') (ex_intro _ _ E'))
    as [b G].
  destruct N' as [nm Nm].
  apply int_of_getitem in P', E'.
  destruct P' as (v1 & G1 & I1), E' as (v2 & G2 & I2).
  unfold main_result, get_game_status, rbind.
  destruct (player (game_data e')) as [| | | | |po] eqn:Pl; try discriminate.
  destruct (enemy (game_data e')) as [| | | | |eo] eqn:En; try discriminate.
  simpl py_copy. cbv iota. rewrite G. simpl s_player. simpl s_enemy.
  rewrite G1. unfold py_le. rewrite I1.
  destruct (php <=? 0); rewrite G2, I2; destruct (ehp <=? 0);
    try rewrite Nm; reflexivity.
Qed.

End Loop.

(** ** An engine that is not live *)

Lemma quiet_refl e : quiet e e.
Proof. split; reflexivity. Qed.

Lemma quiet_trans e1 e2 e3 : quiet e1 e2 -> quiet e2 e3 -> quiet e1 e3.
Proof. intros [] []. split; congruence. Qed.

Lemma frame_live e e' : frame e e' -> live e' = live e.
Proof. intros [[] _]. unfold live. congruence. Qed.

Lemma validate_status_quiet rd e r e' :
  validate_status rd e = (r, e') -> quiet e e' /\ live e' = live e.
Proof.
  unfold validate_status, write_player, write_enemy, bind, lift, ret, read, modify.
  intros H.
  repeat (break_match; inv_pair; simpl in *; try discriminate);
    (split; [split; reflexivity | reflexivity]).
Qed.

Lemma log_round_quiet rd a now e r e' :
  log_round rd a now e = (r, e') -> quiet e e' /\ live e' = live e.
Proof.
  intros H. pose proof (log_round_cases rd a now e) as C. rewrite H in C.
  destruct r as [u|x]; [|subst; split; [apply quiet_refl | reflexivity]].
  destruct C as (ps & es & _ & _ & _ & _ & U1 & U2 & U3 & _ & _ & _ & _ & _ & _ & A & S).
  split; [split; assumption|]. unfold live. congruence.
Qed.

Section Quiet.

Variable json_loads : string -> option json.
Variable json_dumps : json -> string.
Variable py_repr : json -> string.
Variable api : nat -> string -> Q -> option string.

Local Abbreviation mock := (_call_ai_mock json_dumps py_repr).
Local Abbreviation ask := (call_ai json_dumps py_repr api).
Local Abbreviation repair := (extract_json json_loads json_dumps py_repr).

Lemma mock_quiet p t e r e' : mock p t e = (r, e') -> quiet e e'.
Proof.
  unfold _call_ai_mock, bind, read, lift, modify, ret.
  intros H.
  repeat (break_match; inv_pair; simpl in *; try discriminate);
    split; reflexivity.
Qed.

Lemma call_ai_quiet p t e r e' :
  live e = false -> ask p t e = (r, e') -> quiet e e' /\ live e' = false.
Proof.
  intros L H. pose proof H as F. apply call_ai_frame in F.
  apply frame_live in F. rewrite (not_live json_dumps py_repr api e L) in H.
  apply mock_quiet in H. split; [exact H | congruence].
Qed.

Lemma extract_json_quiet text e r e' :
  repair text e = (r, e') -> quiet e e' /\ live e' = live e.
Proof.
  intros H. pose proof H as F. apply extract_json_frame in F.
  apply frame_live in F. split; [|exact F].
  revert H. unfold extract_json, bind, ret, loads_or_raise, lift. intros H.
  repeat (break_match; unfold ret, lift in *; inv_pair; try discriminate);
    eauto using quiet_refl, mock_quiet.
Qed.

Lemma update_summary_quiet e r e' :
  live e = false ->
  update_summary json_dumps py_repr api e = (r, e') ->
  quiet e e' /\ live e' = false.
Proof.
  intros L. rewrite update_summary_cases. intros H.
  destruct (summary_due _); [|inv_pair; split; [apply quiet_refl | exact L]].
  destruct (ask _ t03 e) as [[s|x] e1] eqn:A;
    (eapply call_ai_quiet in A; [|exact L]); inv_pair; auto.
  destruct (worth_keeping s); auto.
Qed.

Lemma play_round_quiet a now e r e' :
  live e = false ->
  play_round json_loads json_dumps py_repr api a now e = (r, e') ->
  quiet e e' /\ live e' = false.
Proof.
  intros L.
  unfold play_round, settle_round, record_round, fetch_round, bind, ret,
    modify, read, lift.
  intros H.
  set (e0 := set_game (set_round (round (game_data e) + 1) (game_data e)) e) in *.
  assert (Q0 : quiet e e0) by (split; reflexivity).
  assert (L0 : live e0 = false) by exact L.
  destruct (round_prompt py_repr _ a) as [p|x]; [|inv_pair; auto].
  destruct (ask p t07 e0) as [[text|x] e1] eqn:A;
    (eapply call_ai_quiet in A; [|exact L0]); destruct A as [Q1 L1];
    [|inv_pair; eauto using quiet_trans].
  destruct (repair text e1) as [[rd|x] e2] eqn:B;
    apply extract_json_quiet in B; destruct B as [Q2 L2];
    [|inv_pair; split; [eauto using quiet_trans | congruence]].
  destruct (validate_status rd e2) as [[rd1|x] e3] eqn:V;
    apply validate_status_quiet in V; destruct V as [Q3 L3];
    [|inv_pair; split; [eauto using quiet_trans | congruence]].
  destruct (log_round rd1 a now e3) as [[u|x] e4] eqn:G;
    apply log_round_quiet in G; destruct G as [Q4 L4];
    [|inv_pair; split; [eauto 6 using quiet_trans | congruence]].
  assert (L4' : live e4 = false) by congruence.
  destruct (update_summary json_dumps py_repr api e4) as [[u2|x] e5] eqn:U;
    (eapply update_summary_quiet in U; [|exact L4']); destruct U as [Q5 L5];
    inv_pair; split; eauto 8 using quiet_trans.
Qed.

Lemma initialize_game_quiet pn en now e r e' :
  live e = false ->
  initialize_game json_loads json_dumps py_repr api pn en now e = (r, e') ->
  quiet e e' /\ live e' = false.
Proof.
  intros L. unfold initialize_game, bind. intros H.
  destruct (ask (init_prompt pn en) t08 e) as [[response|x] e0] eqn:A;
    (eapply call_ai_quiet in A; [|exact L]); destruct A as [Q0 L0];
    [|inv_pair; auto].
  destruct (repair response e0) as [[d|x] e1] eqn:B;
    apply extract_json_quiet in B; destruct B as [Q1 L1];
    [|inv_pair; split; [eauto using quiet_trans | congruence]].
  assert (Q : quiet e e1) by eauto using quiet_trans.
  assert (L1' : live e1 = false) by congruence.
  clear Q0 Q1 L0 L1.
  destruct Q as [Q1 Q2].
  unfold lift, ret, modify, loads_or_raise in *.
  repeat (break_match; unfold ret, lift in *;
          try match goal with
              | M : _call_ai_mock _ _ "初始化" t07 _ = _ |- _ =>
                  rewrite mock_marked in M by reflexivity
              end;
          inv_pair; simpl in *; try discriminate);
    (split; [split; assumption | assumption]).
Qed.

(** X18.  An engine that is not live never reaches for the endpoint:
    through [call_ai], [play_round] and [initialize_game], whether they
    return or raise, no request is sent and no second is slept, and the
    engine is still not live afterwards. *)
Theorem offline_engine_sends_nothing e :
  live e = false ->
  (forall p t, quiet e (snd (ask p t e)) /\ live (snd (ask p t e)) = false)
  /\ (forall a now,
        quiet e (snd (play_round json_loads json_dumps py_repr api a now e))
        /\ live (snd (play_round json_loads json_dumps py_repr api a now e))
           = false)
  /\ (forall pn en now,
        quiet e (snd (initialize_game json_loads json_dumps py_repr api
                                      pn en now e))
        /\ live (snd (initialize_game json_loads json_dumps py_repr api
                                      pn en now e)) = false).
Proof.
  intros L.
  split; [intros p t; destruct (ask p t e) as [r e'] eqn:H;
          eapply call_ai_quiet; eauto|].
  split; [intros a now;
          destruct (play_round _ _ _ _ a now e) as [r e'] eqn:H;
          eapply play_round_quiet; eauto|].
  intros pn en now.
  destruct (initialize_game _ _ _ _ pn en now e) as [r e'] eqn:H.
  eapply initialize_game_quiet; eauto.
Qed.

End Quiet.

(** ** The start of [main], and a whole session offline *)

Lemma default_config_keys pn en g k :
  In k ["name"; "hp"; "max_hp"] ->
  has_key (player (default_config pn en g)) k
  /\ has_key (enemy (default_config pn en g)) k.
Proof.
  simpl. intros [<-|[<-|[<-|[]]]]; split; eexists; reflexivity.
Qed.

Section Start.

Variable json_loads : string -> option json.
Variable json_dumps : json -> string.
Variable py_repr : json -> string.
Variable api : nat -> string -> Q -> option string.

Lemma opening_shown_keys g k :
  opening_shown py_repr g = true ->
  In k ["name"; "hp"; "max_hp"] ->
  has_key (player g) k /\ has_key (enemy g) k.
Proof.
  unfold opening_shown, rbind, has_key.
  destruct (history g) as [|first rest]; [discriminate|].
  destruct (getitem first "narrative"); [|discriminate].
  destruct (getitem (player g) "name") as [v1|] eqn:E1; [|discriminate].
  destruct (getitem (player g) "hp") as [v2|] eqn:E2; [|discriminate].
  destruct (getitem (player g) "max_hp") as [v3|] eqn:E3; [|discriminate].
  destruct (getitem (enemy g) "name") as [v4|] eqn:E4; [|discriminate].
  destruct (getitem (enemy g) "hp") as [v5|] eqn:E5; [|discriminate].
  destruct (getitem (enemy g) "max_hp") as [v6|] eqn:E6; [|discriminate].
  intros _. simpl. intros [<-|[<-|[<-|[]]]]; eauto.
Qed.

(** X16.  [main] enters its loop with two combatants that have a name, an
    hp and a max_hp, whatever [initialize_game] did: when the initialisation
    raises, or when what it stored cannot be shown, the handler puts the
    default combatants in their place.  [main] returns before the loop only
    when the record of the initialisation has an ["error"] key. *)
Theorem main_setup_ready pl el now e :
  match main_setup json_loads json_dumps py_repr api pl el now e with
  | Some e' =>
      forall k, In k ["name"; "hp"; "max_hp"] ->
                has_key (player (game_data e')) k
                /\ has_key (enemy (game_data e')) k
  | None =>
      exists data e1,
        initialize_game json_loads json_dumps py_repr api
                        (or_default pl "流浪武士") (or_default el "机械章鱼")
                        now e = (Ok data, e1)
        /\ py_in "error" data = Ok true
  end.
Proof.
  unfold main_setup.
  destruct (initialize_game _ _ _ _ _ _ now e) as [[d|x] e1];
    [|intros k; apply default_config_keys].
  destruct (py_in "error" d) as [[|]|x] eqn:I;
    [| |intros k; apply default_config_keys].
  - destruct (getitem d "error"); [eauto | intros k; apply default_config_keys].
  - destruct (opening_shown py_repr (game_data e1)) eqn:O;
      [intros k; now apply opening_shown_keys | intros k; apply default_config_keys].
Qed.

Lemma main_loop_quiet lines :
  forall e,
    live e = false ->
    quiet e (snd (main_loop json_loads json_dumps py_repr api lines e)).
Proof.
  induction lines as [|[line now] rest IH]; intros e L; simpl.
  - destruct (is_game_over (game_data e)) as [[|]|x]; apply quiet_refl.
  - destruct (is_game_over (game_data e)) as [[|]|x]; try apply quiet_refl.
    assert (T : quiet e (snd (main_turn json_loads json_dumps py_repr api
                                        line now e))
                /\ live (snd (main_turn json_loads json_dumps py_repr api
                                        line now e)) = false).
    { destruct (main_turn_cases json_loads json_dumps py_repr api line now e)
        as [-> | [a ->]]; [split; [apply quiet_refl | exact L]|].
      destruct (play_round json_loads json_dumps py_repr api a now e)
        as [r e'] eqn:P.
      eapply play_round_quiet; eauto. }
    destruct (main_turn _ _ _ _ line now e) as [[|] e'];
      simpl in *; destruct T as [Q L'].
    + eapply quiet_trans; [exact Q | apply IH; exact L'].
    + exact Q.
Qed.

End Start.

Section Session.

Variable py_repr : json -> string.
Variable api : nat -> string -> Q -> option string.

Lemma mock_engine_setup pl el now e :
  use_mock e = true -> game_data e = initial_game true ->
  main_setup Codec.loads Codec.dumps py_repr api pl el now e
  = Some (set_game (game_data (offline_seeded now)) e).
Proof.
  intros U G. unfold main_setup, initialize_game, bind.
  rewrite offline_ask by exact U.
  rewrite mock_marked by apply init_prompt_marked.
  erewrite extract_json_direct by (vm_compute; reflexivity).
  destruct e as [um ai cl g n sl]. simpl in U, G. subst um g.
  vm_compute. reflexivity.
Qed.

(** X17.  A session in mock mode, from an engine as [__init__] leaves it
    there, with the reference reader and writer: whatever names and lines
    are typed, [main] enters its loop with the two combatants of the seed of
    the offline generator (the names typed are not used), no exception
    leaves the loop, the round counter ends at 20 at most, and no request is
    sent. *)
Theorem offline_session pl el now lines e :
  use_mock e = true -> game_data e = initial_game true ->
  exists e1 end_ e2,
    main_setup Codec.loads Codec.dumps py_repr api pl el now e = Some e1
    /\ getitem seed_record "player" = Ok (player (game_data e1))
    /\ getitem seed_record "enemy" = Ok (enemy (game_data e1))
    /\ main_loop Codec.loads Codec.dumps py_repr api lines e1 = (Ok end_, e2)
    /\ round (game_data e2) <= 20
    /\ quiet e e2.
Proof.
  intros U G.
  set (e1 := set_game (game_data (offline_seeded now)) e).
  assert (P : exists n, int_of (player (game_data e1)) "hp" = Some n)
    by (eexists; vm_compute; reflexivity).
  assert (E : exists n, int_of (enemy (game_data e1)) "hp" = Some n)
    by (eexists; vm_compute; reflexivity).
  destruct (@main_loop_runs Codec.loads Codec.dumps py_repr api lines e1 P E)
    as (end_ & e2 & L & _).
  exists e1, end_, e2.
  split; [now apply mock_engine_setup|].
  split; [vm_compute; reflexivity|]. split; [vm_compute; reflexivity|].
  split; [exact L|].
  pose proof (main_loop_bound Codec.loads Codec.dumps py_repr api lines e1)
    as R.
  pose proof (@main_loop_quiet Codec.loads Codec.dumps py_repr api lines e1) as Q.
  rewrite L in R, Q. cbn [snd] in R, Q.
  assert (R0 : round (game_data e1) = 0) by (vm_compute; reflexivity).
  split; [lia|].
  eapply quiet_trans; [split; reflexivity|]. apply Q.
  unfold live. simpl. now rewrite U.
Qed.

End Session.

(** ** The summary of an engine that is not live *)

Lemma py_len_cons c s :
  py_len (String c s)
  = (if ((128 <=? nat_of_ascii c) && (nat_of_ascii c <? 192))%nat then 0 else 1)
    + py_len s.
Proof. reflexivity. Qed.

Lemma py_len_nonneg s : 0 <= py_len s.
Proof.
  induction s as [|c s IH]; [simpl; lia|].
  rewrite py_len_cons.
  destruct ((128 <=? nat_of_ascii c)%nat && (nat_of_ascii c <? 192)%nat); lia.
Qed.

Lemma py_len_ascii_prefix (p s : string) :
  py_len p = Z.of_nat (String.length p) -> 
  py_len (p ++ s) = Z.of_nat (String.length p) + py_len s.
Proof.
  revert s. induction p as [|c p IH]; intros s H; [simpl; lia|].
  change (String c p ++ s) with (String c (p ++ s)).
  rewrite py_len_cons in *.
  pose proof (py_len_nonneg p).
  assert (B : py_len p <= Z.of_nat (String.length p)).
  { clear. induction p as [|c p IH]; [simpl; lia|].
    rewrite py_len_cons. simpl String.length.
    destruct ((128 <=? nat_of_ascii c)%nat && (nat_of_ascii c <? 192)%nat); lia. }
  simpl String.length in *.
  destruct ((128 <=? nat_of_ascii c)%nat && (nat_of_ascii c <? 192)%nat);
    [lia|].
  rewrite IH by lia. lia.
Qed.

Lemma round_record_worth_keeping st a b c d :
  worth_keeping (Codec.dumps (round_record st a b c d)) = true.
Proof.
  rewrite worth_keeping_len.
  unfold Codec.dumps, round_record. cbn [Codec.dumps_at].
  match goal with
  | |- (10 <? py_len (?x ++ ?y ++ (?z ++ ?w ++ ?rest) ++ ?tail)) = true =>
      replace (x ++ y ++ (z ++ w ++ rest) ++ tail)
        with ((x ++ y ++ z ++ w) ++ (rest ++ tail))
        by (rewrite !append_assoc_str; reflexivity);
      rewrite (py_len_ascii_prefix (x ++ y ++ z ++ w)) by (vm_compute; reflexivity);
      pose proof (py_len_nonneg (rest ++ tail));
      change (Z.of_nat (String.length (x ++ y ++ z ++ w))) with 15
  end.
  lia.
Qed.

Section OfflineSummary.

Variable py_repr : json -> string.
Variable api : nat -> string -> Q -> option string.

Lemma mock_text_is_a_record p t e text e1 :
  _call_ai_mock Codec.dumps py_repr p t e = (Ok text, e1) ->
  text = Codec.dumps seed_record
  \/ exists st a b c d, text = Codec.dumps (round_record st a b c d).
Proof.
  intros H. pose proof (mock_value Codec.dumps py_repr p t e) as V.
  rewrite H in V. simpl in V. destruct (marked p).
  - left. now inversion V.
  - right. unfold offline_text, rbind in V.
    repeat (break_match; try discriminate). inversion V. eauto 6.
Qed.

(** X19.  The summary of an engine that is not live, with the reference
    writer: in a turn where the summary is due, whatever the offline
    generator answers becomes the summary.  That answer is no summary of
    the battle: it is the JSON text of the seed, or of a round record the
    generator made up as it does for a round, and the call may have added
    the skill of that record to the used skills. *)
Theorem offline_summary_is_a_record e text e1 :
  live e = false ->
  summary_due (len (history (game_data e))) = true ->
  _call_ai_mock Codec.dumps py_repr (summary_prompt py_repr (game_data e)) t03 e
  = (Ok text, e1) ->
  update_summary Codec.dumps py_repr api e
  = (Ok tt, set_game (set_summary text (game_data e1)) e1)
  /\ (text = Codec.dumps seed_record
      \/ exists st a b c d, text = Codec.dumps (round_record st a b c d))
  /\ frame e e1.
Proof.
  intros L D H.
  pose proof (mock_text_is_a_record _ _ _ H) as T.
  split; [|split; [exact T | eapply mock_frame; eauto]].
  rewrite update_summary_cases, D, (not_live Codec.dumps py_repr api e L), H.
  destruct T as [-> | (st & a & b & c & d & ->)].
  - reflexivity.
  - now rewrite round_record_worth_keeping.
Qed.

End OfflineSummary.

(** * More runs of the engine *)

Example seeded_skill_menu :
  get_skill_menu Codec.repr (game_data (offline_seeded "12:00:00"))
  = Ok ("🎯🎯 可选技能：" ++ nl
        ++ "  1. 拔刀斩 - 造成200-300伤害 (消耗: 20 CONC)" ++ nl
        ++ "  2. 心眼 - 下回合攻击必中 (消耗: 15 CONC)" ++ nl
        ++ "  3. 剑气护体 - 获得200点护盾 (消耗: 25 CONC)" ++ nl
        ++ "  4. 冥想 - 恢复50点CONC (消耗: 0 CONC)" ++ nl).
Proof. vm_compute. reflexivity. Qed.

Example console_helpers :
  lower "QuIt" = "quit" /\ isdigit "007" = true /\ py_int "007" = 7
  /\ isdigit "" = false /\ isdigit "1a" = false
  /\ or_default "   " "流浪武士" = "流浪武士" /\ or_default " Bob " "x" = "Bob".
Proof. repeat split; vm_compute; reflexivity. Qed.

(** A key of nine characters, and a probe that is not answered: mock
    mode both times, with a client in the second case. *)
Example constructor_falls_back :
  __init__ (mkWorld true (fun _ => Answer "ok")) (Some " sk-123456 ") false
  = new_engine false
  /\ use_mock (__init__ (mkWorld true (fun _ => NoAnswer)) (Some "sk-12345678")
                        false) = true
  /\ client (__init__ (mkWorld true (fun _ => NoAnswer)) (Some "sk-12345678")
                      false) = true
  /\ __init__ (mkWorld true (fun _ => Answer "ok")) (Some "sk-12345678") false
     = new_engine true.
Proof. repeat split; vm_compute; reflexivity. Qed.

(** Offline, twelve attacks: the loop is left after the eighth round,
    with both combatants at 0 hp, in the phase ["climax"]; the result is a
    draw. *)
Example offline_game_is_a_draw :
  let fin := main_loop Codec.loads Codec.dumps Codec.repr (scripted [])
                       (attack_lines 12) (offline_seeded "12:00:00") in
  fst fin = Ok Left
  /\ round (game_data (snd fin)) = 8
  /\ int_of (player (game_data (snd fin))) "hp" = Some 0
  /\ int_of (enemy (game_data (snd fin))) "hp" = Some 0
  /\ phase (game_data (snd fin)) = JStr "climax"
  /\ main_result (game_data (snd fin)) = Ok Draw.
Proof. vm_compute. repeat split; reflexivity. Qed.

Lemma play_round_reports_state_witness :
  exists rd e2 st,
    play_round Codec.loads Codec.dumps Codec.repr (scripted script_high)
               "attack" "12:00:01" (live_after_init script_high) = (Ok rd, e2)
    /\ getitem rd "status" = Ok (JObj st)
    /\ getitem (player (game_data e2)) "hp" = getitem (JObj st) "player_hp"
    /\ clamped (player (game_data e2)).
Proof.
  destruct (play_round Codec.loads Codec.dumps Codec.repr (scripted script_high)
                       "attack" "12:00:01" (live_after_init script_high))
    as [[rd|x] e2] eqn:R; [|vm_compute in R; discriminate].
  assert (I : py_in "status" rd = Ok true).
  { pose proof R as R'. vm_compute in R'. inversion R'. reflexivity. }
  destruct (@play_round_reports_state Codec.loads Codec.dumps Codec.repr
              (scripted script_high) "attack" "12:00:01"
              (live_after_init script_high) rd e2 R I)
    as (st & G & H1 & _ & _ & _ & C & _).
  exists rd, e2, st. auto.
Defined.

Lemma play_round_rejects_bad_status_witness :
  play_round Codec.loads Codec.dumps Codec.repr (scripted script_words)
             "attack" "12:00:01" (live_after_init script_words)
  = (Raise TypeError,
     snd (run_fetch (scripted script_words) "attack"
                    (live_after_init script_words))).
Proof.
  destruct (@play_round_rejects_bad_status Codec.loads Codec.dumps Codec.repr
              (scripted script_words) "attack" "12:00:01"
              (live_after_init script_words)
              [("narrative", JStr "a blow");
               ("status", JObj [("player_hp", JStr "900"); ("enemy_hp", JInt 700)])]
              (JObj [("player_hp", JStr "900"); ("enemy_hp", JInt 700)])
              (snd (run_fetch (scripted script_words) "attack"
                              (live_after_init script_words))))
    as (_ & T & _).
  - vm_compute. reflexivity.
  - reflexivity.
  - apply (T [("player_hp", JStr "900"); ("enemy_hp", JInt 700)]
             "player_hp" (JStr "900"));
      [reflexivity | simpl; auto | reflexivity | reflexivity].
Defined.

Lemma initialize_game_falls_back_witness :
  exists e',
    initialize_game Codec.loads Codec.dumps Codec.repr (scripted script_alone)
                    "A" "B" "12:00:00" (new_engine true) = (Ok seed_record, e')
    /\ getitem seed_record "player" = Ok (player (game_data e')).
Proof.
  destruct (@initialize_game_falls_back Codec.loads Codec.dumps Codec.repr
              (scripted script_alone) "A" "B" "12:00:00" (new_engine true)
              [("player", combatant "A" 900 900 100)]
              (snd (fetch_seed Codec.loads Codec.dumps Codec.repr
                               (scripted script_alone) "A" "B" (new_engine true))))
    as (e' & I & P & _).
  - vm_compute. reflexivity.
  - right. reflexivity.
  - vm_compute. reflexivity.
  - exists e'. auto.
Defined.

Lemma initialize_game_fills_defaults_witness :
  exists d e',
    initialize_game Codec.loads Codec.dumps Codec.repr (scripted script_no_hp)
                    "A" "B" "12:00:00" (new_engine true) = (Ok d, e')
    /\ int_of (player (game_data e')) "hp" = Some 1000
    /\ int_of (player (game_data e')) "max_hp" = Some 1000
    /\ int_of (player (game_data e')) "conc" = Some 100
    /\ enemy (game_data e') = JObj [("name", JStr "B"); ("hp", JInt 700)].
Proof.
  destruct (@initialize_game_fills_defaults Codec.loads Codec.dumps Codec.repr
              (scripted script_no_hp) "A" "B" "12:00:00" (new_engine true)
              [("player", JObj [("name", JStr "A"); ("max_hp", JInt 900);
                                ("conc", JInt 40)]);
               ("enemy", JObj [("name", JStr "B"); ("hp", JInt 700)]);
               ("reason", JStr "a feud")]
              [("name", JStr "A"); ("max_hp", JInt 900); ("conc", JInt 40)]
              [("name", JStr "B"); ("hp", JInt 700)]
              (snd (fetch_seed Codec.loads Codec.dumps Codec.repr
                               (scripted script_no_hp) "A" "B" (new_engine true))))
    as (d & e' & I & P & E & _).
  - vm_compute. reflexivity.
  - reflexivity.
  - reflexivity.
  - exists d, e'. rewrite P, E. repeat split; try reflexivity. exact I.
Defined.


Lemma call_ai_real_attempts_witness :
  _call_ai_real Codec.dumps Codec.repr (scripted script_late) "x" t07
                (Z.of_nat 5) (live_after_init script_late)
  = (Ok "late", after_attempts 3 [1; 2] (live_after_init script_late)).
Proof.
  rewrite (@call_ai_real_attempts Codec.dumps Codec.repr (scripted script_late)
             "x" t07 5%nat (live_after_init script_late))
    by (vm_compute; reflexivity).
  vm_compute. reflexivity.
Defined.

Lemma used_skills_stay_distinct_witness :
  enemy_skills_used (game_data after_two_rounds) = [JStr "触手鞭笞"]
  /\ distinct (enemy_skills_used
                 (game_data (snd (run_round (scripted []) "attack" "12:00:03"
                                            after_two_rounds)))) = true.
Proof.
  split; [vm_compute; reflexivity|].
  refine (proj1 (@used_skills_stay_distinct Codec.loads Codec.dumps Codec.repr
                   (scripted []) after_two_rounds _) "attack" "12:00:03").
  vm_compute. reflexivity.
Defined.



Lemma main_loop_never_raises_witness :
  exists end_ e',
    main_loop Codec.loads Codec.dumps Codec.repr (scripted []) typed_lines
              (offline_seeded "12:00:00") = (Ok end_, e')
    /\ exists n, int_of (player (game_data e')) "hp" = Some n.
Proof.
  destruct (@main_loop_never_raises Codec.loads Codec.dumps Codec.repr
              (scripted []) typed_lines (offline_seeded "12:00:00"))
    as (end_ & e' & L & P & _);
    [eexists; vm_compute; reflexivity | eexists; vm_compute; reflexivity |].
  eauto.
Defined.

Lemma offline_session_witness :
  exists e1 end_ e2,
    main_setup Codec.loads Codec.dumps Codec.repr (scripted [])
               "Alice" "Bob" "12:00:00" (new_engine false) = Some e1
    /\ getitem (player (game_data e1)) "name" = Ok (JStr "流浪武士")
    /\ main_loop Codec.loads Codec.dumps Codec.repr (scripted []) typed_lines e1
       = (Ok end_, e2)
    /\ round (game_data e2) <= 20.
Proof.
  destruct (@offline_session Codec.repr (scripted []) "Alice" "Bob" "12:00:00"
              typed_lines (new_engine false) eq_refl eq_refl)
    as (e1 & end_ & e2 & S & P & _ & L & R & _).
  exists e1, end_, e2. split; [exact S|]. split; [|auto].
  simpl in P. inversion P as [P']. reflexivity.
Defined.

Lemma offline_engine_sends_nothing_witness :
  api_calls (snd (run_round (scripted script_seed) "attack" "12:00:01"
                            (offline_seeded "12:00:00")))
  = api_calls (offline_seeded "12:00:00").
Proof.
  destruct (@offline_engine_sends_nothing Codec.loads Codec.dumps Codec.repr
              (scripted script_seed) (offline_seeded "12:00:00"))
    as (_ & P & _); [vm_compute; reflexivity|].
  destruct (P "attack" "12:00:01") as [[Q _] _]. exact Q.
Defined.

Lemma offline_summary_is_a_record_witness :
  exists text e1,
    update_summary Codec.dumps Codec.repr (scripted []) after_two_rounds
    = (Ok tt, set_game (set_summary text (game_data e1)) e1)
    /\ exists st a b c d, text = Codec.dumps (round_record st a b c d).
Proof.
  destruct (_call_ai_mock Codec.dumps Codec.repr
              (summary_prompt Codec.repr (game_data after_two_rounds)) t03
              after_two_rounds) as [[text|x] e1] eqn:M;
    [|vm_compute in M; discriminate].
  destruct (@offline_summary_is_a_record Codec.repr (scripted [])
              after_two_rounds text e1) as (U & [T|T] & _);
    [vm_compute; reflexivity | vm_compute; reflexivity | exact M | |].
  - exfalso. subst text. vm_compute in M. discriminate.
  - exists text, e1. auto.
Defined.

Lemma main_engine_modes_witness :
  exists e,
    main_engine (mkWorld true (fun _ => Answer "ok"))
                (fun _ => Answer "连接成功")
                ["3"; "sk-tested-key"; " sk-12345678 "; "Alice"]
    = Some (e, ["Alice"])
    /\ e = __init__ (mkWorld true (fun _ => Answer "ok")) (Some "sk-12345678") false
    /\ ai_enabled e = true.
Proof.
  eexists. split; [vm_compute; reflexivity|].
  split; [|reflexivity].
  edestruct (@main_engine_modes (mkWorld true (fun _ => Answer "ok"))
               (fun _ => Answer "连接成功")
               ["3"; "sk-tested-key"; " sk-12345678 "; "Alice"])
    as (_ & A & _); [vm_compute; reflexivity|].
  destruct (A eq_refl) as (key_line & E & _). reflexivity.
Defined.

Lemma main_report_never_raises_witness :
  main_result
    (game_data (snd (main_loop Codec.loads Codec.dumps Codec.repr (scripted [])
                               typed_lines (offline_seeded "12:00:00"))))
  = Ok Undecided.
Proof.
  destruct (@main_report_never_raises Codec.loads Codec.dumps Codec.repr
              (scripted []) typed_lines (offline_seeded "12:00:00"))
    as (php & ehp & P & E & R);
    [eexists; vm_compute; reflexivity | eexists; vm_compute; reflexivity
     | eexists; vm_compute; reflexivity |].
  vm_compute in P, E. inversion P; inversion E; subst. exact R.
Defined.

(** A round that changes the hp of the player leaves the max_hp alone. *)
Example max_hp_is_not_written :
  int_of (player (game_data (snd (run_round (scripted script_high) "attack"
                                            "12:00:01"
                                            (live_after_init script_high)))))
         "max_hp" = Some 1200
  /\ int_of (player (game_data (snd (run_round (scripted script_high) "attack"
                                               "12:00:01"
                                               (live_after_init script_high)))))
            "hp" = Some 1800.
Proof. split; vm_compute; reflexivity. Qed.
